(** * The BigQuery batch loader of ISB-CGC-data-proc

    A shallow embedding of [bigquery_etl/load/load_data_from_file.py]
    (Python 2) as interaction trees.  The script talks to its collaborators
    (Cloud Storage, the BigQuery job service, the clock, the UUID generator,
    standard output) and polls a job in an unbounded loop, so a program is an
    [itree] over one event, "call a collaborator", whose answer is either a
    Python value or a raised exception.  Stubs for the collaborators are an
    environment; interpreting a program against an environment threads the
    history of the calls made so far. *)

From Stdlib Require Import String Ascii List ZArith Lia Bool DecimalString.
From ITree Require Import ITree ITreeFacts Events.State Events.StateFacts.
From Paco Require Import paco.
From ITree Require Import Props.Leaf.
Import ListNotations.

Set Warnings "-register-all".
Local Open Scope string_scope.
Local Open Scope list_scope.
Local Open Scope Z_scope.

(* ===================================================================== *)
(** ** Python values and exceptions *)
(* ===================================================================== *)

(** The values the script handles: [None], booleans, integers, strings,
    lists and dicts.  A dict is kept as the list of its items in
    iteration order. *)
Inductive value : Type :=
| VNone
| VBool (b : bool)
| VInt (n : Z)
| VStr (s : string)
| VList (l : list value)
| VDict (d : list (string * value)).

(** The argument of a [RuntimeError]: an object passed as it is, or the
    text [json.dumps(v, indent=4)], kept as the value it renders. *)
Inductive exn_arg : Type :=
| Obj (v : value)
| JsonText (v : value).

Inductive exn : Type :=
| RuntimeError (arg : exn_arg)
| ValueError (msg : string)
| KeyError (key : string)
| IndexError
| TypeError
| Raised (what : value).        (* raised inside a collaborator *)

Definition result (A : Type) : Type := (exn + A)%type.

Module Py.

(** [d[k]] for a string key. *)
Fixpoint lookup (k : string) (d : list (string * value)) : option value :=
  match d with
  | [] => None
  | (k', v) :: d' => if String.eqb k k' then Some v else lookup k d'
  end.

Definition getitem (v : value) (k : string) : result value :=
  match v with
  | VDict d => match lookup k d with
               | Some x => inr x
               | None => inl (KeyError k)
               end
  | _ => inl TypeError
  end.

(** [v == s] for a string literal [s]. *)
Definition eq_str (v : value) (s : string) : bool :=
  match v with
  | VStr s' => String.eqb s' s
  | _ => false
  end.

(** [v != n] for an integer [n]; a boolean compares as 0 or 1, any other
    type is unequal to every integer. *)
Definition ne_int (v : value) (n : Z) : bool :=
  match v with
  | VInt m => negb (m =? n)
  | VBool b => negb ((if b then 1 else 0) =? n)
  | _ => true
  end.

Fixpoint is_substring (p s : string) : bool :=
  String.prefix p s ||
  match s with
  | EmptyString => false
  | String _ s' => is_substring p s'
  end.

(** [k in v] for a string [k]. *)
Definition contains (k : string) (v : value) : result bool :=
  match v with
  | VDict d => inr (match lookup k d with Some _ => true | None => false end)
  | VList l => inr (existsb (fun x => eq_str x k) l)
  | VStr s => inr (is_substring k s)
  | _ => inl TypeError
  end.

(** [s.split(sep)] for a one-character separator. *)
Fixpoint split (sep : ascii) (s : string) : list string :=
  match s with
  | EmptyString => [EmptyString]
  | String c s' =>
      if Ascii.eqb c sep then EmptyString :: split sep s'
      else match split sep s' with
           | [] => [String c EmptyString]
           | w :: ws => String c w :: ws
           end
  end.

(** [l[i]] *)
Definition index {A} (l : list A) (i : nat) : result A :=
  match nth_error l i with
  | Some x => inr x
  | None => inl IndexError
  end.

(** [l[3:-1]] *)
Definition slice_3_m1 {A} (l : list A) : list A := removelast (skipn 3 l).

(** [sep.join(l)] *)
Definition join (sep : string) (l : list string) : string := String.concat sep l.

(** [str(n)] for an integer, the text [%d] produces. *)
Definition decimal (n : Z) : string := NilZero.string_of_int (Z.to_int n).

(** [%d] applied to a value: only numbers format. *)
Definition fmt_d (v : value) : result string :=
  match v with
  | VInt n => inr (decimal n)
  | VBool b => inr (decimal (if b then 1 else 0))
  | _ => inl TypeError
  end.

(** The number of rounds of [for _ in v: count += 1], starting from 0. *)
Definition count_iter (v : value) : result Z :=
  match v with
  | VList l => inr (fold_left (fun c _ => c + 1) l 0)
  | VDict d => inr (fold_left (fun c _ => c + 1) d 0)
  | VStr s => inr (fold_left (fun c _ => c + 1) (list_ascii_of_string s) 0)
  | _ => inl TypeError
  end.

End Py.

(* ===================================================================== *)
(** ** Collaborators and programs *)
(* ===================================================================== *)

(** Every call that leaves the script. *)
Inductive call : Type :=
| time_sleep (secs : Z)
| print (s : string)
| uuid4                                            (* str(uuid.uuid4()) *)
| get_application_default
| storage_Client (project : string)
| get_bucket (client : value) (name : string)
| list_blobs (bucket : value) (prefix : string)
| discovery_build (api version : string) (credentials : value)
| json_load_file (path : string)                   (* open(path) and json.load *)
| jobs_insert (bigquery : value) (projectId : string) (body : value) (num_retries : Z)
| jobs_get_execute (bigquery : value) (projectId jobId : value) (num_retries : Z).

Variant ioE : Type -> Type :=
| Call (c : call) : ioE (result value).

(** A Python computation: an interaction tree that ends in a raised
    exception or a value. *)
Definition M (A : Type) : Type := itree ioE (result A).

Definition ret {A} (a : A) : M A := Ret (inr a).
Definition raise {A} (e : exn) : M A := Ret (inl e).
Definition lift {A} (r : result A) : M A := Ret r.
Definition ext (c : call) : M value := ITree.trigger (Call c).

Definition bind {A B} (m : M A) (k : A -> M B) : M B :=
  ITree.bind m (fun r => match r with
                         | inl e => Ret (inl e)
                         | inr a => k a
                         end).

(** A loop whose body says how to go on ([inl]) or what to return ([inr]);
    an exception leaves the loop. *)
Definition loop_step {I A} (body : I -> M (I + A)) (i : I) : itree ioE (I + result A) :=
  ITree.bind (body i) (fun r => match r with
                                | inl e => Ret (inr (inl e))
                                | inr (inl i') => Ret (inl i')
                                | inr (inr a) => Ret (inr (inr a))
                                end).

Definition loop {I A} (body : I -> M (I + A)) (i : I) : M A :=
  ITree.iter (loop_step body) i.

Declare Scope py_scope.
Delimit Scope py_scope with py.
Notation "x <- m ;; k" := (bind m (fun x => k))
  (at level 61, m at next level, right associativity) : py_scope.
Notation "m ;; k" := (bind m (fun _ => k))
  (at level 61, right associativity) : py_scope.
Local Open Scope py_scope.

(* ===================================================================== *)
(** ** load_data_from_file.py *)
(* ===================================================================== *)

(** The request body [load_table] builds; [job_id] is the text of the UUID
    drawn for this call. *)
Definition job_data (project_id dataset_id table_name : string) (source_schema : value)
    (source_path source_format : string) (write_disposition job_id : value) : value :=
  VDict [
    ("jobReference", VDict [
      ("projectId", VStr project_id);
      ("job_id", job_id)
    ]);
    ("configuration", VDict [
      ("load", VDict [
        ("sourceFormat", VStr source_format);
        ("sourceUris", VList [VStr source_path]);
        ("schema", VDict [
          ("fields", source_schema)
        ]);
        ("destinationTable", VDict [
          ("projectId", VStr project_id);
          ("datasetId", VStr dataset_id);
          ("tableId", VStr table_name)
        ]);
        ("ignoreUnknownValues", VBool true);
        ("createDisposition", VStr "CREATE_IF_NEEDED");
        ("writeDisposition", write_disposition)
      ])
    ])
  ].

Definition load_table (bigquery : value) (project_id dataset_id table_name : string)
    (source_schema : value) (source_path source_format : string)
    (num_retries : Z) (write_disposition : value) : M value :=
  job_id <- ext uuid4 ;;
  ext (jobs_insert bigquery project_id
         (job_data project_id dataset_id table_name source_schema
                   source_path source_format write_disposition job_id)
         num_retries).

(** One round of the [while True] of [poll_job]: [inl tt] to go round
    again, [inr tt] for [return]. *)
Definition poll_round (bigquery projectId jobId : value) (_ : unit) : M (unit + unit) :=
  result <- ext (jobs_get_execute bigquery projectId jobId 2) ;;
  status <- lift (Py.getitem result "status") ;;
  has_errors <- lift (Py.contains "errors" status) ;;
  if has_errors : bool then
    ext (print "Error loading table:") ;;
    errors <- lift (Py.getitem status "errors") ;;
    raise (RuntimeError (JsonText errors))
  else
    state <- lift (Py.getitem status "state") ;;
    if Py.eq_str state "DONE" then
      has_error_result <- lift (Py.contains "errorResult" status) ;;
      if has_error_result : bool then
        error_result <- lift (Py.getitem status "errorResult") ;;
        raise (RuntimeError (Obj error_result))
      else
        ext (print "Job complete.") ;;
        ret (inr tt)
    else
      ext (time_sleep 1) ;;
      ret (inl tt).

Definition poll_job (bigquery job : value) : M unit :=
  ext (print "Waiting for job to finish...") ;;
  jobReference <- lift (Py.getitem job "jobReference") ;;
  projectId <- lift (Py.getitem jobReference "projectId") ;;
  jobId <- lift (Py.getitem jobReference "jobId") ;;
  loop (poll_round bigquery projectId jobId) tt.

(** [1 + int(ceil(check_count / 10))]: in Python 2 [/] on two integers is
    floor division, so [ceil] receives an integer and gives it back. *)
Definition sleep_secs (check_count : Z) : Z := 1 + check_count / 10.

Definition timeout_message (batch_count : value) (cur_count : Z) (data_path : string)
  : result string :=
  match Py.fmt_d batch_count with
  | inl e => inl e
  | inr expected =>
      inr ("waited 40 tries for all the etl files to be present.  expected "
             ++ expected ++ ", found " ++ Py.decimal cur_count
             ++ " at " ++ data_path)%string
  end.

(** One round of the [while batch_count != cur_count] of
    [__check_contents], on the loop variables [(cur_count, check_count)]. *)
Definition check_round (batch_count bucket : value) (prefix data_path : string)
    (vars : Z * Z) : M (Z * Z + unit) :=
  let '(cur_count, check_count) := vars in
  if Py.ne_int batch_count cur_count then
    ext (time_sleep (sleep_secs check_count)) ;;
    bucket_iter <- ext (list_blobs bucket prefix) ;;
    cur_count <- lift (Py.count_iter bucket_iter) ;;
    if 40 =? check_count then
      msg <- lift (timeout_message batch_count cur_count data_path) ;;
      raise (ValueError msg)
    else
      ret (inl (cur_count, check_count + 1))
  else
    ret (inr tt).

Definition __check_contents (data_path project_id : string) (batch_count : value) : M unit :=
  storage_service <- ext (storage_Client project_id) ;;
  let cur_count := 0 in
  let check_count := 0 in
  bucket_name <- lift (Py.index (Py.split "/" data_path) 2) ;;
  let prefix := Py.join "/" (Py.slice_3_m1 (Py.split "/" data_path)) in
  bucket <- ext (get_bucket storage_service bucket_name) ;;
  loop (check_round batch_count bucket prefix data_path) (cur_count, check_count).

Definition run (project_id : string) (batch_count : value)
    (dataset_id table_name schema_file data_path source_format : string)
    (write_disposition : value) (num_retries poll_interval : Z) : M unit :=
  credentials <- ext get_application_default ;;
  __check_contents data_path project_id batch_count ;;
  bigquery <- ext (discovery_build "bigquery" "v2" credentials) ;;
  schema <- ext (json_load_file schema_file) ;;
  job <- load_table bigquery project_id dataset_id table_name schema data_path
                    source_format num_retries write_disposition ;;
  poll_job bigquery job.

(** The parsed command line. *)
Record namespace : Type := {
  project_id : string;
  dataset_id : string;
  table_name : string;
  schema_file : string;
  data_path : string;
  poll_interval : Z;
  num_retries : Z;
  source_format : string;
  write_disposition : string
}.

(** The call of the [__main__] block: nine positional arguments for the
    ten parameters of [run], bound left to right, the last parameter left
    at its default. *)
Definition main (args : namespace) : M unit :=
  run args.(project_id)
      (VStr args.(dataset_id))
      args.(table_name)
      args.(schema_file)
      args.(data_path)
      args.(source_format)
      args.(write_disposition)
      (VInt args.(num_retries))
      args.(poll_interval)
      1.

(* ===================================================================== *)
(** ** Running a program against stubs *)
(* ===================================================================== *)

(** The stubs: the answers of the listing, status and submission services
    and of the UUID generator are scripted by the number of earlier calls
    of the same kind; every other collaborator answers by its call. *)
Record env : Type := {
  listings : nat -> result value;
  statuses : nat -> result value;
  insertions : nat -> result value;
  uuids : nat -> string;
  setup : call -> result value
}.

(** The calls made so far, oldest first. *)
Definition history : Type := list call.

Definition is_uuid4 (c : call) : bool :=
  match c with uuid4 => true | _ => false end.
Definition is_list_blobs (c : call) : bool :=
  match c with list_blobs _ _ => true | _ => false end.
Definition is_jobs_insert (c : call) : bool :=
  match c with jobs_insert _ _ _ _ => true | _ => false end.
Definition is_jobs_get (c : call) : bool :=
  match c with jobs_get_execute _ _ _ _ => true | _ => false end.

Definition count (p : call -> bool) (h : history) : nat := length (filter p h).

Definition answer (E : env) (h : history) (c : call) : result value :=
  match c with
  | time_sleep _ | print _ => inr VNone
  | uuid4 => inr (VStr (uuids E (count is_uuid4 h)))
  | list_blobs _ _ => listings E (count is_list_blobs h)
  | jobs_insert _ _ _ _ => insertions E (count is_jobs_insert h)
  | jobs_get_execute _ _ _ _ => statuses E (count is_jobs_get h)
  | _ => setup E c
  end.

Definition handle (E : env) : ioE ~> Monads.stateT history (itree void1) :=
  fun T e h =>
    match e in ioE T return itree void1 (history * T) with
    | Call c => Ret (h ++ [c], answer E h c)
    end.

Definition exec {A} (E : env) (m : M A) (h : history) : itree void1 (history * result A) :=
  interp_state (handle E) m h.

(** [m], started after the calls [h], ends after the calls [h'] with [r]. *)
Definition runs_to {A} (E : env) (m : M A) (h h' : history) (r : result A) : Prop :=
  exec E m h ≈ Ret (h', r).

(** A bounded evaluator for closed runs. *)
Fixpoint burn {R} (fuel : nat) (t : itree void1 R) : option R :=
  match fuel with
  | O => None
  | S fuel' =>
      match observe t with
      | RetF r => Some r
      | TauF t' => burn fuel' t'
      | VisF e _ => match e with end
      end
  end.

(** The seconds slept, in order. *)
Definition sleeps (h : history) : list Z :=
  flat_map (fun c => match c with time_sleep d => [d] | _ => [] end) h.

(** The job identifiers of the bodies submitted, in order. *)
Definition submitted_ids (h : history) : list (result value) :=
  flat_map (fun c => match c with
                     | jobs_insert _ _ body _ =>
                         [match Py.getitem body "jobReference" with
                          | inl e => inl e
                          | inr ref => Py.getitem ref "job_id"
                          end]
                     | _ => []
                     end) h.

(** The calls of the listing attempts [from], ..., [from + n - 1] of the
    readiness check: a sleep, then the listing. *)
Definition attempts (bucket : value) (prefix : string) (from n : nat) : history :=
  flat_map (fun i => [time_sleep (1 + Z.of_nat i / 10); list_blobs bucket prefix])
           (seq from n).

(** What a round of the readiness check gives once the objects are counted. *)
Definition counted (batch_count : value) (data_path : string) (check_count cur_count : Z)
  : result (Z * Z + unit) :=
  if 40 =? check_count then
    match timeout_message batch_count cur_count data_path with
    | inl e => inl e
    | inr msg => inl (ValueError msg)
    end
  else inr (inl (cur_count, check_count + 1)).

(** What a round of the readiness check gives on the answer of the listing. *)
Definition listed (batch_count : value) (data_path : string) (check_count : Z)
    (answer : result value) : result (Z * Z + unit) :=
  match answer with
  | inl e => inl e
  | inr bucket_iter =>
      match Py.count_iter bucket_iter with
      | inl e => inl e
      | inr cur_count => counted batch_count data_path check_count cur_count
      end
  end.

(** One layer of "every sleep this program asks for lasts [d] seconds",
    for programs that may run for ever. *)
Inductive sleeps_onlyF (d : Z) {R} (rec : itree ioE R -> Prop) : itree' ioE R -> Prop :=
| sleeps_only_ret x : sleeps_onlyF d rec (RetF x)
| sleeps_only_tau t : rec t -> sleeps_onlyF d rec (TauF t)
| sleeps_only_vis c k :
    (forall secs, c = time_sleep secs -> secs = d) ->
    (forall a, rec (k a)) ->
    sleeps_onlyF d rec (VisF (Call c) k).

Definition sleeps_only_gen (d : Z) {R} (rec : itree ioE R -> Prop) (t : itree ioE R)
  : Prop :=
  sleeps_onlyF d rec (observe t).

Definition sleeps_only (d : Z) {R} (t : itree ioE R) : Prop :=
  paco1 (sleeps_only_gen d) bot1 t.

(* ===================================================================== *)
(** ** Job handles and status responses, as the poller reads them *)
(* ===================================================================== *)

(** The project and the job that a job resource names: what [poll_job]
    reads from its argument. *)
Definition handle_of (job : value) : result (value * value) :=
  match Py.getitem job "jobReference" with
  | inl e => inl e
  | inr jobReference =>
      match Py.getitem jobReference "projectId" with
      | inl e => inl e
      | inr projectId =>
          match Py.getitem jobReference "jobId" with
          | inl e => inl e
          | inr jobId => inr (projectId, jobId)
          end
      end
  end.

(** Pending or running: a status without ['errors'] whose state is not
    ['DONE']. *)
Definition in_progress (response : value) : bool :=
  match Py.getitem response "status" with
  | inl _ => false
  | inr status =>
      match Py.contains "errors" status, Py.getitem status "state" with
      | inr false, inr state => negb (Py.eq_str state "DONE")
      | _, _ => false
      end
  end.

(** Done with success: state ['DONE'] and no error field. *)
Definition done_success (response : value) : bool :=
  match Py.getitem response "status" with
  | inl _ => false
  | inr status =>
      match Py.contains "errors" status, Py.getitem status "state",
            Py.contains "errorResult" status with
      | inr false, inr state, inr false => Py.eq_str state "DONE"
      | _, _, _ => false
      end
  end.

(** Done with an error: the status, when its state is ['DONE'] and it has
    the field ['errorResult'], with the payload of that field. *)
Definition done_error (response : value) : option (value * value) :=
  match Py.getitem response "status" with
  | inl _ => None
  | inr status =>
      match Py.getitem status "state", Py.getitem status "errorResult" with
      | inr state, inr P => if Py.eq_str state "DONE" then Some (status, P) else None
      | _, _ => None
      end
  end.

(** [p] is [v] or lies somewhere inside [v]. *)
Fixpoint occurs (p v : value) {struct v} : Prop :=
  p = v \/
  match v with
  | VList l =>
      (fix any (l : list value) : Prop :=
         match l with
         | [] => False
         | x :: l' => occurs p x \/ any l'
         end) l
  | VDict d =>
      (fix any (d : list (string * value)) : Prop :=
         match d with
         | [] => False
         | (_, x) :: d' => occurs p x \/ any d'
         end) d
  | _ => False
  end.

(** The exception is a [RuntimeError] that carries the payload [P]. *)
Definition surfaces (e : exn) (P : value) : Prop :=
  match e with
  | RuntimeError (Obj v) => occurs P v
  | RuntimeError (JsonText v) => occurs P v
  | _ => False
  end.

(** The calls of [k] rounds of the poller that find the job in progress. *)
Definition polls (bigquery projectId jobId : value) (k : nat) : history :=
  concat (repeat [jobs_get_execute bigquery projectId jobId 2; time_sleep 1] k).

(** [v[k1][k2]...] *)
Fixpoint getpath (v : value) (keys : list string) : result value :=
  match keys with
  | [] => inr v
  | k :: keys' =>
      match Py.getitem v k with
      | inl e => inl e
      | inr x => getpath x keys'
      end
  end.

(** The same command line with another value of [--poll_interval]. *)
Definition with_poll_interval (args : namespace) (p : Z) : namespace := {|
  project_id := args.(project_id);
  dataset_id := args.(dataset_id);
  table_name := args.(table_name);
  schema_file := args.(schema_file);
  data_path := args.(data_path);
  poll_interval := p;
  num_retries := args.(num_retries);
  source_format := args.(source_format);
  write_disposition := args.(write_disposition)
|}.

(* ===================================================================== *)
(** ** Stubs for the examples *)
(* ===================================================================== *)

(** [k] strokes: a different text for every [k]. *)
Fixpoint tally (k : nat) : string :=
  match k with
  | O => EmptyString
  | S k' => String "i" (tally k')
  end.

(** A job resource as the submission returns it. *)
Definition job_H : value :=
  VDict [("jobReference", VDict [("projectId", VStr "p"); ("jobId", VStr "H")])].

(** A status response with a state and further fields of the status. *)
Definition response (state : string) (fields : list (string * value)) : value :=
  VDict [("status", VDict (("state", VStr state) :: fields))].

(** Collaborators that never fail: listing [k] shows [counts k] objects,
    status retrieval [k] answers [responses k]. *)
Definition stub (counts : nat -> nat) (responses : nat -> value) : env := {|
  listings := fun k => inr (VList (repeat VNone (counts k)));
  statuses := fun k => inr (responses k);
  insertions := fun _ => inr job_H;
  uuids := tally;
  setup := fun _ => inr VNone
|}.

(* ===================================================================== *)
(** ** Further vocabulary for statements *)
(* ===================================================================== *)

(** The calls a round of the poller can make for a given job. *)
Definition poll_call (bigquery projectId jobId : value) (c : call) : Prop :=
  c = jobs_get_execute bigquery projectId jobId 2 \/
  c = time_sleep 1 \/
  exists s, c = print s.

(** The number of ['/'] in a text. *)
Fixpoint slashes (s : string) : nat :=
  match s with
  | EmptyString => 0
  | String c s' => if Ascii.eqb c "/" then S (slashes s') else slashes s'
  end.

(** The sum of a list of seconds. *)
Definition total (l : list Z) : Z := fold_right Z.add 0 l.

(** Collaborators scripted call by call, failures included. *)
Definition scripted (listing status insertion : nat -> result value)
    (other : call -> result value) : env := {|
  listings := listing;
  statuses := status;
  insertions := insertion;
  uuids := tally;
  setup := other
|}.

(** The calls of a run up to a readiness check that finds the one expected
    object on its first listing. *)
Definition ready_calls : history :=
  [get_application_default; storage_Client "proj"; get_bucket VNone "bucket";
   time_sleep 1; list_blobs VNone "etl"].

(* ===================================================================== *)
(** ** ISBCGCUpdateDatafileUploaded.py *)
(* ===================================================================== *)

(** The script that marks the data files found in the buckets as uploaded.
    Its collaborators (the database helper, the log, the files and the
    clock) are effects: a computation takes the effects so far and gives
    the effects after it with a value or an exception. *)

Module Upload.

(** *** Texts *)

Definition tab : string := String (ascii_of_nat 9) EmptyString.
Definition newline : string := String (ascii_of_nat 10) EmptyString.

(** The characters [str.strip()] removes. *)
Definition is_space (c : ascii) : bool :=
  let n := nat_of_ascii c in
  ((9 <=? n) && (n <=? 13) || (n =? 32))%nat.

Fixpoint lstrip (s : string) : string :=
  match s with
  | EmptyString => EmptyString
  | String c s' => if is_space c then lstrip s' else s
  end.

Fixpoint rstrip (s : string) : string :=
  match s with
  | EmptyString => EmptyString
  | String c s' =>
      match rstrip s' with
      | EmptyString => if is_space c then EmptyString else String c EmptyString
      | r => String c r
      end
  end.

(** [s.strip()] *)
Definition strip (s : string) : string := rstrip (lstrip s).

(** [s.rindex(c)] for a character [c]. *)
Fixpoint rindex (c : ascii) (s : string) : result nat :=
  match s with
  | EmptyString => inl (ValueError "substring not found")
  | String a s' =>
      match rindex c s' with
      | inr i => inr (S i)
      | inl e => if Ascii.eqb a c then inr 0%nat else inl e
      end
  end.

(** [s[n:]] *)
Fixpoint slice_from (n : nat) (s : string) : string :=
  match n, s with
  | O, _ => s
  | S n', String _ s' => slice_from n' s'
  | S _, EmptyString => EmptyString
  end.

(** [s[:n]] *)
Fixpoint slice_to (n : nat) (s : string) : string :=
  match n, s with
  | S n', String c s' => String c (slice_to n' s')
  | _, _ => EmptyString
  end.

(** [s.endswith(suffix)] *)
Fixpoint endswith (s suffix : string) : bool :=
  String.eqb s suffix ||
  match s with
  | EmptyString => false
  | String _ s' => endswith s' suffix
  end.

(** [s.replace(a, b)] for characters [a] and [b]. *)
Fixpoint replace (a b : ascii) (s : string) : string :=
  match s with
  | EmptyString => EmptyString
  | String c s' => String (if Ascii.eqb c a then b else c) (replace a b s')
  end.

(** The one-character texts that iterating a text gives. *)
Fixpoint chars (s : string) : list string :=
  match s with
  | EmptyString => []
  | String c s' => String c EmptyString :: chars s'
  end.

(** [for x in v]: the items a value gives when iterated. *)
Definition items (v : value) : result (list value) :=
  match v with
  | VList l => inr l
  | VDict d => inr (List.map (fun kv => VStr (fst kv)) d)
  | VStr s => inr (List.map VStr (chars s))
  | _ => inl TypeError
  end.

(** *** Collaborators *)

(** A file open for reading: the text [str] gives of it, and its lines. *)
Record file : Type := { file_str : string; file_lines : list string }.

(** What the script does to the world, in order. *)
Inductive effect : Type :=
| stdout (line : string)
| log_info (log : value) (msg : string)
| log_exception (log : value) (msg : string)
| db_select (config : value) (statement : string) (log : value)
            (params : list string) (flag : bool)
| db_update (config : value) (statement : string) (log : value)
            (params : list (list string)) (flag : option bool)
| datetime_now
| date_today
| json_load_file (path : string)
| create_log (log_dir name : string)
| open_file (path : value)
| close_file (path : value).

(** The answers of the collaborators, each after the effects so far. *)
Record world : Type := {
  rows : list effect -> string -> list string -> result (list value);
  updated : list effect -> string -> list (list string) -> result unit;
  now : list effect -> string;
  today : list effect -> string;
  config_in : string -> result value;
  log_made : string -> string -> result string;
  opened : list effect -> value -> result file
}.

(** A computation: from the effects so far to the effects after it and a
    value or an exception. *)
Definition U (A : Type) : Type := list effect -> list effect * result A.

Definition ret {A} (a : A) : U A := fun t => (t, inr a).
Definition raise {A} (e : exn) : U A := fun t => (t, inl e).
Definition lift {A} (r : result A) : U A := fun t => (t, r).

Definition bind {A B} (m : U A) (k : A -> U B) : U B :=
  fun t => match m t with
           | (t1, inl e) => (t1, inl e)
           | (t1, inr a) => k a t1
           end.

(** An effect and its answer. *)
Definition perform {A} (e : effect) (answer : list effect -> result A) : U A :=
  fun t => (t ++ [e], answer t).

(** An effect without an answer. *)
Definition emit (e : effect) : U unit := perform e (fun _ => inr tt).

(** [try: m except Exception as e: handler e] *)
Definition try_except {A} (m : U A) (handler : exn -> U A) : U A :=
  fun t => match m t with
           | (t1, inl e) => handler e t1
           | (t1, inr a) => (t1, inr a)
           end.

(** [for x in l: s = body x s] *)
Fixpoint for_each {A S} (l : list A) (body : A -> S -> U S) (s : S) : U S :=
  match l with
  | [] => ret s
  | x :: l' => bind (body x s) (for_each l' body)
  end.

Declare Scope upload_scope.
Delimit Scope upload_scope with upload.
Notation "x <- m ;; k" := (bind m (fun x => k))
  (at level 61, m at next level, right associativity) : upload_scope.
Notation "m ;; k" := (bind m (fun _ => k))
  (at level 61, right associativity) : upload_scope.
Local Open Scope upload_scope.

(** *** ISBCGCUpdateDatafileUploaded.py *)

Definition update_null_stmts : list string := [
  "update metadata_samples set has_Illumina_DNASeq = 0 where has_Illumina_DNASeq is null";
  "update metadata_samples set has_BCGSC_HiSeq_RNASeq = 0 where has_BCGSC_HiSeq_RNASeq is null";
  "update metadata_samples set has_UNC_HiSeq_RNASeq = 0 where has_UNC_HiSeq_RNASeq is null";
  "update metadata_samples set has_BCGSC_GA_RNASeq = 0 where has_BCGSC_GA_RNASeq is null";
  "update metadata_samples set has_UNC_GA_RNASeq = 0 where has_UNC_GA_RNASeq is null";
  "update metadata_samples set has_HiSeq_miRnaSeq = 0 where has_HiSeq_miRnaSeq is null";
  "update metadata_samples set has_GA_miRNASeq = 0 where has_GA_miRNASeq is null";
  "update metadata_samples set has_RPPA = 0 where has_RPPA is null";
  "update metadata_samples set has_SNP6 = 0 where has_SNP6 is null";
  "update metadata_samples set has_27k = 0 where has_27k is null";
  "update metadata_samples set has_450k = 0 where has_450k is null"
].

Definition update_nulls (W : world) (config log : value) : U unit :=
  for_each update_null_stmts
    (fun update_null_stmt _ =>
       perform (db_update config update_null_stmt log [] None)
               (fun t => updated W t update_null_stmt []))
    tt.

Definition select_stmt : string :=
  "select datafilename from metadata_data where datafilename = %s group by datafilename".

Definition update_stmt : string :=
  "update metadata_data set DatafileUploaded = 'true', DatafileNameKey = %s where DatafileName = %s".

(** The loop variables of [updateDatafileUploaded]. *)
Record tally : Type := {
  found_path_names : list (list string);
  notfound_path_names : list (list string);
  count : Z
}.

(** One round of [for path in path_file]. *)
Definition check_path (W : world) (config log : value) (path : string) (s : tally)
  : U tally :=
  let path := strip path in
  i <- lift (rindex "/" path) ;;
  let filename := slice_from (i + 1) path in
  (if 0 =? s.(count) mod 8192
   then emit (log_info log (tab ++ "processing " ++ Py.decimal s.(count)
                                ++ " record: " ++ path ++ ":" ++ filename)%string)
   else ret tt) ;;
  let count := s.(count) + 1 in
  cursor <- perform (db_select config select_stmt log [filename] false)
                    (fun t => rows W t select_stmt [filename]) ;;
  if (0 <? length cursor)%nat then
    ret {| found_path_names := s.(found_path_names) ++ [[path; filename]];
           notfound_path_names := s.(notfound_path_names);
           count := count |}
  else if negb (endswith filename "xml") then
    ret {| found_path_names := s.(found_path_names);
           notfound_path_names := s.(notfound_path_names) ++ [[path; filename]];
           count := count |}
  else
    ret {| found_path_names := s.(found_path_names);
           notfound_path_names := s.(notfound_path_names);
           count := count |}.

(** The closing line of the log, for the files found and not found. *)
Definition summary (count : Z) (notfound_path_names : list (list string)) : string :=
  if (0 =? length notfound_path_names)%nat then
    (tab ++ "processed a total of " ++ Py.decimal count ++ " path/name combinations.")%string
  else
    let print_notfound :=
      if (length notfound_path_names <? 500)%nat then notfound_path_names
      else firstn 500 notfound_path_names ++ [chars "..."] in
    (tab ++ "processed a total of " ++ Py.decimal count
         ++ " path/name combinations.  "
         ++ Py.decimal (Z.of_nat (length notfound_path_names))
         ++ " files were not found:" ++ newline ++ tab ++ tab
         ++ Py.join (newline ++ tab ++ tab) (List.map (Py.join ":") print_notfound)
         ++ newline)%string.

Definition updateDatafileUploaded (W : world) (config : value) (path_file : file)
    (log : value) : U unit :=
  try_except
    (emit (log_info log (tab ++ "processing path/name combinations from "
                             ++ path_file.(file_str)
                             ++ " for existence in the database")%string) ;;
     s <- for_each path_file.(file_lines) (check_path W config log)
            {| found_path_names := []; notfound_path_names := []; count := 0 |} ;;
     emit (log_info log (summary s.(count) s.(notfound_path_names))) ;;
     perform (db_update config update_stmt log s.(found_path_names) (Some false))
             (fun t => updated W t update_stmt s.(found_path_names)))
    (fun e =>
       emit (log_exception log (tab ++ "problem updating")%string) ;;
       raise e).

(** [with open(path_file, 'r') as paths: body paths] *)
Definition with_open {A} (W : world) (path_file : value) (body : file -> U A) : U A :=
  paths <- perform (open_file path_file) (fun t => opened W t path_file) ;;
  fun t => match body paths t with
           | (t1, r) => (t1 ++ [close_file path_file], r)
           end.

(** [text + v]: only a text adds to a text. *)
Definition add_str (text : string) (v : value) : result string :=
  match v with
  | VStr s => inr (text ++ s)%string
  | _ => inl TypeError
  end.

(** What [main] tries: every listed file in turn, then the nulls. *)
Definition update_all (W : world) (config log : value) : U unit :=
  buckets <- lift (Py.getitem config "buckets") ;;
  path_files <- lift (Py.getitem buckets "update_uploaded") ;;
  path_files <- lift (items path_files) ;;
  for_each path_files
    (fun path_file _ =>
       with_open W path_file (fun paths => updateDatafileUploaded W config paths log))
    tt ;;
  update_nulls W config log.

Definition main (W : world) (configfilename : string) : U unit :=
  t0 <- perform datetime_now (fun t => inr (now W t)) ;;
  emit (stdout (t0 ++ " begin update DatafileUploaded")%string) ;;
  config <- perform (json_load_file configfilename) (fun _ => config_in W configfilename) ;;
  d <- perform date_today (fun t => inr (today W t)) ;;
  tag <- lift (Py.getitem config "log_dir_tag") ;;
  dir <- lift (add_str (replace "-" "_" d ++ "_")%string tag) ;;
  let log_dir := (dir ++ "_update_uploaded" ++ "/")%string in
  log_name <- perform (create_log log_dir "top_processing")
                      (fun _ => log_made W log_dir "top_processing") ;;
  let log := VStr log_name in
  emit (log_info log "begin update DatafileUploaded") ;;
  try_except
    (update_all W config log)
    (fun e =>
       emit (log_exception log "problem updating DatafileUploaded") ;;
       raise e) ;;
  emit (log_info log "finish update DatafileUploaded") ;;
  t1 <- perform datetime_now (fun t => inr (now W t)) ;;
  emit (stdout (t1 ++ " finish update DatafileUploaded")%string).

(** *** Vocabulary for statements *)

(** The name part of a path: what follows its last ['/']. *)
Definition file_name (path : string) : result string :=
  match rindex "/" path with
  | inr i => inr (slice_from (i + 1) path)
  | inl e => inl e
  end.

(** The parameters of the lookups among some effects, in order. *)
Definition selects (t : list effect) : list (list string) :=
  flat_map (fun e => match e with
                     | db_select _ _ _ params _ => [params]
                     | _ => []
                     end) t.

(** The statements and parameters of the updates among some effects. *)
Definition updates (t : list effect) : list (string * list (list string)) :=
  flat_map (fun e => match e with
                     | db_update _ statement _ params _ => [(statement, params)]
                     | _ => []
                     end) t.

(** The effects of the checking phase: log lines and lookups of names. *)
Definition checking (config log : value) (e : effect) : Prop :=
  (exists msg, e = log_info log msg) \/
  (exists name, e = db_select config select_stmt log [name] false).

(** The pair recorded for a line whose name the table knows. *)
Definition known (table : list string -> list value) (line : string)
  : list (list string) :=
  match file_name (strip line) with
  | inr name => if (0 <? length (table [name]))%nat then [[strip line; name]] else []
  | inl _ => []
  end.

(** The pair reported for a line whose name the table does not know. *)
Definition unknown (table : list string -> list value) (line : string)
  : list (list string) :=
  match file_name (strip line) with
  | inr name =>
      if (0 <? length (table [name]))%nat then []
      else if endswith name "xml" then []
      else [[strip line; name]]
  | inl _ => []
  end.

(** The files opened and the files closed among some effects. *)
Definition opens (t : list effect) : list value :=
  flat_map (fun e => match e with open_file p => [p] | _ => [] end) t.

Definition closes (t : list effect) : list value :=
  flat_map (fun e => match e with close_file p => [p] | _ => [] end) t.

(** A text of characters that [strip] removes. *)
Fixpoint blank (s : string) : bool :=
  match s with
  | EmptyString => true
  | String c s' => is_space c && blank s'
  end.

(** The effect of an update without parameters, as [update_nulls] makes it. *)
Definition null_update (config log : value) (statement : string) : effect :=
  db_update config statement log [] None.

(** Collaborators that do not fail: lookups answer by a table, files are
    found by their path, the configuration is the same for every path. *)
Definition serving (table : list string -> list value) (config : value)
    (files : value -> file) : world := {|
  rows := fun _ _ params => inr (table params);
  updated := fun _ _ _ => inr tt;
  now := fun _ => "2015-11-25 10:00:00.000000";
  today := fun _ => "2015-11-25";
  config_in := fun _ => inr config;
  log_made := fun _ name => inr name;
  opened := fun _ path => inr (files path)
|}.

(** A table that has a row for each of some names. *)
Definition holding (names : list string) (params : list string) : list value :=
  match params with
  | [name] => if existsb (String.eqb name) names then [VList [VStr name]] else []
  | _ => []
  end.

(** A file of three paths. *)
Definition uploaded : file := {|
  file_str := "<open file 'uploaded.txt', mode 'r' at 0x7f2c>";
  file_lines := [("gs://bucket/dir/a.txt" ++ newline)%string;
                 ("gs://bucket/dir/b.xml" ++ newline)%string;
                 ("gs://bucket/c.txt" ++ newline)%string]
|}.

(** A file with a blank line. *)
Definition gapped : file := {|
  file_str := "<open file 'gapped.txt', mode 'r' at 0x7f2c>";
  file_lines := [("gs://bucket/dir/a.txt" ++ newline)%string;
                 newline;
                 ("gs://bucket/c.txt" ++ newline)%string]
|}.

(** Collaborators whose lookup raises once [k] lookups were made. *)
Definition dropping (k : nat) (W : world) : world := {|
  rows := fun t statement params =>
            if (length (selects t) =? k)%nat then inl (Raised VNone)
            else rows W t statement params;
  updated := updated W;
  now := now W;
  today := today W;
  config_in := config_in W;
  log_made := log_made W;
  opened := opened W
|}.

(** Collaborators whose update raises once [k] updates were made. *)
Definition refusing (k : nat) (W : world) : world := {|
  rows := rows W;
  updated := fun t statement params =>
               if (length (updates t) =? k)%nat then inl (Raised VNone)
               else updated W t statement params;
  now := now W;
  today := today W;
  config_in := config_in W;
  log_made := log_made W;
  opened := opened W
|}.

(** Collaborators that cannot open one of the files. *)
Definition missing (path : string) (W : world) : world := {|
  rows := rows W;
  updated := updated W;
  now := now W;
  today := today W;
  config_in := config_in W;
  log_made := log_made W;
  opened := fun t p => if Py.eq_str p path then inl (Raised VNone) else opened W t p
|}.

End Upload.

(* ===================================================================== *)
(** ** Rules for runs *)
(* ===================================================================== *)

Section Rules.

Variable E : env.

Lemma burn_sound {R} fuel (t : itree void1 R) r :
  burn fuel t = Some r -> t ≈ Ret r.
Proof.
  revert t; induction fuel as [|fuel IH]; intros t H; simpl in H; [discriminate|].
  destruct (observe t) eqn:Ho.
  - inversion H; subst. rewrite (itree_eta t), Ho. reflexivity.
  - rewrite (itree_eta t), Ho, tau_eutt. auto.
  - destruct e.
Qed.

Lemma runs_burn {A} fuel (m : M A) h h' r :
  burn fuel (exec E m h) = Some (h', r) -> runs_to E m h h' r.
Proof. apply burn_sound. Qed.

Lemma runs_det {A} (m : M A) h h1 r1 h2 r2 :
  runs_to E m h h1 r1 -> runs_to E m h h2 r2 -> h1 = h2 /\ r1 = r2.
Proof.
  unfold runs_to; intros H1 H2. rewrite H1 in H2.
  apply eutt_inv_Ret in H2. inversion H2; auto.
Qed.

Lemma runs_Ret {A} (r : result A) h : runs_to E (Ret r) h h r.
Proof. unfold runs_to, exec. rewrite interp_state_ret. reflexivity. Qed.

Lemma runs_ret {A} (a : A) h : runs_to E (ret a) h h (inr a).
Proof. apply runs_Ret. Qed.

Lemma runs_raise {A} e h : runs_to E (raise e : M A) h h (inl e).
Proof. apply runs_Ret. Qed.

Lemma runs_lift {A} (r : result A) h : runs_to E (lift r) h h r.
Proof. apply runs_Ret. Qed.

Lemma runs_ext c h : runs_to E (ext c) h (h ++ [c]) (answer E h c).
Proof.
  unfold runs_to, exec, ext. rewrite interp_state_trigger. cbn. reflexivity.
Qed.

Lemma runs_bind {A B} (m : M A) (k : A -> M B) h h1 a h2 r :
  runs_to E m h h1 (inr a) -> runs_to E (k a) h1 h2 r ->
  runs_to E (bind m k) h h2 r.
Proof.
  unfold runs_to, exec, bind; intros Hm Hk.
  rewrite interp_state_bind, Hm, bind_ret_l. cbn. exact Hk.
Qed.

Lemma runs_bind_raise {A B} (m : M A) (k : A -> M B) h h1 e :
  runs_to E m h h1 (inl e) -> runs_to E (bind m k) h h1 (inl e).
Proof.
  unfold runs_to, exec, bind; intros Hm.
  rewrite interp_state_bind, Hm, bind_ret_l. cbn.
  rewrite interp_state_ret. reflexivity.
Qed.

Lemma runs_loop_unfold {I A} (body : I -> M (I + A)) i h h1 x :
  runs_to E (body i) h h1 x ->
  exec E (loop body i) h ≈
    match x with
    | inl e => Ret (h1, inl e)
    | inr (inl i') => exec E (loop body i') h1
    | inr (inr a) => Ret (h1, inr a)
    end.
Proof.
  unfold runs_to, exec, loop; intros Hb.
  rewrite unfold_iter. unfold loop_step at 1.
  rewrite bind_bind, interp_state_bind, Hb, bind_ret_l. cbn.
  destruct x as [e | [i' | a]]; rewrite bind_ret_l; cbn.
  - rewrite interp_state_ret. reflexivity.
  - rewrite interp_state_tau, tau_eutt. reflexivity.
  - rewrite interp_state_ret. reflexivity.
Qed.

Lemma runs_loop_again {I A} (body : I -> M (I + A)) i h h1 i' h2 r :
  runs_to E (body i) h h1 (inr (inl i')) ->
  runs_to E (loop body i') h1 h2 r ->
  runs_to E (loop body i) h h2 r.
Proof.
  intros Hb Hl. unfold runs_to. rewrite (runs_loop_unfold _ _ _ _ _ Hb). exact Hl.
Qed.

Lemma runs_loop_return {I A} (body : I -> M (I + A)) i h h1 a :
  runs_to E (body i) h h1 (inr (inr a)) ->
  runs_to E (loop body i) h h1 (inr a).
Proof.
  intros Hb. unfold runs_to. rewrite (runs_loop_unfold _ _ _ _ _ Hb). reflexivity.
Qed.

Lemma runs_loop_raise {I A} (body : I -> M (I + A)) i h h1 e :
  runs_to E (body i) h h1 (inl e) ->
  runs_to E (loop body i) h h1 (inl e).
Proof.
  intros Hb. unfold runs_to. rewrite (runs_loop_unfold _ _ _ _ _ Hb). reflexivity.
Qed.

End Rules.

(* ===================================================================== *)
(** ** Histories *)
(* ===================================================================== *)

Lemma count_app p (h1 h2 : history) : count p (h1 ++ h2) = (count p h1 + count p h2)%nat.
Proof. unfold count. rewrite filter_app, length_app. reflexivity. Qed.

Lemma sleeps_app (h1 h2 : history) : sleeps (h1 ++ h2) = sleeps h1 ++ sleeps h2.
Proof. apply flat_map_app. Qed.

Lemma submitted_ids_app (h1 h2 : history) :
  submitted_ids (h1 ++ h2) = submitted_ids h1 ++ submitted_ids h2.
Proof. apply flat_map_app. Qed.

Lemma count_rounds {A} (l : list A) (acc : Z) :
  fold_left (fun c _ => c + 1) l acc = acc + Z.of_nat (length l).
Proof.
  revert acc; induction l as [|x l IH]; intros acc; simpl fold_left.
  - simpl. lia.
  - rewrite IH. simpl length. lia.
Qed.

Lemma count_iter_list (l : list value) :
  Py.count_iter (VList l) = inr (Z.of_nat (length l)).
Proof. unfold Py.count_iter. rewrite count_rounds. reflexivity. Qed.

Section RunTactics.

Variable E : env.

Lemma runs_ext_eq c h r : answer E h c = r -> runs_to E (ext c) h (h ++ [c]) r.
Proof. intros <-. apply runs_ext. Qed.

Lemma runs_lift_eq {A} (x r : result A) h : x = r -> runs_to E (lift x) h h r.
Proof. intros <-. apply runs_lift. Qed.

Lemma runs_to_eq {A} (m : M A) h h1 h2 r1 r2 :
  runs_to E m h h1 r1 -> h1 = h2 -> r1 = r2 -> runs_to E m h h2 r2.
Proof. intros H <- <-. exact H. Qed.

End RunTactics.

(** One call that answers with a value, then the rest. *)
Ltac ext_then :=
  eapply runs_bind; [apply runs_ext_eq; cbn; try reflexivity | cbn beta].

(** One pure step that gives a value, then the rest. *)
Ltac lift_then H :=
  eapply runs_bind; [apply runs_lift_eq; first [exact H | reflexivity] | cbn beta].

(** One pure step that raises. *)
Ltac lift_raise H :=
  eapply runs_bind_raise; apply runs_lift_eq; first [exact H | reflexivity].

Ltac split5 := split; [| split; [| split; [| split]]].


(* ===================================================================== *)
(** ** The readiness check *)
(* ===================================================================== *)

Section Readiness.

Variable E : env.
Variables (batch_count bucket : value) (prefix data_path : string).

Lemma count_list_sleep (h : history) d :
  count is_list_blobs (h ++ [time_sleep d]) = count is_list_blobs h.
Proof. rewrite count_app. cbn. lia. Qed.

(** A round whose test fails leaves the loop at once. *)
Lemma check_round_exit cur c h :
  Py.ne_int batch_count cur = false ->
  runs_to E (check_round batch_count bucket prefix data_path (cur, c)) h h (inr (inr tt)).
Proof. intros Hne. unfold check_round. rewrite Hne. apply runs_ret. Qed.

(** A round whose test holds sleeps, lists and counts. *)
Lemma check_round_attempt cur c h :
  Py.ne_int batch_count cur = true ->
  runs_to E (check_round batch_count bucket prefix data_path (cur, c)) h
          (h ++ [time_sleep (sleep_secs c); list_blobs bucket prefix])
          (listed batch_count data_path c (listings E (count is_list_blobs h))).
Proof.
  intros Hne. unfold check_round. rewrite Hne.
  ext_then.
  assert (Hl : runs_to E (ext (list_blobs bucket prefix))
                       (h ++ [time_sleep (sleep_secs c)])
                       (h ++ [time_sleep (sleep_secs c); list_blobs bucket prefix])
                       (listings E (count is_list_blobs h))).
  { eapply runs_to_eq; [apply runs_ext | now rewrite <- app_assoc |].
    cbn. now rewrite count_list_sleep. }
  unfold listed.
  destruct (listings E (count is_list_blobs h)) as [e | bucket_iter].
  { eapply runs_bind_raise. exact Hl. }
  eapply runs_bind; [exact Hl | cbn beta].
  destruct (Py.count_iter bucket_iter) as [e | n] eqn:Hn.
  { lift_raise Hn. }
  lift_then Hn. unfold counted.
  destruct (40 =? c); [| apply runs_ret].
  destruct (timeout_message batch_count n data_path) as [e | msg] eqn:Hm.
  { lift_raise Hm. }
  lift_then Hm. apply runs_raise.
Qed.

Lemma listed_again c a cur' c' :
  listed batch_count data_path c a = inr (inl (cur', c')) ->
  c' = c + 1 /\ (40 =? c) = false.
Proof.
  unfold listed, counted. destruct a as [e | it]; [discriminate|].
  destruct (Py.count_iter it); [discriminate|].
  destruct (40 =? c); [destruct timeout_message; discriminate|].
  intros H; inversion H; auto.
Qed.

Lemma listed_no_return c a u : listed batch_count data_path c a <> inr (inr u).
Proof.
  unfold listed, counted. destruct a as [e | it]; [discriminate|].
  destruct (Py.count_iter it); [discriminate|].
  destruct (40 =? c); [destruct timeout_message|]; discriminate.
Qed.

Lemma attempts_S from n :
  attempts bucket prefix from (S n)
  = [time_sleep (sleep_secs (Z.of_nat from)); list_blobs bucket prefix]
      ++ attempts bucket prefix (S from) n.
Proof. reflexivity. Qed.

(** The loop of the readiness check always ends, within 41 listings in all
    when it starts at attempt 0; its calls are the attempts in order, and it
    returns normally only when the test [batch_count != cur_count] fails. *)
Lemma check_loop_total n : forall c cur h,
  (c + n = 40)%nat ->
  exists m r,
    (c + m <= 41)%nat /\
    runs_to E (loop (check_round batch_count bucket prefix data_path) (cur, Z.of_nat c))
            h (h ++ attempts bucket prefix c m) r /\
    (forall u, r = inr u -> exists cur', Py.ne_int batch_count cur' = false).
Proof.
  induction n as [|n IH]; intros c cur h Hc;
    destruct (Py.ne_int batch_count cur) eqn:Hne;
    try (exists 0%nat, (inr tt); split; [lia|]; split; [|eauto];
         unfold attempts; cbn; rewrite app_nil_r;
         apply runs_loop_return, check_round_exit; exact Hne);
    pose proof (check_round_attempt cur (Z.of_nat c) h Hne) as Hr;
    destruct (listed batch_count data_path (Z.of_nat c)
                     (listings E (count is_list_blobs h)))
      as [e | [[cur' c'] | u]] eqn:Hres;
    try (exfalso; eapply listed_no_return; exact Hres);
    try (exists 1%nat, (inl e); split; [lia|]; split; [|discriminate];
         apply runs_loop_raise; exact Hr).
  - apply listed_again in Hres as [_ H40].
    apply Z.eqb_neq in H40. lia.
  - apply listed_again in Hres as [-> _].
    replace (Z.of_nat c + 1) with (Z.of_nat (S c)) in Hr by lia.
    destruct (IH (S c) cur'
                 (h ++ [time_sleep (sleep_secs (Z.of_nat c)); list_blobs bucket prefix]))
      as (m & r & Hm & Hrun & Hret); [lia|].
    exists (S m), r. split; [lia|]. split; [|exact Hret].
    rewrite attempts_S, app_assoc.
    eapply runs_loop_again; [exact Hr | exact Hrun].
Qed.

End Readiness.

Section ReadinessRuns.

Variable E : env.

Lemma count_list_attempt (h : history) d b p :
  count is_list_blobs (h ++ [time_sleep d; list_blobs b p])
  = S (count is_list_blobs h).
Proof. rewrite count_app. cbn. lia. Qed.

(** The whole check always ends; its calls are the client, the bucket
    when the location names one, and then the attempts in order. *)
Lemma check_contents_total data_path project_id batch_count h :
  exists h' r pre bucket prefix m,
    runs_to E (__check_contents data_path project_id batch_count) h h' r /\
    h' = h ++ pre ++ attempts bucket prefix 0 m /\
    (m <= 41)%nat /\
    (pre = [storage_Client project_id] \/
     exists client name, pre = [storage_Client project_id; get_bucket client name]) /\
    (forall u, r = inr u -> exists cur', Py.ne_int batch_count cur' = false).
Proof.
  unfold __check_contents.
  destruct (setup E (storage_Client project_id)) as [e | client] eqn:Hc.
  { exists (h ++ [storage_Client project_id]), (inl e),
      [storage_Client project_id], VNone, "", 0%nat.
    split5; [| | lia | now left | discriminate].
    - eapply runs_bind_raise. apply runs_ext_eq. exact Hc.
    - cbn. now rewrite ?app_nil_r, <- ?app_assoc. }
  destruct (Py.index (Py.split "/" data_path) 2) as [e | name] eqn:Hi.
  { exists (h ++ [storage_Client project_id]), (inl e),
      [storage_Client project_id], VNone, "", 0%nat.
    split5; [| | lia | now left | discriminate].
    - eapply runs_bind; [apply runs_ext_eq; exact Hc | cbn beta].
      lift_raise Hi.
    - cbn. now rewrite ?app_nil_r, <- ?app_assoc. }
  destruct (setup E (get_bucket client name)) as [e | bucket] eqn:Hb.
  { exists ((h ++ [storage_Client project_id]) ++ [get_bucket client name]), (inl e),
      [storage_Client project_id; get_bucket client name], VNone, "", 0%nat.
    split5; [| | lia | right; eauto | discriminate].
    - eapply runs_bind; [apply runs_ext_eq; exact Hc | cbn beta].
      lift_then Hi. eapply runs_bind_raise. apply runs_ext_eq. exact Hb.
    - cbn. now rewrite ?app_nil_r, <- ?app_assoc. }
  set (prefix := Py.join "/" (Py.slice_3_m1 (Py.split "/" data_path))).
  destruct (check_loop_total E batch_count bucket prefix data_path 40 0 0
              ((h ++ [storage_Client project_id]) ++ [get_bucket client name]))
    as (m & r & Hm & Hrun & Hret); [lia|].
  exists (((h ++ [storage_Client project_id]) ++ [get_bucket client name])
            ++ attempts bucket prefix 0 m), r,
    [storage_Client project_id; get_bucket client name], bucket, prefix, m.
  split5; [| | lia | right; eauto | exact Hret].
  - eapply runs_bind; [apply runs_ext_eq; exact Hc | cbn beta].
    lift_then Hi. eapply runs_bind; [apply runs_ext_eq; exact Hb | cbn beta].
    exact Hrun.
  - now rewrite <- !app_assoc.
Qed.

Variables (bucket : value) (prefix data_path : string).
Variable objects : nat -> list value.
Variable base : nat.
Hypothesis listing_objects :
  forall i, listings E (base + i) = inr (VList (objects i)).

(** An attempt before the last one, seen from the loop. *)
Lemma check_round_objects (N cur : Z) (c : nat) h :
  (c < 40)%nat ->
  count is_list_blobs h = (base + c)%nat ->
  N <> cur ->
  runs_to E (check_round (VInt N) bucket prefix data_path (cur, Z.of_nat c)) h
          (h ++ [time_sleep (sleep_secs (Z.of_nat c)); list_blobs bucket prefix])
          (inr (inl (Z.of_nat (length (objects c)), Z.of_nat (S c)))).
Proof.
  intros Hc Hcount Hne.
  eapply runs_to_eq; [apply check_round_attempt | reflexivity |].
  - cbn. apply Z.eqb_neq in Hne. now rewrite Hne.
  - rewrite Hcount, listing_objects. unfold listed. rewrite count_iter_list.
    unfold counted. replace (40 =? Z.of_nat c) with false by (symmetry; apply Z.eqb_neq; lia).
    do 3 f_equal. lia.
Qed.

Lemma check_loop_exit (N : Z) c h :
  runs_to E (loop (check_round (VInt N) bucket prefix data_path) (N, c)) h h (inr tt).
Proof.
  apply runs_loop_return, check_round_exit. cbn. now rewrite Z.eqb_refl.
Qed.

(** When attempt [c + k] finds [N] objects and is among the first 40, the
    loop entered at attempt [c] returns. *)
Lemma check_loop_ready (N : Z) k : forall c cur h,
  (c + k < 40)%nat ->
  count is_list_blobs h = (base + c)%nat ->
  Z.of_nat (length (objects (c + k))) = N ->
  exists h', runs_to E (loop (check_round (VInt N) bucket prefix data_path)
                             (cur, Z.of_nat c)) h h' (inr tt).
Proof.
  induction k as [|k IH]; intros c cur h Hc Hcount Hlen;
    (destruct (Z.eq_dec N cur) as [<- | Hne]; [eexists; apply check_loop_exit|]);
    pose proof (check_round_objects N cur c h ltac:(lia) Hcount Hne) as Hr.
  - rewrite Nat.add_0_r in Hlen. rewrite Hlen in Hr.
    eexists. eapply runs_loop_again; [exact Hr | apply check_loop_exit].
  - destruct (IH (S c) (Z.of_nat (length (objects c)))
                 (h ++ [time_sleep (sleep_secs (Z.of_nat c)); list_blobs bucket prefix]))
      as [h' Hrun].
    + lia.
    + rewrite count_list_attempt, Hcount. lia.
    + rewrite <- Hlen. do 3 f_equal. lia.
    + eexists. eapply runs_loop_again; [exact Hr | exact Hrun].
Qed.

(** When none of the first 40 attempts finds [N] objects, the loop entered
    at attempt [c] makes all the attempts up to the 41st and raises. *)
Lemma check_loop_timeout (N : Z) n : forall c cur h,
  (c + n = 40)%nat ->
  count is_list_blobs h = (base + c)%nat ->
  N <> cur ->
  (forall i, (i < 40)%nat -> Z.of_nat (length (objects i)) <> N) ->
  runs_to E (loop (check_round (VInt N) bucket prefix data_path) (cur, Z.of_nat c))
          h (h ++ attempts bucket prefix c (S n))
          (inl (ValueError
                  ("waited 40 tries for all the etl files to be present.  expected "
                     ++ Py.decimal N ++ ", found "
                     ++ Py.decimal (Z.of_nat (length (objects 40%nat)))
                     ++ " at " ++ data_path)%string)).
Proof.
  induction n as [|n IH]; intros c cur h Hc Hcount Hne Hnever.
  - assert (c = 40%nat) as -> by lia.
    apply runs_loop_raise.
    eapply runs_to_eq; [apply check_round_attempt | reflexivity |].
    + cbn. apply Z.eqb_neq in Hne. now rewrite Hne.
    + rewrite Hcount, listing_objects. unfold listed. rewrite count_iter_list.
      reflexivity.
  - rewrite attempts_S, app_assoc.
    eapply runs_loop_again.
    + apply check_round_objects; [lia | exact Hcount | exact Hne].
    + apply IH; [lia | | | exact Hnever].
      * rewrite count_list_attempt, Hcount. lia.
      * intros Heq. apply (Hnever c); [lia | now symmetry].
Qed.

End ReadinessRuns.

(* ===================================================================== *)
(** ** Properties of the readiness check *)
(* ===================================================================== *)

(** C1. For a location that names a bucket, and a client and a bucket that
    open, when the listings show the objects [objects 0], [objects 1], ...
    and one of the first 40 listings (attempt index [k] below 40, so also
    the 40th listing itself) shows exactly [N] objects, the readiness check
    returns without raising. *)
Theorem check_contents_ready E h data_path project_id N objects k client name bucket :
  Py.index (Py.split "/" data_path) 2 = inr name ->
  setup E (storage_Client project_id) = inr client ->
  setup E (get_bucket client name) = inr bucket ->
  (forall i, listings E (count is_list_blobs h + i) = inr (VList (objects i))) ->
  (k < 40)%nat ->
  Z.of_nat (length (objects k)) = N ->
  exists h', runs_to E (__check_contents data_path project_id (VInt N)) h h' (inr tt).
Proof.
  intros Hi Hc Hb Hl Hk HN. unfold __check_contents.
  set (prefix := Py.join "/" (Py.slice_3_m1 (Py.split "/" data_path))).
  destruct (check_loop_ready E bucket prefix data_path objects
              (count is_list_blobs h) Hl N k 0 0
              ((h ++ [storage_Client project_id]) ++ [get_bucket client name]))
    as [h' Hrun]; [lia | | exact HN |].
  { rewrite !count_app. cbn. lia. }
  exists h'.
  eapply runs_bind; [apply runs_ext_eq; exact Hc | cbn beta].
  lift_then Hi.
  eapply runs_bind; [apply runs_ext_eq; exact Hb | cbn beta].
  exact Hrun.
Qed.

(** Three objects expected, two listed 39 times and three from the 40th
    listing on: the check returns. *)
Lemma check_contents_ready_witness :
  exists h',
    runs_to (stub (fun i => if (i <? 39)%nat then 2%nat else 3%nat) (fun _ => VNone))
            (__check_contents "gs://bucket/etl/part.json" "proj" (VInt 3))
            [] h' (inr tt).
Proof.
  apply (check_contents_ready _ [] _ _ 3
           (fun i => repeat VNone (if (i <? 39)%nat then 2%nat else 3%nat))
           39 VNone "bucket" VNone);
    [reflexivity | reflexivity | reflexivity | intros i; reflexivity | lia | reflexivity].
Defined.

(** C6, as the code has it. For a location that names a bucket, a client
    and a bucket that open, an expected count [N] other than 0 and listings
    none of whose first 40 shows exactly [N] objects, the readiness check
    makes a 41st listing and raises a [ValueError] whose message gives [N],
    the count of that last listing and the location. *)
Theorem check_contents_timeout E h data_path project_id N objects client name bucket :
  Py.index (Py.split "/" data_path) 2 = inr name ->
  setup E (storage_Client project_id) = inr client ->
  setup E (get_bucket client name) = inr bucket ->
  (forall i, listings E (count is_list_blobs h + i) = inr (VList (objects i))) ->
  N <> 0 ->
  (forall i, (i < 40)%nat -> Z.of_nat (length (objects i)) <> N) ->
  exists h',
    count is_list_blobs h' = (count is_list_blobs h + 41)%nat /\
    runs_to E (__check_contents data_path project_id (VInt N)) h h'
      (inl (ValueError
              ("waited 40 tries for all the etl files to be present.  expected "
                 ++ Py.decimal N ++ ", found "
                 ++ Py.decimal (Z.of_nat (length (objects 40%nat)))
                 ++ " at " ++ data_path)%string)).
Proof.
  intros Hi Hc Hb Hl HN Hnever. unfold __check_contents.
  set (prefix := Py.join "/" (Py.slice_3_m1 (Py.split "/" data_path))).
  pose proof (check_loop_timeout E bucket prefix data_path objects
                (count is_list_blobs h) Hl N 40 0 0
                ((h ++ [storage_Client project_id]) ++ [get_bucket client name]))
    as Hrun.
  eexists. split; [| eapply runs_bind; [apply runs_ext_eq; exact Hc | cbn beta];
                     lift_then Hi;
                     eapply runs_bind; [apply runs_ext_eq; exact Hb | cbn beta];
                     apply Hrun; [lia | rewrite !count_app; cbn; lia | exact HN | exact Hnever]].
  rewrite !count_app. cbn. lia.
Qed.

(** Three objects expected and two listed every time: the 41st listing is
    followed by the error. *)
Lemma check_contents_timeout_witness :
  exists h',
    count is_list_blobs h' = 41%nat /\
    runs_to (stub (fun _ => 2%nat) (fun _ => VNone))
            (__check_contents "gs://bucket/etl/part.json" "proj" (VInt 3)) [] h'
            (inl (ValueError
                    "waited 40 tries for all the etl files to be present.  expected 3, found 2 at gs://bucket/etl/part.json")).
Proof.
  apply (check_contents_timeout _ [] "gs://bucket/etl/part.json" "proj" 3
           (fun _ => repeat VNone 2) VNone "bucket" VNone);
    [reflexivity | reflexivity | reflexivity | intros i; reflexivity | lia
    | intros i _; cbn; lia].
Defined.

(** C6 as stated fails for an expected count of 0: the listings never show
    0 objects, and the check returns, without a listing and without an
    error. *)
Lemma check_contents_timeout_counterexample :
  (forall i, listings (stub (fun _ => 5%nat) (fun _ => VNone)) i
             = inr (VList (repeat VNone 5))) /\
  (forall i, (i < 40)%nat -> Z.of_nat (length (repeat VNone 5)) <> 0) /\
  runs_to (stub (fun _ => 5%nat) (fun _ => VNone))
          (__check_contents "gs://bucket/etl/part.json" "proj" (VInt 0))
          [] [storage_Client "proj"; get_bucket VNone "bucket"] (inr tt) /\
  ~ (exists h' e,
        runs_to (stub (fun _ => 5%nat) (fun _ => VNone))
                (__check_contents "gs://bucket/etl/part.json" "proj" (VInt 0))
                [] h' (inl e)).
Proof.
  assert (Hrun : runs_to (stub (fun _ => 5%nat) (fun _ => VNone))
                   (__check_contents "gs://bucket/etl/part.json" "proj" (VInt 0))
                   [] [storage_Client "proj"; get_bucket VNone "bucket"] (inr tt)).
  { apply (runs_burn _ 20). vm_compute. reflexivity. }
  split; [reflexivity|].
  split; [intros i _; cbn; lia|]. split; [exact Hrun|].
  intros (h' & e & Hraise).
  destruct (runs_det _ _ _ _ _ _ _ Hrun Hraise) as [_ Heq]. discriminate.
Qed.

Lemma sleeps_attempts bucket prefix m : forall c,
  sleeps (attempts bucket prefix c m)
  = List.map (fun i => 1 + Z.of_nat i / 10) (seq c m).
Proof.
  induction m as [|m IH]; intros c; [reflexivity|].
  rewrite attempts_S, sleeps_app, IH. reflexivity.
Qed.

(** C7. Every run of the readiness check ends, and its calls are the client
    and the bucket (no sleep, no listing) followed by the attempts 0, 1, ...
    in order, attempt [i] being a sleep of [1 + i / 10] seconds (integer
    division) and then the listing; so the sleeps of the check are
    [1 + i / 10] for [i] from 0, which is 1 second for each of the first 10
    attempts. *)
Theorem check_contents_backoff E h data_path project_id batch_count :
  exists h' r pre bucket prefix m,
    runs_to E (__check_contents data_path project_id batch_count) h h' r /\
    h' = h ++ pre
           ++ flat_map (fun i => [time_sleep (1 + Z.of_nat i / 10);
                                  list_blobs bucket prefix]) (seq 0 m) /\
    count is_list_blobs pre = 0%nat /\
    sleeps h' = sleeps h ++ List.map (fun i => 1 + Z.of_nat i / 10) (seq 0 m) /\
    (forall i, (i < 10)%nat -> 1 + Z.of_nat i / 10 = 1).
Proof.
  destruct (check_contents_total E data_path project_id batch_count h)
    as (h' & r & pre & bucket & prefix & m & Hrun & Hh & _ & Hpre & _).
  exists h', r, pre, bucket, prefix, m.
  split5; [exact Hrun | exact Hh | | |].
  - destruct Hpre as [-> | (client & name & ->)]; reflexivity.
  - rewrite Hh, !sleeps_app, sleeps_attempts.
    destruct Hpre as [-> | (client & name & ->)]; reflexivity.
  - intros i Hi. rewrite Z.div_small; lia.
Qed.

(** A first match on the 41st listing comes too late: the test of the cap
    is made before the loop compares the counts again. *)
Example check_contents_match_on_41st_listing :
  exists h',
    runs_to (stub (fun i => if (i <? 40)%nat then 2%nat else 3%nat) (fun _ => VNone))
            (__check_contents "gs://bucket/etl/part.json" "proj" (VInt 3)) [] h'
            (inl (ValueError
                    "waited 40 tries for all the etl files to be present.  expected 3, found 3 at gs://bucket/etl/part.json")).
Proof. eexists. apply (runs_burn _ 200). vm_compute. reflexivity. Qed.

(** A location without a bucket part fails before any listing. *)
Example check_contents_short_location :
  runs_to (stub (fun _ => 0%nat) (fun _ => VNone))
          (__check_contents "CSV" "proj" (VInt 0)) []
          [storage_Client "proj"] (inl IndexError).
Proof. apply (runs_burn _ 20). vm_compute. reflexivity. Qed.

(* ===================================================================== *)
(** ** The poller *)
(* ===================================================================== *)

Lemma observe_subst {F R S} (k : R -> itree F S) (t : itree F R) :
  observe (ITree.subst k t)
  = observe (match observe t with
             | RetF r => k r
             | TauF t' => Tau (ITree.subst k t')
             | VisF e h => Vis e (fun x => ITree.subst k (h x))
             end).
Proof. reflexivity. Qed.

(** Run the program up to its next call, pause or end. *)
Ltac to_next_call := repeat (progress (rewrite ?observe_subst, ?observe_bind; cbn)).

Lemma sleeps_only_gen_mon d {R} : monotone1 (@sleeps_only_gen d R).
Proof.
  intros t r r' H LE. unfold sleeps_only_gen in *.
  destruct H; constructor; auto.
Qed.

#[local] Hint Resolve sleeps_only_gen_mon : paco.

Section Poller.

Variable E : env.
Variables bigquery projectId jobId : value.

Lemma count_get_poll (h : history) c :
  is_jobs_get c = false ->
  count is_jobs_get (h ++ [jobs_get_execute bigquery projectId jobId 2; c])
  = S (count is_jobs_get h).
Proof. intros Hc. rewrite count_app. cbn. rewrite Hc. cbn. lia. Qed.

Lemma count_get_print (h : history) s :
  count is_jobs_get (h ++ [print s]) = count is_jobs_get h.
Proof. rewrite count_app. cbn. lia. Qed.

Lemma count_get_polls k h :
  count is_jobs_get (h ++ polls bigquery projectId jobId k)
  = (count is_jobs_get h + k)%nat.
Proof.
  rewrite count_app. f_equal. unfold polls.
  induction k as [|k IH]; [reflexivity|].
  cbn [repeat concat]. rewrite count_app, IH. reflexivity.
Qed.

Lemma in_progress_inv response :
  in_progress response = true ->
  exists status state,
    Py.getitem response "status" = inr status /\
    Py.contains "errors" status = inr false /\
    Py.getitem status "state" = inr state /\
    Py.eq_str state "DONE" = false.
Proof.
  unfold in_progress.
  destruct (Py.getitem response "status") as [|status]; [discriminate|].
  destruct (Py.contains "errors" status) as [|[]] eqn:Herr; try discriminate.
  destruct (Py.getitem status "state") as [|state] eqn:Hstate; [discriminate|].
  intros H. exists status, state.
  split; [reflexivity|]. split; [exact Herr|]. split; [exact Hstate|].
  now apply negb_true_iff.
Qed.

Lemma done_success_inv response :
  done_success response = true ->
  exists status state,
    Py.getitem response "status" = inr status /\
    Py.contains "errors" status = inr false /\
    Py.getitem status "state" = inr state /\
    Py.eq_str state "DONE" = true /\
    Py.contains "errorResult" status = inr false.
Proof.
  unfold done_success.
  destruct (Py.getitem response "status") as [|status]; [discriminate|].
  destruct (Py.contains "errors" status) as [|[]] eqn:Herr; try discriminate.
  destruct (Py.getitem status "state") as [|state] eqn:Hstate; [discriminate|].
  destruct (Py.contains "errorResult" status) as [|[]] eqn:Hres; try discriminate.
  intros H. exists status, state.
  split; [reflexivity|]. split; [exact Herr|]. split; [exact Hstate|].
  split; [exact H | exact Hres].
Qed.

Lemma done_error_inv response status P :
  done_error response = Some (status, P) ->
  exists state,
    Py.getitem response "status" = inr status /\
    Py.getitem status "state" = inr state /\
    Py.eq_str state "DONE" = true /\
    Py.getitem status "errorResult" = inr P.
Proof.
  unfold done_error.
  destruct (Py.getitem response "status") as [|status']; [discriminate|].
  destruct (Py.getitem status' "state") as [|state] eqn:Hstate; [discriminate|].
  destruct (Py.getitem status' "errorResult") as [|P'] eqn:Hres; [discriminate|].
  destruct (Py.eq_str state "DONE") eqn:Hdone; [|discriminate].
  intros H; inversion H; subst. exists state.
  split; [reflexivity|]. split; [exact Hstate|]. split; [exact Hdone | exact Hres].
Qed.

Lemma contains_getitem k status v :
  Py.getitem status k = inr v -> Py.contains k status = inr true.
Proof.
  destruct status; try discriminate. cbn.
  destruct (Py.lookup k d); [reflexivity | discriminate].
Qed.

Lemma contains_dict status k v :
  Py.getitem status k = inr v ->
  forall key, Py.contains key status
              = inr match Py.getitem status key with
                    | inl _ => false
                    | inr _ => true
                    end.
Proof.
  destruct status; try discriminate. intros _ key. cbn.
  destruct (Py.lookup key d); reflexivity.
Qed.

Lemma poll_round_in_progress h response :
  statuses E (count is_jobs_get h) = inr response ->
  in_progress response = true ->
  runs_to E (poll_round bigquery projectId jobId tt) h
          (h ++ [jobs_get_execute bigquery projectId jobId 2; time_sleep 1])
          (inr (inl tt)).
Proof.
  intros Hs Hp.
  destruct (in_progress_inv _ Hp) as (status & state & Hst & Herr & Hstate & Hdone).
  unfold poll_round.
  eapply runs_bind; [apply runs_ext_eq; exact Hs | cbn beta].
  lift_then Hst. lift_then Herr. cbv iota.
  lift_then Hstate. rewrite Hdone.
  eapply runs_bind; [apply runs_ext_eq; reflexivity | cbn beta].
  rewrite <- app_assoc. apply runs_ret.
Qed.

Lemma poll_round_errors h response status :
  statuses E (count is_jobs_get h) = inr response ->
  Py.getitem response "status" = inr status ->
  Py.contains "errors" status = inr true ->
  runs_to E (poll_round bigquery projectId jobId tt) h
          (h ++ [jobs_get_execute bigquery projectId jobId 2;
                 print "Error loading table:"])
          (inl match Py.getitem status "errors" with
               | inl e => e
               | inr errors => RuntimeError (JsonText errors)
               end).
Proof.
  intros Hs Hst Herr. unfold poll_round.
  eapply runs_bind; [apply runs_ext_eq; exact Hs | cbn beta].
  lift_then Hst. lift_then Herr. cbv iota.
  eapply runs_bind; [apply runs_ext_eq; reflexivity | cbn beta].
  rewrite <- app_assoc. cbn [app].
  destruct (Py.getitem status "errors") as [e | errors].
  - lift_raise I.
  - lift_then I. apply runs_raise.
Qed.

Lemma poll_round_done_success h response :
  statuses E (count is_jobs_get h) = inr response ->
  done_success response = true ->
  runs_to E (poll_round bigquery projectId jobId tt) h
          (h ++ [jobs_get_execute bigquery projectId jobId 2; print "Job complete."])
          (inr (inr tt)).
Proof.
  intros Hs Hd.
  destruct (done_success_inv _ Hd)
    as (status & state & Hst & Herr & Hstate & Hdone & Hres).
  unfold poll_round.
  eapply runs_bind; [apply runs_ext_eq; exact Hs | cbn beta].
  lift_then Hst. lift_then Herr. cbv iota.
  lift_then Hstate. rewrite Hdone.
  lift_then Hres. cbv iota.
  eapply runs_bind; [apply runs_ext_eq; reflexivity | cbn beta].
  rewrite <- app_assoc. apply runs_ret.
Qed.

Lemma poll_round_done_error h response status P :
  statuses E (count is_jobs_get h) = inr response ->
  done_error response = Some (status, P) ->
  Py.contains "errors" status = inr false ->
  runs_to E (poll_round bigquery projectId jobId tt) h
          (h ++ [jobs_get_execute bigquery projectId jobId 2])
          (inl (RuntimeError (Obj P))).
Proof.
  intros Hs Hd Herr.
  destruct (done_error_inv _ _ _ Hd) as (state & Hst & Hstate & Hdone & Hres).
  unfold poll_round.
  eapply runs_bind; [apply runs_ext_eq; exact Hs | cbn beta].
  lift_then Hst. lift_then Herr. cbv iota.
  lift_then Hstate. rewrite Hdone.
  lift_then (contains_getitem _ _ _ Hres). cbv iota.
  lift_then Hres. apply runs_raise.
Qed.

(** Rounds that find the job in progress are followed by the rest of the
    loop. *)
Lemma poll_loop_skip k : forall h h' (r : result unit),
  (forall i, (i < k)%nat ->
     exists response,
       statuses E (count is_jobs_get h + i) = inr response /\
       in_progress response = true) ->
  runs_to E (loop (poll_round bigquery projectId jobId) tt)
          (h ++ polls bigquery projectId jobId k) h' r ->
  runs_to E (loop (poll_round bigquery projectId jobId) tt) h h' r.
Proof.
  induction k as [|k IH]; intros h h' r Hk Hrun.
  - unfold polls in Hrun. cbn in Hrun. now rewrite app_nil_r in Hrun.
  - destruct (Hk 0%nat ltac:(lia)) as (response & Hs & Hp).
    rewrite Nat.add_0_r in Hs.
    eapply runs_loop_again; [eapply poll_round_in_progress; eassumption|].
    apply IH.
    + intros i Hi. rewrite count_get_poll by reflexivity.
      destruct (Hk (S i) ltac:(lia)) as (response' & Hs' & Hp').
      exists response'. split; [| exact Hp'].
      rewrite <- Hs'. f_equal. lia.
    + unfold polls in *. cbn in Hrun. rewrite <- app_assoc. exact Hrun.
Qed.

(** The poller first announces itself and reads the handle. *)
Lemma poll_job_loop job h h' r :
  handle_of job = inr (projectId, jobId) ->
  runs_to E (loop (poll_round bigquery projectId jobId) tt)
          (h ++ [print "Waiting for job to finish..."]) h' r ->
  runs_to E (poll_job bigquery job) h h' r.
Proof.
  unfold handle_of. intros Hjob Hrun.
  destruct (Py.getitem job "jobReference") as [|jobReference] eqn:Hj; [discriminate|].
  destruct (Py.getitem jobReference "projectId") as [|p] eqn:Hp; [discriminate|].
  destruct (Py.getitem jobReference "jobId") as [|i] eqn:Hi; [discriminate|].
  inversion Hjob; subst p i. unfold poll_job.
  eapply runs_bind; [apply runs_ext_eq; reflexivity | cbn beta].
  lift_then Hj. lift_then Hp. lift_then Hi. exact Hrun.
Qed.

(** However long the loop of the poller runs, it only sleeps one second
    at a time. *)
Lemma poll_loop_sleeps :
  sleeps_only 1 (loop (poll_round bigquery projectId jobId) tt).
Proof.
  pcofix CIH. pfold. unfold sleeps_only_gen. cbn.
  constructor; [discriminate|]. intros a. left.
  pfold. unfold sleeps_only_gen.
  unfold bind, lift, ret, raise, ext. to_next_call.
  destruct a as [e | result]; to_next_call; [constructor|].
  destruct (Py.getitem result "status") as [e | status]; to_next_call; [constructor|].
  destruct (Py.contains "errors" status) as [e | [|]]; to_next_call; [constructor| |].
  - constructor; [discriminate|]. intros a. left.
    pfold. unfold sleeps_only_gen. to_next_call.
    destruct a as [e | x]; to_next_call; [constructor|].
    destruct (Py.getitem status "errors"); to_next_call; constructor.
  - destruct (Py.getitem status "state") as [e | state]; to_next_call; [constructor|].
    destruct (Py.eq_str state "DONE"); to_next_call.
    + destruct (Py.contains "errorResult" status) as [e | [|]];
        to_next_call; [constructor| |].
      * destruct (Py.getitem status "errorResult"); to_next_call; constructor.
      * constructor; [discriminate|]. intros a. left.
        pfold. unfold sleeps_only_gen. to_next_call.
        destruct a; to_next_call; constructor.
    + constructor; [intros secs H; now inversion H|]. intros a. left.
      pfold. unfold sleeps_only_gen. to_next_call.
      destruct a; to_next_call; [constructor|].
      constructor. right. exact CIH.
Qed.

End Poller.

Lemma poll_job_sleeps bigquery job : sleeps_only 1 (poll_job bigquery job).
Proof.
  pfold. unfold sleeps_only_gen, poll_job, bind, lift, ext. to_next_call.
  constructor; [discriminate|]. intros a. left.
  pfold. unfold sleeps_only_gen. to_next_call.
  destruct a as [e | x]; to_next_call; [constructor|].
  destruct (Py.getitem job "jobReference") as [e | jobReference];
    to_next_call; [constructor|].
  destruct (Py.getitem jobReference "projectId") as [e | projectId];
    to_next_call; [constructor|].
  destruct (Py.getitem jobReference "jobId") as [e | jobId];
    to_next_call; [constructor|].
  pose proof (poll_loop_sleeps bigquery projectId jobId) as H. punfold H.
Qed.

(* ===================================================================== *)
(** ** Properties of the poller *)
(* ===================================================================== *)

(** C2. When the first status response has an ['errors'] field in its
    status (whatever its state), the poller raises after that one
    retrieval: its calls are the announcement, one status retrieval and
    the error line, and the exception is a [RuntimeError] with the JSON
    text of the field. *)
Theorem poll_job_errors_first E h bigquery job projectId jobId response status :
  handle_of job = inr (projectId, jobId) ->
  statuses E (count is_jobs_get h) = inr response ->
  Py.getitem response "status" = inr status ->
  Py.contains "errors" status = inr true ->
  exists e,
    runs_to E (poll_job bigquery job) h
            (h ++ [print "Waiting for job to finish...";
                   jobs_get_execute bigquery projectId jobId 2;
                   print "Error loading table:"])
            (inl e) /\
    (forall errors, Py.getitem status "errors" = inr errors ->
                    e = RuntimeError (JsonText errors)).
Proof.
  intros Hjob Hs Hst Herr. eexists. split.
  - apply (poll_job_loop E bigquery projectId jobId job); [exact Hjob|].
    replace (h ++ [print "Waiting for job to finish...";
                   jobs_get_execute bigquery projectId jobId 2;
                   print "Error loading table:"])
      with ((h ++ [print "Waiting for job to finish..."])
              ++ [jobs_get_execute bigquery projectId jobId 2;
                  print "Error loading table:"])
      by now rewrite <- app_assoc.
    apply runs_loop_raise.
    eapply poll_round_errors; [| exact Hst | exact Herr].
    rewrite count_get_print. exact Hs.
  - intros errors ->. reflexivity.
Qed.

(** A running job whose first status already lists an error. *)
Lemma poll_job_errors_first_witness :
  exists e,
    runs_to (stub (fun _ => 0%nat)
                  (fun _ => response "RUNNING" [("errors", VList [VStr "quota"])]))
            (poll_job VNone job_H) []
            [print "Waiting for job to finish...";
             jobs_get_execute VNone (VStr "p") (VStr "H") 2;
             print "Error loading table:"]
            (inl e) /\
    (forall errors,
        Py.getitem (VDict [("state", VStr "RUNNING"); ("errors", VList [VStr "quota"])])
                   "errors" = inr errors ->
        e = RuntimeError (JsonText errors)).
Proof.
  apply (poll_job_errors_first
           (stub (fun _ => 0%nat)
                 (fun _ => response "RUNNING" [("errors", VList [VStr "quota"])]))
           [] VNone job_H (VStr "p") (VStr "H")
           (response "RUNNING" [("errors", VList [VStr "quota"])])
           (VDict [("state", VStr "RUNNING"); ("errors", VList [VStr "quota"])]));
    reflexivity.
Defined.

(** C4. When three status retrievals in a row find the job in progress, in
    progress and then done without any error field, the poller returns
    after exactly these three retrievals, with a sleep of one second
    between them. *)
Theorem poll_job_three_polls E h bigquery job projectId jobId r0 r1 r2 :
  handle_of job = inr (projectId, jobId) ->
  statuses E (count is_jobs_get h) = inr r0 ->
  statuses E (count is_jobs_get h + 1) = inr r1 ->
  statuses E (count is_jobs_get h + 2) = inr r2 ->
  in_progress r0 = true ->
  in_progress r1 = true ->
  done_success r2 = true ->
  runs_to E (poll_job bigquery job) h
          (h ++ [print "Waiting for job to finish...";
                 jobs_get_execute bigquery projectId jobId 2; time_sleep 1;
                 jobs_get_execute bigquery projectId jobId 2; time_sleep 1;
                 jobs_get_execute bigquery projectId jobId 2;
                 print "Job complete."])
          (inr tt).
Proof.
  intros Hjob H0 H1 H2 P0 P1 P2.
  apply (poll_job_loop E bigquery projectId jobId job); [exact Hjob|].
  apply (poll_loop_skip E bigquery projectId jobId 2).
  - intros [|[|i]] Hi; [exists r0 | exists r1 | lia];
      rewrite count_get_print, ?Nat.add_0_r; auto.
  - eapply runs_to_eq; [eapply runs_loop_return, poll_round_done_success | | reflexivity].
    + rewrite count_get_polls, count_get_print. exact H2.
    + exact P2.
    + unfold polls. cbn. now rewrite <- !app_assoc.
Qed.

(** Running, running, done. *)
Lemma poll_job_three_polls_witness :
  runs_to (stub (fun _ => 0%nat)
                (fun k => if (k <? 2)%nat then response "RUNNING" []
                          else response "DONE" []))
          (poll_job VNone job_H) []
          [print "Waiting for job to finish...";
           jobs_get_execute VNone (VStr "p") (VStr "H") 2; time_sleep 1;
           jobs_get_execute VNone (VStr "p") (VStr "H") 2; time_sleep 1;
           jobs_get_execute VNone (VStr "p") (VStr "H") 2;
           print "Job complete."]
          (inr tt).
Proof.
  apply (poll_job_three_polls
           (stub (fun _ => 0%nat)
                 (fun k => if (k <? 2)%nat then response "RUNNING" []
                           else response "DONE" []))
           [] VNone job_H (VStr "p") (VStr "H")
           (response "RUNNING" []) (response "RUNNING" []) (response "DONE" []));
    reflexivity.
Defined.

(** C5, as the code has it. When the job is found in progress [k] times and
    then done with an ['errorResult'] payload [P], the poller raises a
    [RuntimeError] after that retrieval: it carries [P] itself when the
    status has no ['errors'] field, and the JSON text of the ['errors']
    field, after the error line, when it has one. *)
Theorem poll_job_done_error E h bigquery job projectId jobId k response status P :
  handle_of job = inr (projectId, jobId) ->
  (forall i, (i < k)%nat ->
     exists r, statuses E (count is_jobs_get h + i) = inr r /\ in_progress r = true) ->
  statuses E (count is_jobs_get h + k) = inr response ->
  done_error response = Some (status, P) ->
  runs_to E (poll_job bigquery job) h
          (h ++ [print "Waiting for job to finish..."]
             ++ polls bigquery projectId jobId k
             ++ jobs_get_execute bigquery projectId jobId 2
             :: match Py.getitem status "errors" with
                | inr _ => [print "Error loading table:"]
                | inl _ => []
                end)
          (inl (RuntimeError match Py.getitem status "errors" with
                             | inr errors => JsonText errors
                             | inl _ => Obj P
                             end)).
Proof.
  intros Hjob Hk Hs Hdone.
  apply (poll_job_loop E bigquery projectId jobId job); [exact Hjob|].
  apply (poll_loop_skip E bigquery projectId jobId k).
  { intros i Hi. rewrite count_get_print. auto. }
  assert (Hs' : statuses E (count is_jobs_get
                   ((h ++ [print "Waiting for job to finish..."])
                      ++ polls bigquery projectId jobId k)) = inr response).
  { rewrite count_get_polls, count_get_print. exact Hs. }
  apply runs_loop_raise.
  destruct (done_error_inv _ _ _ Hdone) as (state & Hst & Hstate & _).
  destruct (Py.getitem status "errors") as [e | errors] eqn:Herr.
  - eapply runs_to_eq;
      [eapply poll_round_done_error; [exact Hs' | exact Hdone |] | | reflexivity].
    + rewrite (contains_dict _ _ _ Hstate), Herr. reflexivity.
    + now rewrite <- !app_assoc.
  - eapply runs_to_eq;
      [eapply poll_round_errors;
         [exact Hs' | exact Hst | exact (contains_getitem _ _ _ Herr)] | |].
    + now rewrite <- !app_assoc.
    + now rewrite Herr.
Qed.

(** Running, then done with an error result and no ['errors'] field: the
    error result is raised. *)
Lemma poll_job_done_error_witness :
  runs_to (stub (fun _ => 0%nat)
             (fun k => if (k <? 1)%nat then response "RUNNING" []
                       else response "DONE"
                              [("errorResult", VDict [("reason", VStr "invalid")])]))
          (poll_job VNone job_H) []
          [print "Waiting for job to finish...";
           jobs_get_execute VNone (VStr "p") (VStr "H") 2; time_sleep 1;
           jobs_get_execute VNone (VStr "p") (VStr "H") 2]
          (inl (RuntimeError (Obj (VDict [("reason", VStr "invalid")])))).
Proof.
  apply (poll_job_done_error
           (stub (fun _ => 0%nat)
              (fun k => if (k <? 1)%nat then response "RUNNING" []
                        else response "DONE"
                               [("errorResult", VDict [("reason", VStr "invalid")])]))
           [] VNone job_H (VStr "p") (VStr "H") 1
           (response "DONE" [("errorResult", VDict [("reason", VStr "invalid")])])
           (VDict [("state", VStr "DONE");
                   ("errorResult", VDict [("reason", VStr "invalid")])])
           (VDict [("reason", VStr "invalid")]));
    [ reflexivity
    | intros [|i] Hi; [| lia]; exists (response "RUNNING" []); split; reflexivity
    | reflexivity
    | reflexivity ].
Defined.

(** C5 as stated fails when the done status has both fields: the poller
    raises the JSON text of ['errors'], in which the payload of
    ['errorResult'] does not occur. *)
Lemma poll_job_done_error_counterexample :
  let P := VDict [("reason", VStr "invalid"); ("message", VStr "too many errors")] in
  let errors := VList [VDict [("reason", VStr "invalid"); ("message", VStr "bad row")]] in
  let status := VDict [("state", VStr "DONE"); ("errorResult", P); ("errors", errors)] in
  let E := stub (fun _ => 0%nat)
             (fun k => if (k <? 1)%nat then response "RUNNING" []
                       else response "DONE" [("errorResult", P); ("errors", errors)]) in
  in_progress (response "RUNNING" []) = true /\
  done_error (response "DONE" [("errorResult", P); ("errors", errors)])
    = Some (status, P) /\
  runs_to E (poll_job VNone job_H) []
          [print "Waiting for job to finish...";
           jobs_get_execute VNone (VStr "p") (VStr "H") 2; time_sleep 1;
           jobs_get_execute VNone (VStr "p") (VStr "H") 2;
           print "Error loading table:"]
          (inl (RuntimeError (JsonText errors))) /\
  ~ surfaces (RuntimeError (JsonText errors)) P /\
  ~ (exists h' e, runs_to E (poll_job VNone job_H) [] h' (inl e) /\ surfaces e P).
Proof.
  intros P errors status E.
  assert (Hrun : runs_to E (poll_job VNone job_H) []
            [print "Waiting for job to finish...";
             jobs_get_execute VNone (VStr "p") (VStr "H") 2; time_sleep 1;
             jobs_get_execute VNone (VStr "p") (VStr "H") 2;
             print "Error loading table:"]
            (inl (RuntimeError (JsonText errors)))).
  { apply (runs_burn _ 20). vm_compute. reflexivity. }
  assert (Hno : ~ surfaces (RuntimeError (JsonText errors)) P).
  { cbn. intuition discriminate. }
  split; [reflexivity|]. split; [reflexivity|].
  split; [exact Hrun|]. split; [exact Hno|].
  intros (h' & e & Hraise & Hsurf).
  destruct (runs_det _ _ _ _ _ _ _ Hrun Hraise) as [_ Heq].
  inversion Heq; subst e. exact (Hno Hsurf).
Qed.

(* ===================================================================== *)
(** ** Properties of the submission *)
(* ===================================================================== *)

Lemma load_table_runs E h bigquery project_id dataset_id table_name source_schema
    source_path source_format num_retries write_disposition :
  runs_to E (load_table bigquery project_id dataset_id table_name source_schema
                        source_path source_format num_retries write_disposition)
          h
          (h ++ [uuid4;
                 jobs_insert bigquery project_id
                   (job_data project_id dataset_id table_name source_schema
                             source_path source_format write_disposition
                             (VStr (uuids E (count is_uuid4 h))))
                   num_retries])
          (insertions E (count is_jobs_insert h)).
Proof.
  unfold load_table. ext_then.
  eapply runs_to_eq; [apply runs_ext | now rewrite <- app_assoc |].
  cbn. rewrite count_app. cbn. now rewrite Nat.add_0_r.
Qed.

Lemma tally_inj i : forall j, tally i = tally j -> i = j.
Proof.
  induction i as [|i IH]; intros [|j] H; try discriminate; [reflexivity|].
  inversion H. f_equal. auto.
Qed.

(** C10. Whatever its arguments, [load_table] draws a UUID and submits one
    body, in which [ignoreUnknownValues] is [True] and [createDisposition]
    is ['CREATE_IF_NEEDED']. *)
Theorem load_table_fixed_options E h bigquery project_id dataset_id table_name
    source_schema source_path source_format num_retries write_disposition :
  exists body,
    runs_to E (load_table bigquery project_id dataset_id table_name source_schema
                          source_path source_format num_retries write_disposition)
            h (h ++ [uuid4; jobs_insert bigquery project_id body num_retries])
            (insertions E (count is_jobs_insert h)) /\
    getpath body ["configuration"; "load"; "ignoreUnknownValues"] = inr (VBool true) /\
    getpath body ["configuration"; "load"; "createDisposition"]
      = inr (VStr "CREATE_IF_NEEDED").
Proof.
  eexists. split; [apply load_table_runs|]. split; reflexivity.
Qed.

(** C3. With a UUID generator that never gives the same text twice, two
    calls of [load_table], the second after the first with any calls in
    between and whatever the two requests, submit bodies with different
    job identifiers: each is the UUID drawn by its call, which depends on
    the number of UUIDs drawn before and not on the request. *)
Theorem load_table_fresh_ids E h1 h1' r1 between h2' r2
    bigquery1 project_id1 dataset_id1 table_name1 source_schema1 source_path1
    source_format1 num_retries1 write_disposition1
    bigquery2 project_id2 dataset_id2 table_name2 source_schema2 source_path2
    source_format2 num_retries2 write_disposition2 :
  (forall i j, uuids E i = uuids E j -> i = j) ->
  runs_to E (load_table bigquery1 project_id1 dataset_id1 table_name1 source_schema1
                        source_path1 source_format1 num_retries1 write_disposition1)
          h1 h1' r1 ->
  runs_to E (load_table bigquery2 project_id2 dataset_id2 table_name2 source_schema2
                        source_path2 source_format2 num_retries2 write_disposition2)
          (h1' ++ between) h2' r2 ->
  exists id1 id2,
    submitted_ids h1' = submitted_ids h1 ++ [inr (VStr id1)] /\
    submitted_ids h2' = submitted_ids (h1' ++ between) ++ [inr (VStr id2)] /\
    id1 = uuids E (count is_uuid4 h1) /\
    id2 = uuids E (count is_uuid4 (h1' ++ between)) /\
    id1 <> id2.
Proof.
  intros Hinj Hrun1 Hrun2.
  destruct (runs_det _ _ _ _ _ _ _ Hrun1 (load_table_runs _ _ _ _ _ _ _ _ _ _ _))
    as [-> _].
  destruct (runs_det _ _ _ _ _ _ _ Hrun2 (load_table_runs _ _ _ _ _ _ _ _ _ _ _))
    as [-> _].
  do 2 eexists. split5; [| | reflexivity | reflexivity |].
  - rewrite submitted_ids_app. reflexivity.
  - rewrite (submitted_ids_app (_ ++ between)). reflexivity.
  - intros Heq. apply Hinj in Heq. rewrite !count_app in Heq. cbn in Heq. lia.
Qed.

(** The same request submitted twice in a row. *)
Lemma load_table_fresh_ids_witness :
  exists id1 id2,
    submitted_ids
      [uuid4;
       jobs_insert VNone "p"
         (job_data "p" "d" "t" (VList []) "gs://bucket/etl/part.json" "CSV"
                   (VStr "WRITE_EMPTY") (VStr "")) 5]
    = submitted_ids [] ++ [inr (VStr id1)] /\
    submitted_ids
      [uuid4;
       jobs_insert VNone "p"
         (job_data "p" "d" "t" (VList []) "gs://bucket/etl/part.json" "CSV"
                   (VStr "WRITE_EMPTY") (VStr "")) 5;
       uuid4;
       jobs_insert VNone "p"
         (job_data "p" "d" "t" (VList []) "gs://bucket/etl/part.json" "CSV"
                   (VStr "WRITE_EMPTY") (VStr "i")) 5]
    = submitted_ids
        ([uuid4;
          jobs_insert VNone "p"
            (job_data "p" "d" "t" (VList []) "gs://bucket/etl/part.json" "CSV"
                      (VStr "WRITE_EMPTY") (VStr "")) 5] ++ [])
        ++ [inr (VStr id2)] /\
    id1 = "" /\ id2 = "i" /\ id1 <> id2.
Proof.
  refine (load_table_fresh_ids
            (stub (fun _ => 0%nat) (fun _ => VNone)) []
            [uuid4;
             jobs_insert VNone "p"
               (job_data "p" "d" "t" (VList []) "gs://bucket/etl/part.json" "CSV"
                         (VStr "WRITE_EMPTY") (VStr "")) 5]
            (inr job_H) []
            [uuid4;
             jobs_insert VNone "p"
               (job_data "p" "d" "t" (VList []) "gs://bucket/etl/part.json" "CSV"
                         (VStr "WRITE_EMPTY") (VStr "")) 5;
             uuid4;
             jobs_insert VNone "p"
               (job_data "p" "d" "t" (VList []) "gs://bucket/etl/part.json" "CSV"
                         (VStr "WRITE_EMPTY") (VStr "i")) 5]
            (inr job_H)
            VNone "p" "d" "t" (VList []) "gs://bucket/etl/part.json" "CSV" 5
            (VStr "WRITE_EMPTY")
            VNone "p" "d" "t" (VList []) "gs://bucket/etl/part.json" "CSV" 5
            (VStr "WRITE_EMPTY") _ _ _);
    [ exact (fun i j => tally_inj i j)
    | apply (runs_burn _ 20); vm_compute; reflexivity
    | apply (runs_burn _ 20); vm_compute; reflexivity ].
Defined.

(* ===================================================================== *)
(** ** Properties of [run] and of the command line *)
(* ===================================================================== *)

Lemma count_attempts (p : call -> bool) bucket prefix m : forall c,
  (forall d, p (time_sleep d) = false) ->
  p (list_blobs bucket prefix) = false ->
  count p (attempts bucket prefix c m) = 0%nat.
Proof.
  induction m as [|m IH]; intros c Hs Hl; [reflexivity|].
  rewrite attempts_S, count_app, IH by assumption.
  cbn. now rewrite Hs, Hl.
Qed.

(** The readiness check neither submits a job nor retrieves a status. *)
Lemma check_contents_no_job_call E data_path project_id batch_count h h' r :
  runs_to E (__check_contents data_path project_id batch_count) h h' r ->
  count is_jobs_insert h' = count is_jobs_insert h /\
  count is_jobs_get h' = count is_jobs_get h.
Proof.
  intros Hrun.
  destruct (check_contents_total E data_path project_id batch_count h)
    as (h1 & r1 & pre & bucket & prefix & m & Hrun1 & Hh & _ & Hpre & _).
  destruct (runs_det _ _ _ _ _ _ _ Hrun Hrun1) as [-> _]. subst h1.
  rewrite !count_app, !count_attempts by reflexivity.
  destruct Hpre as [-> | (client & name & ->)]; cbn; lia.
Qed.

(** C8. When the credentials are found and the readiness check then raises,
    [run] ends there with the same exception: its calls are those made up
    to the failure, and no job submission and no status retrieval is among
    them. *)
Theorem run_stops_at_readiness_failure E h h' e credentials
    project_id batch_count dataset_id table_name schema_file data_path
    source_format write_disposition num_retries poll_interval :
  setup E get_application_default = inr credentials ->
  runs_to E (__check_contents data_path project_id batch_count)
          (h ++ [get_application_default]) h' (inl e) ->
  runs_to E (run project_id batch_count dataset_id table_name schema_file data_path
                 source_format write_disposition num_retries poll_interval)
          h h' (inl e) /\
  count is_jobs_insert h' = count is_jobs_insert h /\
  count is_jobs_get h' = count is_jobs_get h.
Proof.
  intros Hcred Hcheck. split.
  - unfold run.
    eapply runs_bind; [apply runs_ext_eq; exact Hcred | cbn beta].
    eapply runs_bind_raise. exact Hcheck.
  - apply check_contents_no_job_call in Hcheck.
    rewrite !count_app in Hcheck. cbn in Hcheck. lia.
Qed.

(** Three objects expected and two listed every time: [run] ends with the
    error of the readiness check. *)
Lemma run_stops_at_readiness_failure_witness :
  runs_to (stub (fun _ => 2%nat) (fun _ => response "DONE" []))
          (run "proj" (VInt 3) "d" "t" "schema.json" "gs://bucket/etl/part.json"
               "CSV" (VStr "WRITE_EMPTY") 5 1)
          []
          (get_application_default :: storage_Client "proj"
             :: get_bucket VNone "bucket" :: attempts VNone "etl" 0 41)
          (inl (ValueError
                  "waited 40 tries for all the etl files to be present.  expected 3, found 2 at gs://bucket/etl/part.json")) /\
  count is_jobs_insert
        (get_application_default :: storage_Client "proj"
           :: get_bucket VNone "bucket" :: attempts VNone "etl" 0 41)
  = count is_jobs_insert [] /\
  count is_jobs_get
        (get_application_default :: storage_Client "proj"
           :: get_bucket VNone "bucket" :: attempts VNone "etl" 0 41)
  = count is_jobs_get [].
Proof.
  refine (run_stops_at_readiness_failure
            (stub (fun _ => 2%nat) (fun _ => response "DONE" [])) []
            (get_application_default :: storage_Client "proj"
               :: get_bucket VNone "bucket" :: attempts VNone "etl" 0 41)
            _ VNone "proj" (VInt 3) "d" "t" "schema.json"
            "gs://bucket/etl/part.json" "CSV" (VStr "WRITE_EMPTY") 5 1 _ _);
    [ reflexivity | apply (runs_burn _ 200); vm_compute; reflexivity ].
Defined.

(** A count that is a string differs from every number, and does not
    format as one: the readiness check cannot return. *)
Lemma check_contents_str_raises E data_path project_id s h :
  exists h' e,
    runs_to E (__check_contents data_path project_id (VStr s)) h h' (inl e).
Proof.
  destruct (check_contents_total E data_path project_id (VStr s) h)
    as (h' & r & pre & bucket & prefix & m & Hrun & _ & _ & _ & Hret).
  destruct r as [e | []]; [eauto|].
  destruct (Hret tt eq_refl) as [cur' Hcur]. discriminate.
Qed.

Lemma run_str_raises E h project_id s dataset_id table_name schema_file data_path
    source_format write_disposition :
  exists h' e, forall num_retries poll_interval,
    runs_to E (run project_id (VStr s) dataset_id table_name schema_file data_path
                   source_format write_disposition num_retries poll_interval)
            h h' (inl e).
Proof.
  destruct (setup E get_application_default) as [e | credentials] eqn:Hcred.
  - exists (h ++ [get_application_default]), e. intros. unfold run.
    eapply runs_bind_raise. apply runs_ext_eq. exact Hcred.
  - destruct (check_contents_str_raises E data_path project_id s
                (h ++ [get_application_default])) as (h' & e & Hcheck).
    exists h', e. intros. unfold run.
    eapply runs_bind; [apply runs_ext_eq; exact Hcred | cbn beta].
    eapply runs_bind_raise. exact Hcheck.
Qed.

(** C9. [run] does not look at its [poll_interval]: two calls that differ
    only there are the same program, and the poller, however long it runs and
    whatever it is answered, only sleeps one second at a time.  The command
    line passes the value of [--poll_interval] on in the place of
    [num_retries]; even so, two command lines that differ only there behave
    alike against every collaborator, as the readiness check, given the
    dataset name for a count, raises before anything is submitted. *)
Theorem poll_interval_unused :
  (forall project_id batch_count dataset_id table_name schema_file data_path
          source_format write_disposition num_retries p1 p2,
      run project_id batch_count dataset_id table_name schema_file data_path
          source_format write_disposition num_retries p1
      = run project_id batch_count dataset_id table_name schema_file data_path
            source_format write_disposition num_retries p2) /\
  (forall bigquery job, sleeps_only 1 (poll_job bigquery job)) /\
  (forall E h args p1 p2,
      exec E (main (with_poll_interval args p1)) h
      ≈ exec E (main (with_poll_interval args p2)) h).
Proof.
  split; [reflexivity|]. split; [exact poll_job_sleeps|].
  intros E h args p1 p2. unfold main. cbn [with_poll_interval project_id dataset_id
    table_name schema_file data_path poll_interval num_retries source_format
    write_disposition].
  destruct (run_str_raises E h (project_id args) (dataset_id args) (table_name args)
              (schema_file args) (data_path args) (source_format args)
              (write_disposition args) (VInt (num_retries args)))
    as (h' & e & Hrun).
  pose proof (Hrun p1 1) as H1. pose proof (Hrun p2 1) as H2.
  unfold runs_to in H1, H2. rewrite H1, H2. reflexivity.
Qed.

(** The scenario of a whole load: three objects expected and seen on the
    second listing, a job submitted, found pending, running and then done. *)
Example run_end_to_end :
  runs_to (stub (fun i => if (i <? 1)%nat then 2%nat else 3%nat)
                (fun k => if (k <? 1)%nat then response "PENDING" []
                          else if (k <? 2)%nat then response "RUNNING" []
                          else response "DONE" []))
          (run "p" (VInt 3) "d" "t" "schema.json" "gs://bucket/etl/part.json"
               "CSV" (VStr "WRITE_EMPTY") 5 1)
          []
          [get_application_default; storage_Client "p"; get_bucket VNone "bucket";
           time_sleep 1; list_blobs VNone "etl";
           time_sleep 1; list_blobs VNone "etl";
           discovery_build "bigquery" "v2" VNone;
           json_load_file "schema.json";
           uuid4;
           jobs_insert VNone "p"
             (job_data "p" "d" "t" VNone "gs://bucket/etl/part.json" "CSV"
                       (VStr "WRITE_EMPTY") (VStr "")) 5;
           print "Waiting for job to finish...";
           jobs_get_execute VNone (VStr "p") (VStr "H") 2; time_sleep 1;
           jobs_get_execute VNone (VStr "p") (VStr "H") 2; time_sleep 1;
           jobs_get_execute VNone (VStr "p") (VStr "H") 2;
           print "Job complete."]
          (inr tt).
Proof. apply (runs_burn _ 200). vm_compute. reflexivity. Qed.

(** The command line with its defaults: the source format stands where
    [run] expects the location, and the check fails on it. *)
Example main_defaults :
  runs_to (stub (fun _ => 3%nat) (fun _ => response "DONE" []))
          (main {| project_id := "p"; dataset_id := "d"; table_name := "t";
                   schema_file := "schema.json";
                   data_path := "gs://bucket/etl/part.json";
                   poll_interval := 1; num_retries := 5;
                   source_format := "CSV"; write_disposition := "WRITE_EMPTY" |})
          []
          [get_application_default; storage_Client "p"]
          (inl IndexError).
Proof. apply (runs_burn _ 20). vm_compute. reflexivity. Qed.

(* ===================================================================== *)
(** ** Taking runs apart *)
(* ===================================================================== *)

Section Inversion.

Variable E : env.

Lemma leaf_void {R} (t : itree void1 R) x : Leaf x t -> t ≈ Ret x.
Proof.
  induction 1 as [t Ht | t u Ht _ IH | X e t k y Ht _ _].
  - rewrite (itree_eta t), Ht. reflexivity.
  - rewrite (itree_eta t), Ht, tau_eutt. exact IH.
  - destruct e.
Qed.

Lemma runs_leaf {A} (m : M A) h h' r :
  runs_to E m h h' r <-> Leaf (h', r) (exec E m h).
Proof.
  split.
  - intros H. unfold runs_to in H. rewrite H. apply Leaf_Ret.
  - apply leaf_void.
Qed.

(** A run of a sequence is a run of its first part, followed, unless that
    raised, by a run of the rest. *)
Lemma runs_bind_inv {A B} (m : M A) (k : A -> M B) h h' r :
  runs_to E (bind m k) h h' r ->
  exists h1 x,
    runs_to E m h h1 x /\
    match x with
    | inl e => h' = h1 /\ r = inl e
    | inr a => runs_to E (k a) h1 h' r
    end.
Proof.
  unfold runs_to, exec, bind. intros H.
  rewrite interp_state_bind in H.
  apply eutt_inv_bind_ret in H as ([h1 x] & Hm & Hk).
  exists h1, x. split; [exact Hm|].
  cbn in Hk. destruct x as [e | a]; [| exact Hk].
  rewrite interp_state_ret in Hk. apply eutt_inv_Ret in Hk.
  inversion Hk; auto.
Qed.

(** What holds of the calls made, and is kept by every round that ends,
    holds when the loop ends. *)
Lemma runs_loop_invariant {I A} (body : I -> M (I + A))
    (RS : history -> Prop) (RI : I -> Prop) (RR : result A -> Prop) :
  (forall h i h1 x, RS h -> RI i -> runs_to E (body i) h h1 x ->
     RS h1 /\ match x with
              | inl e => RR (inl e)
              | inr (inl i') => RI i'
              | inr (inr a) => RR (inr a)
              end) ->
  forall h i h' r, RS h -> RI i -> runs_to E (loop body i) h h' r -> RS h' /\ RR r.
Proof.
  intros Hbody h i h' r Hs Hi Hrun.
  apply runs_leaf in Hrun. unfold exec, loop in Hrun.
  apply (Leaf_interp_state_iter_inv (handle E) (loop_step body) RS RI RR h i)
    with (sr' := (h', r)); auto.
  intros s j Hsj Hj [s1 y] Hleaf.
  apply leaf_void in Hleaf. unfold loop_step in Hleaf.
  rewrite interp_state_bind in Hleaf.
  apply eutt_inv_bind_ret in Hleaf as ([s2 x] & Hm & Hk). cbn in Hk.
  destruct (Hbody s j s2 x Hsj Hj Hm) as [Hs2 Hx].
  destruct x as [e | [i' | a]]; rewrite interp_state_ret in Hk;
    apply eutt_inv_Ret in Hk; inversion Hk; subst; split; auto.
Qed.

Lemma runs_ext_inv c h h1 x :
  runs_to E (ext c) h h1 x -> h1 = h ++ [c] /\ x = answer E h c.
Proof. intros H. exact (runs_det _ _ _ _ _ _ _ H (runs_ext E c h)). Qed.

Lemma runs_Ret_inv {A} (r : result A) h h1 x :
  runs_to E (Ret r) h h1 x -> h1 = h /\ x = r.
Proof. intros H. exact (runs_det _ _ _ _ _ _ _ H (runs_Ret E r h)). Qed.

End Inversion.

(** Take the first step of a run apart. *)
Ltac first_step H :=
  let h1 := fresh "h" in
  let x := fresh "x" in
  let Hm := fresh "Hm" in
  let e := fresh "e" in
  apply runs_bind_inv in H as (h1 & x & Hm & H);
  first [ apply runs_ext_inv in Hm as [-> ->]
        | apply runs_Ret_inv in Hm as [-> ->] ].

(* ===================================================================== *)
(** ** Further properties of the readiness check *)
(* ===================================================================== *)

Lemma split_length s : length (Py.split "/" s) = S (slashes s).
Proof.
  induction s as [|c s IH]; [reflexivity|]. cbn [Py.split slashes].
  destruct (Ascii.eqb c "/"); cbn [length]; [now rewrite IH|].
  destruct (Py.split "/" s); [discriminate | exact IH].
Qed.

Lemma split_slash_free s : slashes s = 0%nat -> Py.split "/" s = [s].
Proof.
  induction s as [|c s IH]; [reflexivity|]. cbn [Py.split slashes].
  destruct (Ascii.eqb c "/"); [discriminate|].
  intros H. now rewrite IH.
Qed.

Lemma split_app s t :
  slashes s = 0%nat ->
  Py.split "/" (s ++ String "/" t) = s :: Py.split "/" t.
Proof.
  induction s as [|c s IH]; intros H.
  - cbn. reflexivity.
  - cbn [slashes] in H. cbn [String.append Py.split].
    destruct (Ascii.eqb c "/"); [discriminate|].
    now rewrite IH.
Qed.

Lemma split_join l :
  l <> [] ->
  Forall (fun s => slashes s = 0%nat) l ->
  Py.split "/" (Py.join "/" l) = l.
Proof.
  unfold Py.join. induction l as [|s l IH]; intros Hne Hall; [contradiction|].
  inversion Hall as [|? ? Hs Hl]; subst.
  destruct l as [|s' l].
  - cbn. now apply split_slash_free.
  - cbn [String.concat]. change ("/" ++ ?x)%string with (String "/" x).
    rewrite split_app by exact Hs.
    f_equal. apply IH; [discriminate | exact Hl].
Qed.

Lemma removelast_snoc {A} (l : list A) a : removelast (l ++ [a]) = l.
Proof. rewrite removelast_app by discriminate. cbn. apply app_nil_r. Qed.

Lemma location_parts scheme authority bucket_name dirs file :
  Forall (fun s => slashes s = 0%nat) (scheme :: authority :: bucket_name :: file :: dirs) ->
  let data_path := Py.join "/" (scheme :: authority :: bucket_name :: dirs ++ [file]) in
  Py.index (Py.split "/" data_path) 2 = inr bucket_name /\
  Py.join "/" (Py.slice_3_m1 (Py.split "/" data_path)) = Py.join "/" dirs.
Proof.
  intros Hall data_path. subst data_path.
  rewrite split_join; [| discriminate |].
  - split; [reflexivity|]. unfold Py.slice_3_m1. cbn [skipn].
    now rewrite removelast_snoc.
  - inversion Hall as [|? ? H1 Hall1]; subst.
    inversion Hall1 as [|? ? H2 Hall2]; subst.
    inversion Hall2 as [|? ? H3 Hall3]; subst.
    inversion Hall3 as [|? ? H4 Hall4]; subst.
    repeat constructor; auto. apply Forall_app. split; auto.
Qed.

Lemma index_short data_path :
  (slashes data_path < 2)%nat ->
  Py.index (Py.split "/" data_path) 2 = inl IndexError.
Proof.
  intros Hs. unfold Py.index.
  destruct (nth_error (Py.split "/" data_path) 2) eqn:Hn; [|reflexivity].
  assert (2 < length (Py.split "/" data_path))%nat
    by (apply nth_error_Some; congruence).
  rewrite split_length in H. lia.
Qed.

Lemma count_list_attempts bucket prefix k : forall c,
  count is_list_blobs (attempts bucket prefix c k) = k.
Proof.
  induction k as [|k IH]; intros c; [reflexivity|].
  rewrite attempts_S, count_app, IH. reflexivity.
Qed.

Section ReadinessMore.

Variable E : env.
Variables (batch_count bucket : value) (prefix data_path : string).

(** Attempts that find a count other than the expected one are followed
    by the rest of the loop. *)
Lemma check_loop_skip k : forall c cur h h' (r : result unit),
  (c + k <= 40)%nat ->
  Py.ne_int batch_count cur = true ->
  (forall i, (i < k)%nat ->
     exists v n, listings E (count is_list_blobs h + i) = inr v /\
                 Py.count_iter v = inr n /\ Py.ne_int batch_count n = true) ->
  (forall cur', Py.ne_int batch_count cur' = true ->
     runs_to E (loop (check_round batch_count bucket prefix data_path)
                     (cur', Z.of_nat (c + k)))
             (h ++ attempts bucket prefix c k) h' r) ->
  runs_to E (loop (check_round batch_count bucket prefix data_path) (cur, Z.of_nat c))
          h h' r.
Proof.
  induction k as [|k IH]; intros c cur h h' r Hc Hne Hk Hrest.
  - specialize (Hrest cur Hne). rewrite Nat.add_0_r in Hrest.
    unfold attempts in Hrest. cbn in Hrest. now rewrite app_nil_r in Hrest.
  - destruct (Hk 0%nat ltac:(lia)) as (v & n & Hv & Hn & Hnen).
    rewrite Nat.add_0_r in Hv.
    eapply runs_loop_again.
    + eapply runs_to_eq; [apply check_round_attempt; exact Hne | reflexivity |].
      rewrite Hv. unfold listed. rewrite Hn. unfold counted.
      replace (40 =? Z.of_nat c) with false by (symmetry; apply Z.eqb_neq; lia).
      reflexivity.
    + replace (Z.of_nat c + 1) with (Z.of_nat (S c)) by lia.
      apply (IH (S c) n); [lia | exact Hnen | |].
      * intros i Hi. rewrite count_list_attempt.
        destruct (Hk (S i) ltac:(lia)) as (v' & n' & Hv' & H').
        exists v', n'. split; [| exact H'].
        rewrite <- Hv'. f_equal. lia.
      * intros cur' Hcur'. specialize (Hrest cur' Hcur').
        rewrite attempts_S, app_assoc in Hrest.
        replace (S c + k)%nat with (c + S k)%nat by lia. exact Hrest.
Qed.

End ReadinessMore.

Section ReadinessShape.

Variable E : env.

Lemma check_contents_enter data_path project_id batch_count h h' r client name bucket :
  setup E (storage_Client project_id) = inr client ->
  Py.index (Py.split "/" data_path) 2 = inr name ->
  setup E (get_bucket client name) = inr bucket ->
  runs_to E (loop (check_round batch_count bucket
                     (Py.join "/" (Py.slice_3_m1 (Py.split "/" data_path))) data_path)
                  (0, Z.of_nat 0))
          (h ++ [storage_Client project_id; get_bucket client name]) h' r ->
  runs_to E (__check_contents data_path project_id batch_count) h h' r.
Proof.
  intros Hc Hi Hb Hrun. unfold __check_contents.
  eapply runs_bind; [apply runs_ext_eq; exact Hc | cbn beta].
  lift_then Hi.
  eapply runs_bind; [apply runs_ext_eq; exact Hb | cbn beta].
  rewrite <- app_assoc. exact Hrun.
Qed.

Lemma check_contents_counts (p : call -> bool) data_path project_id batch_count h h' r :
  (forall d, p (time_sleep d) = false) ->
  (forall b s, p (list_blobs b s) = false) ->
  (forall s, p (storage_Client s) = false) ->
  (forall c s, p (get_bucket c s) = false) ->
  runs_to E (__check_contents data_path project_id batch_count) h h' r ->
  count p h' = count p h.
Proof.
  intros Hs Hl Hc Hb Hrun.
  destruct (check_contents_total E data_path project_id batch_count h)
    as (h1 & r1 & pre & bucket & prefix & m & Hrun1 & Hh & _ & Hpre & _).
  destruct (runs_det _ _ _ _ _ _ _ Hrun Hrun1) as [-> _]. subst h1.
  rewrite !count_app, count_attempts by auto.
  destruct Hpre as [-> | (client & name & ->)]; cbn; rewrite ?Hc, ?Hb; cbn; lia.
Qed.

End ReadinessShape.

Lemma check_returns_counts E data_path project_id batch_count h h1 r :
  runs_to E (__check_contents data_path project_id batch_count)
          (h ++ [get_application_default]) h1 r ->
  count is_uuid4 h1 = count is_uuid4 h /\
  count is_jobs_insert h1 = count is_jobs_insert h /\
  count is_jobs_get h1 = count is_jobs_get h.
Proof.
  intros Hcheck.
  rewrite (check_contents_counts E is_uuid4 _ _ _ _ _ _
             ltac:(reflexivity) ltac:(reflexivity) ltac:(reflexivity)
             ltac:(reflexivity) Hcheck).
  rewrite (check_contents_counts E is_jobs_insert _ _ _ _ _ _
             ltac:(reflexivity) ltac:(reflexivity) ltac:(reflexivity)
             ltac:(reflexivity) Hcheck).
  rewrite (check_contents_counts E is_jobs_get _ _ _ _ _ _
             ltac:(reflexivity) ltac:(reflexivity) ltac:(reflexivity)
             ltac:(reflexivity) Hcheck).
  rewrite !count_app. cbn. lia.
Qed.

Lemma total_app l1 l2 : total (l1 ++ l2) = total l1 + total l2.
Proof.
  unfold total. induction l1 as [|x l1 IH]; cbn; [reflexivity|]. rewrite IH. lia.
Qed.

Lemma total_backoff_nonneg m : forall c,
  0 <= total (List.map (fun i => 1 + Z.of_nat i / 10) (seq c m)).
Proof.
  unfold total. induction m as [|m IH]; intros c; cbn [seq List.map fold_right]; [lia|].
  specialize (IH (S c)).
  assert (0 <= Z.of_nat c / 10) by (apply Z.div_pos; lia). lia.
Qed.

Lemma total_backoff_bound m :
  (m <= 41)%nat ->
  total (List.map (fun i => 1 + Z.of_nat i / 10) (seq 0 m)) <= 105.
Proof.
  intros Hm.
  assert (H41 : total (List.map (fun i => 1 + Z.of_nat i / 10) (seq 0 41)) = 105)
    by reflexivity.
  replace 41%nat with (m + (41 - m))%nat in H41 by lia.
  rewrite seq_app, map_app, total_app in H41.
  pose proof (total_backoff_nonneg (41 - m) (0 + m)). lia.
Qed.

(** X1. For a location [scheme/authority/bucket/d1/.../dn/file] whose parts
    hold no ['/'] (as in [gs://bucket/d1/.../dn/file], where the authority
    is empty), the readiness check opens the bucket named by the third part
    and lists under the prefix [d1/.../dn]: the directory of the file, not
    the file. *)
Theorem check_contents_location E h scheme authority bucket_name dirs file
    project_id batch_count client bucket :
  Forall (fun s => slashes s = 0%nat)
         (scheme :: authority :: bucket_name :: file :: dirs) ->
  setup E (storage_Client project_id) = inr client ->
  setup E (get_bucket client bucket_name) = inr bucket ->
  exists m r,
    runs_to E (__check_contents
                 (Py.join "/" (scheme :: authority :: bucket_name :: dirs ++ [file]))
                 project_id batch_count)
            h
            (h ++ [storage_Client project_id; get_bucket client bucket_name]
               ++ attempts bucket (Py.join "/" dirs) 0 m)
            r.
Proof.
  intros Hall Hc Hb.
  destruct (location_parts _ _ _ _ _ Hall) as [Hi Hp].
  destruct (check_loop_total E batch_count bucket (Py.join "/" dirs)
              (Py.join "/" (scheme :: authority :: bucket_name :: dirs ++ [file]))
              40 0 0 (h ++ [storage_Client project_id; get_bucket client bucket_name]))
    as (m & r & _ & Hrun & _); [lia|].
  exists m, r. rewrite app_assoc.
  eapply check_contents_enter; [exact Hc | exact Hi | exact Hb |].
  rewrite Hp. exact Hrun.
Qed.

(** The directory of a data file two levels down. *)
Lemma check_contents_location_witness :
  exists m r,
    runs_to (stub (fun _ => 1%nat) (fun _ => VNone))
            (__check_contents "gs://bucket/tcga/etl/part.json" "proj" (VInt 1))
            []
            ([] ++ [storage_Client "proj"; get_bucket VNone "bucket"]
                ++ attempts VNone "tcga/etl" 0 m)
            r.
Proof.
  refine (check_contents_location (stub (fun _ => 1%nat) (fun _ => VNone)) []
            "gs:" "" "bucket" ["tcga"; "etl"] "part.json" "proj" (VInt 1) VNone VNone
            _ _ _);
    [repeat constructor | reflexivity | reflexivity].
Defined.

(** X2. A location with fewer than two ['/'] has no third part: once the
    client is made the readiness check raises [IndexError], before it
    opens a bucket or lists anything. *)
Theorem check_contents_location_too_short E h data_path project_id batch_count client :
  (slashes data_path < 2)%nat ->
  setup E (storage_Client project_id) = inr client ->
  runs_to E (__check_contents data_path project_id batch_count) h
          (h ++ [storage_Client project_id]) (inl IndexError).
Proof.
  intros Hs Hc. unfold __check_contents.
  eapply runs_bind; [apply runs_ext_eq; exact Hc | cbn beta].
  eapply runs_bind_raise. apply runs_lift_eq. apply index_short. exact Hs.
Qed.

(** A location without its scheme. *)
Lemma check_contents_location_too_short_witness :
  runs_to (stub (fun _ => 3%nat) (fun _ => VNone))
          (__check_contents "bucket/part.json" "proj" (VInt 3)) []
          ([] ++ [storage_Client "proj"]) (inl IndexError).
Proof.
  apply (check_contents_location_too_short (stub (fun _ => 3%nat) (fun _ => VNone)) []
           "bucket/part.json" "proj" (VInt 3) VNone); [cbn; lia | reflexivity].
Defined.

(** X3. When the expected count equals 0 (the number 0, or [False]), the
    readiness check returns as soon as the bucket is open: no sleep and no
    listing, whatever the bucket holds. *)
Theorem check_contents_nothing_expected E h data_path project_id batch_count
    client name bucket :
  Py.ne_int batch_count 0 = false ->
  setup E (storage_Client project_id) = inr client ->
  Py.index (Py.split "/" data_path) 2 = inr name ->
  setup E (get_bucket client name) = inr bucket ->
  runs_to E (__check_contents data_path project_id batch_count) h
          (h ++ [storage_Client project_id; get_bucket client name]) (inr tt).
Proof.
  intros Hz Hc Hi Hb.
  eapply check_contents_enter; [exact Hc | exact Hi | exact Hb |].
  apply runs_loop_return, check_round_exit. exact Hz.
Qed.

(** Nothing expected in a bucket that lists seven objects. *)
Lemma check_contents_nothing_expected_witness :
  runs_to (stub (fun _ => 7%nat) (fun _ => VNone))
          (__check_contents "gs://bucket/etl/part.json" "proj" (VInt 0)) []
          ([] ++ [storage_Client "proj"; get_bucket VNone "bucket"]) (inr tt).
Proof.
  apply (check_contents_nothing_expected (stub (fun _ => 7%nat) (fun _ => VNone)) []
           "gs://bucket/etl/part.json" "proj" (VInt 0) VNone "bucket" VNone);
    reflexivity.
Defined.

(** X4. When the first [k] listings ([k] at most 40) show counts other than
    the expected one and the next listing raises, the readiness check
    raises that exception after these [k + 1] attempts: a failed listing is
    not tried again. *)
Theorem check_contents_listing_failure E h data_path project_id batch_count
    client name bucket k e :
  setup E (storage_Client project_id) = inr client ->
  Py.index (Py.split "/" data_path) 2 = inr name ->
  setup E (get_bucket client name) = inr bucket ->
  Py.ne_int batch_count 0 = true ->
  (k <= 40)%nat ->
  (forall i, (i < k)%nat ->
     exists v n, listings E (count is_list_blobs h + i) = inr v /\
                 Py.count_iter v = inr n /\ Py.ne_int batch_count n = true) ->
  listings E (count is_list_blobs h + k) = inl e ->
  runs_to E (__check_contents data_path project_id batch_count) h
          (h ++ [storage_Client project_id; get_bucket client name]
             ++ attempts bucket
                  (Py.join "/" (Py.slice_3_m1 (Py.split "/" data_path))) 0 (S k))
          (inl e).
Proof.
  intros Hc Hi Hb Hz Hk Hbefore Hfail.
  eapply check_contents_enter; [exact Hc | exact Hi | exact Hb |].
  assert (Hcount : count is_list_blobs
                     (h ++ [storage_Client project_id; get_bucket client name])
                   = count is_list_blobs h).
  { rewrite count_app. cbn. lia. }
  apply (check_loop_skip E batch_count bucket _ data_path k 0 0); [lia | exact Hz | |].
  { intros i Hi'. rewrite Hcount. auto. }
  intros cur' Hcur'. cbn [Nat.add].
  replace (S k) with (k + 1)%nat by lia.
  replace (attempts bucket (Py.join "/" (Py.slice_3_m1 (Py.split "/" data_path)))
                    0 (k + 1))
    with (attempts bucket (Py.join "/" (Py.slice_3_m1 (Py.split "/" data_path))) 0 k
            ++ [time_sleep (sleep_secs (Z.of_nat k));
                list_blobs bucket
                  (Py.join "/" (Py.slice_3_m1 (Py.split "/" data_path)))])
    by (unfold attempts; rewrite seq_app, flat_map_app; reflexivity).
  apply runs_loop_raise.
  eapply runs_to_eq;
    [apply check_round_attempt; exact Hcur' | now rewrite <- !app_assoc |].
  rewrite count_app, Hcount.
    replace (count is_list_blobs (attempts bucket _ 0 k)) with k.
  - rewrite Hfail. reflexivity.
  - clear. generalize 0%nat. induction k as [|k IH]; intros c; [reflexivity|].
    rewrite attempts_S, count_app, <- IH. reflexivity.
Qed.

(** Two listings of one object, then a failure of the service. *)
Lemma check_contents_listing_failure_witness :
  runs_to {| listings := fun i => if (i <? 2)%nat then inr (VList [VNone])
                                  else inl (Raised (VStr "503"));
             statuses := fun _ => inr VNone;
             insertions := fun _ => inr job_H;
             uuids := tally;
             setup := fun _ => inr VNone |}
          (__check_contents "gs://bucket/etl/part.json" "proj" (VInt 3)) []
          ([] ++ [storage_Client "proj"; get_bucket VNone "bucket"]
              ++ attempts VNone "etl" 0 3)
          (inl (Raised (VStr "503"))).
Proof.
  refine (check_contents_listing_failure _ [] "gs://bucket/etl/part.json" "proj" (VInt 3)
            VNone "bucket" VNone 2 (Raised (VStr "503")) _ _ _ _ _ _ _);
    [ reflexivity | reflexivity | reflexivity | reflexivity | lia
    | intros i Hi; exists (VList [VNone]), 1; cbn;
      destruct i as [|[|i]]; [auto | auto | lia]
    | reflexivity ].
Defined.

(** X5. With a text for the expected count (what the command line passes)
    and listings that can be counted, the readiness check makes all its 41
    attempts and then raises [TypeError], from the ['%d'] of its message:
    a text equals no count, even the text of that count. *)
Theorem check_contents_text_count E h data_path project_id s client name bucket :
  setup E (storage_Client project_id) = inr client ->
  Py.index (Py.split "/" data_path) 2 = inr name ->
  setup E (get_bucket client name) = inr bucket ->
  (forall i, (i <= 40)%nat ->
     exists v n, listings E (count is_list_blobs h + i) = inr v /\
                 Py.count_iter v = inr n) ->
  runs_to E (__check_contents data_path project_id (VStr s)) h
          (h ++ [storage_Client project_id; get_bucket client name]
             ++ attempts bucket
                  (Py.join "/" (Py.slice_3_m1 (Py.split "/" data_path))) 0 41)
          (inl TypeError).
Proof.
  intros Hc Hi Hb Hl.
  eapply check_contents_enter; [exact Hc | exact Hi | exact Hb |].
  assert (Hcount : count is_list_blobs
                     (h ++ [storage_Client project_id; get_bucket client name])
                   = count is_list_blobs h).
  { rewrite count_app. cbn. lia. }
  apply (check_loop_skip E (VStr s) bucket _ data_path 40 0 0);
    [lia | reflexivity | |].
  { intros i Hi'. rewrite Hcount.
    destruct (Hl i ltac:(lia)) as (v & n & Hv & Hn). exists v, n. auto. }
  intros cur' _. cbn [Nat.add].
  replace (attempts bucket (Py.join "/" (Py.slice_3_m1 (Py.split "/" data_path))) 0 41)
    with (attempts bucket (Py.join "/" (Py.slice_3_m1 (Py.split "/" data_path))) 0 40
            ++ [time_sleep (sleep_secs (Z.of_nat 40));
                list_blobs bucket
                  (Py.join "/" (Py.slice_3_m1 (Py.split "/" data_path)))])
    by reflexivity.
  apply runs_loop_raise.
  eapply runs_to_eq;
    [apply check_round_attempt; reflexivity | now rewrite <- !app_assoc |].
  rewrite count_app, Hcount, count_list_attempts.
  destruct (Hl 40%nat ltac:(lia)) as (v & n & Hv & Hn).
  rewrite Hv. unfold listed. rewrite Hn. reflexivity.
Qed.

(** The text "3" and three objects listed every time. *)
Lemma check_contents_text_count_witness :
  runs_to (stub (fun _ => 3%nat) (fun _ => VNone))
          (__check_contents "gs://bucket/etl/part.json" "proj" (VStr "3")) []
          ([] ++ [storage_Client "proj"; get_bucket VNone "bucket"]
              ++ attempts VNone "etl" 0 41)
          (inl TypeError).
Proof.
  refine (check_contents_text_count (stub (fun _ => 3%nat) (fun _ => VNone)) []
            "gs://bucket/etl/part.json" "proj" "3" VNone "bucket" VNone _ _ _ _);
    [ reflexivity | reflexivity | reflexivity
    | intros i _; exists (VList (repeat VNone 3)), 3; split; reflexivity ].
Defined.

(** X6. Every run of the readiness check ends, after at most 41 listings and
    at most 105 seconds of sleep in all. *)
Theorem check_contents_bounded E h data_path project_id batch_count :
  exists h' r,
    runs_to E (__check_contents data_path project_id batch_count) h h' r /\
    (count is_list_blobs h' <= count is_list_blobs h + 41)%nat /\
    total (sleeps h') <= total (sleeps h) + 105.
Proof.
  destruct (check_contents_total E data_path project_id batch_count h)
    as (h' & r & pre & bucket & prefix & m & Hrun & -> & Hm & Hpre & _).
  exists (h ++ pre ++ attempts bucket prefix 0 m), r. split; [exact Hrun|].
  assert (Hp : count is_list_blobs pre = 0%nat /\ total (sleeps pre) = 0)
    by (destruct Hpre as [-> | (client & name & ->)]; split; reflexivity).
  destruct Hp as [Hp1 Hp2].
  rewrite !count_app, count_list_attempts, !sleeps_app, !total_app, sleeps_attempts,
    Hp1, Hp2.
  pose proof (total_backoff_bound m Hm). lia.
Qed.

(* ===================================================================== *)
(** ** Further properties of the poller *)
(* ===================================================================== *)

Lemma poll_job_inv E bigquery job h h' r :
  runs_to E (poll_job bigquery job) h h' r ->
  match handle_of job with
  | inl e => h' = h ++ [print "Waiting for job to finish..."] /\ r = inl e
  | inr (projectId, jobId) =>
      runs_to E (loop (poll_round bigquery projectId jobId) tt)
              (h ++ [print "Waiting for job to finish..."]) h' r
  end.
Proof.
  unfold poll_job, handle_of. intros H.
  first_step H. cbn [answer] in H.
  first_step H.
  destruct (Py.getitem job "jobReference") as [e | jobReference]; [exact H|].
  first_step H.
  destruct (Py.getitem jobReference "projectId") as [e | projectId]; [exact H|].
  first_step H.
  destruct (Py.getitem jobReference "jobId") as [e | jobId]; [exact H|].
  exact H.
Qed.

Section PollerMore.

Variable E : env.
Variables bigquery projectId jobId : value.

(** The calls of one round of the poller, however it ends. *)
Lemma poll_round_calls h h1 x :
  runs_to E (poll_round bigquery projectId jobId tt) h h1 x ->
  exists tail,
    h1 = h ++ jobs_get_execute bigquery projectId jobId 2 :: tail /\
    (tail = [] \/ tail = [time_sleep 1] \/ exists s, tail = [print s]).
Proof.
  unfold poll_round. intros H.
  first_step H. cbn [answer] in H.
  destruct (statuses E (count is_jobs_get h)) as [e | result].
  { destruct H as [-> _]. exists []. auto. }
  first_step H.
  destruct (Py.getitem result "status") as [e | status].
  { destruct H as [-> _]. exists []. auto. }
  first_step H.
  destruct (Py.contains "errors" status) as [e | [|]].
  { destruct H as [-> _]. exists []. auto. }
  - first_step H. cbn [answer] in H.
    first_step H.
    assert (h1 = h ++ [jobs_get_execute bigquery projectId jobId 2;
                       print "Error loading table:"]) as ->.
    { destruct (Py.getitem status "errors"); [destruct H as [-> _]|
        apply runs_Ret_inv in H as [-> _]]; now rewrite <- app_assoc. }
    exists [print "Error loading table:"]. eauto.
  - first_step H.
    destruct (Py.getitem status "state") as [e | state].
    { destruct H as [-> _]. exists []. auto. }
    destruct (Py.eq_str state "DONE").
    + first_step H.
      destruct (Py.contains "errorResult" status) as [e | [|]].
      { destruct H as [-> _]. exists []. auto. }
      * first_step H.
        destruct (Py.getitem status "errorResult"); [destruct H as [-> _]; exists []; auto|].
        apply runs_Ret_inv in H as [-> _]. exists []. auto.
      * first_step H. cbn [answer] in H.
        apply runs_Ret_inv in H as [-> _].
        exists [print "Job complete."]. rewrite <- app_assoc. eauto.
    + first_step H. cbn [answer] in H.
      apply runs_Ret_inv in H as [-> _].
      exists [time_sleep 1]. rewrite <- app_assoc. eauto.
Qed.

Lemma poll_round_failure h e :
  statuses E (count is_jobs_get h) = inl e ->
  runs_to E (poll_round bigquery projectId jobId tt) h
          (h ++ [jobs_get_execute bigquery projectId jobId 2]) (inl e).
Proof.
  intros Hs. unfold poll_round.
  eapply runs_bind_raise. apply runs_ext_eq. exact Hs.
Qed.

Lemma poll_round_lookup_failure h response e :
  statuses E (count is_jobs_get h) = inr response ->
  match Py.getitem response "status" with
  | inl e' => e' = e
  | inr status =>
      match Py.contains "errors" status with
      | inl e' => e' = e
      | inr true => False
      | inr false => Py.getitem status "state" = inl e
      end
  end ->
  runs_to E (poll_round bigquery projectId jobId tt) h
          (h ++ [jobs_get_execute bigquery projectId jobId 2]) (inl e).
Proof.
  intros Hs Hbad. unfold poll_round.
  eapply runs_bind; [apply runs_ext_eq; exact Hs | cbn beta].
  destruct (Py.getitem response "status") as [e' | status].
  { subst e'. lift_raise I. }
  lift_then I.
  destruct (Py.contains "errors" status) as [e' | [|]]; [| contradiction |].
  { subst e'. lift_raise I. }
  lift_then I. cbv iota. lift_raise Hbad.
Qed.

Lemma poll_loop_calls h h' r :
  runs_to E (loop (poll_round bigquery projectId jobId) tt) h h' r ->
  exists calls, h' = h ++ calls /\ Forall (poll_call bigquery projectId jobId) calls.
Proof.
  intros Hrun.
  apply (runs_loop_invariant E (poll_round bigquery projectId jobId)
           (fun s => exists calls,
                s = h ++ calls /\ Forall (poll_call bigquery projectId jobId) calls)
           (fun _ => True) (fun _ => True)) in Hrun; [tauto | | | exact I].
  - intros s i s1 x (calls & -> & Hcalls) _ Hbody. destruct i.
    apply poll_round_calls in Hbody as (tail & -> & Htail).
    split; [| destruct x as [|[|]]; exact I].
    exists (calls ++ jobs_get_execute bigquery projectId jobId 2 :: tail).
    split; [now rewrite <- app_assoc|].
    apply Forall_app. split; [exact Hcalls|].
    constructor; [now left|].
    destruct Htail as [-> | [-> | (s & ->)]];
      [ constructor
      | constructor; [right; now left | constructor]
      | constructor; [right; right; eauto | constructor] ].
  - exists []. split; [now rewrite app_nil_r | constructor].
Qed.

Lemma poll_loop_never_ends h h' r :
  (forall i, exists response,
       statuses E i = inr response /\ in_progress response = true) ->
  ~ runs_to E (loop (poll_round bigquery projectId jobId) tt) h h' r.
Proof.
  intros Hall Hrun.
  apply (runs_loop_invariant E (poll_round bigquery projectId jobId)
           (fun _ => True) (fun _ => True) (fun _ => False)) in Hrun;
    [tauto | | exact I | exact I].
  intros s i s1 x _ _ Hbody. destruct i. split; [exact I|].
  destruct (Hall (count is_jobs_get s)) as (response & Hs & Hp).
  pose proof (poll_round_in_progress E bigquery projectId jobId s response Hs Hp) as Hgo.
  destruct (runs_det _ _ _ _ _ _ _ Hbody Hgo) as [_ ->]. exact I.
Qed.

Lemma poll_loop_returns k h response :
  (forall i, (i < k)%nat ->
     exists r, statuses E (count is_jobs_get h + i) = inr r /\ in_progress r = true) ->
  statuses E (count is_jobs_get h + k) = inr response ->
  done_success response = true ->
  runs_to E (loop (poll_round bigquery projectId jobId) tt) h
          (h ++ polls bigquery projectId jobId k
             ++ [jobs_get_execute bigquery projectId jobId 2; print "Job complete."])
          (inr tt).
Proof.
  intros Hk Hs Hdone.
  apply (poll_loop_skip E bigquery projectId jobId k); [exact Hk|].
  eapply runs_to_eq;
    [eapply runs_loop_return, poll_round_done_success; [| exact Hdone] | | reflexivity].
  - rewrite count_get_polls. exact Hs.
  - now rewrite <- !app_assoc.
Qed.

End PollerMore.

Lemma poll_calls_counts bigquery projectId jobId calls :
  Forall (poll_call bigquery projectId jobId) calls ->
  count is_list_blobs calls = 0%nat /\ count is_jobs_insert calls = 0%nat.
Proof.
  induction 1 as [|c calls Hc _ [IH1 IH2]]; [split; reflexivity|].
  change (c :: calls) with ([c] ++ calls). rewrite !count_app, IH1, IH2.
  destruct Hc as [-> | [-> | (s & ->)]]; split; reflexivity.
Qed.

(** X7. When the job is found in progress [k] times and then done without
    any error field, the poller returns after exactly [k + 1] retrievals,
    with a sleep of one second after each of the first [k]. *)
Theorem poll_job_completes E h bigquery job projectId jobId k response :
  handle_of job = inr (projectId, jobId) ->
  (forall i, (i < k)%nat ->
     exists r, statuses E (count is_jobs_get h + i) = inr r /\ in_progress r = true) ->
  statuses E (count is_jobs_get h + k) = inr response ->
  done_success response = true ->
  runs_to E (poll_job bigquery job) h
          (h ++ [print "Waiting for job to finish..."]
             ++ polls bigquery projectId jobId k
             ++ [jobs_get_execute bigquery projectId jobId 2; print "Job complete."])
          (inr tt).
Proof.
  intros Hjob Hk Hs Hdone.
  apply (poll_job_loop E bigquery projectId jobId job); [exact Hjob|].
  rewrite app_assoc.
  apply (poll_loop_returns E bigquery projectId jobId k _ response);
    [| rewrite count_get_print; exact Hs | exact Hdone].
  intros i Hi. rewrite count_get_print. auto.
Qed.

(** Four polls in progress, then done. *)
Lemma poll_job_completes_witness :
  runs_to (stub (fun _ => 0%nat)
             (fun i => if (i <? 4)%nat then response "RUNNING" [] else response "DONE" []))
          (poll_job VNone job_H) []
          ([print "Waiting for job to finish..."]
             ++ polls VNone (VStr "p") (VStr "H") 4
             ++ [jobs_get_execute VNone (VStr "p") (VStr "H") 2; print "Job complete."])
          (inr tt).
Proof.
  apply (poll_job_completes
           (stub (fun _ => 0%nat)
              (fun i => if (i <? 4)%nat then response "RUNNING" [] else response "DONE" []))
           [] VNone job_H (VStr "p") (VStr "H") 4 (response "DONE" []));
    [ reflexivity
    | intros i Hi; exists (response "RUNNING" []); split; [| reflexivity];
      cbn; destruct i as [|[|[|[|i]]]]; try reflexivity; lia
    | reflexivity | reflexivity ].
Defined.

(** X8. When the job resource lacks ['jobReference'], or its reference lacks
    ['projectId'] or ['jobId'], the poller raises the error of that lookup
    right after its announcement, without any status retrieval. *)
Theorem poll_job_bad_handle E h bigquery job e :
  handle_of job = inl e ->
  runs_to E (poll_job bigquery job) h
          (h ++ [print "Waiting for job to finish..."]) (inl e).
Proof.
  unfold handle_of, poll_job. intros Hjob.
  eapply runs_bind; [apply runs_ext_eq; reflexivity | cbn beta].
  destruct (Py.getitem job "jobReference") as [e' | jobReference].
  { inversion Hjob; subst. lift_raise I. }
  lift_then I.
  destruct (Py.getitem jobReference "projectId") as [e' | p].
  { inversion Hjob; subst. lift_raise I. }
  lift_then I.
  destruct (Py.getitem jobReference "jobId") as [e' | j]; [| discriminate].
  inversion Hjob; subst. lift_raise I.
Qed.

(** The request body of [load_table] is no job resource: its identifier
    is under ['job_id']. *)
Lemma poll_job_bad_handle_witness :
  runs_to (stub (fun _ => 0%nat) (fun _ => response "DONE" []))
          (poll_job VNone
             (job_data "p" "d" "t" (VList []) "gs://bucket/etl/part.json" "CSV"
                       (VStr "WRITE_EMPTY") (VStr "")))
          [] [print "Waiting for job to finish..."] (inl (KeyError "jobId")).
Proof.
  apply (poll_job_bad_handle (stub (fun _ => 0%nat) (fun _ => response "DONE" [])) []
           VNone
           (job_data "p" "d" "t" (VList []) "gs://bucket/etl/part.json" "CSV"
                     (VStr "WRITE_EMPTY") (VStr ""))
           (KeyError "jobId")).
  reflexivity.
Defined.

(** X9. When a status retrieval raises, after [k] that found the job in
    progress, the poller raises the same exception at once: it does not
    retry. *)
Theorem poll_job_retrieval_failure E h bigquery job projectId jobId k e :
  handle_of job = inr (projectId, jobId) ->
  (forall i, (i < k)%nat ->
     exists r, statuses E (count is_jobs_get h + i) = inr r /\ in_progress r = true) ->
  statuses E (count is_jobs_get h + k) = inl e ->
  runs_to E (poll_job bigquery job) h
          (h ++ [print "Waiting for job to finish..."]
             ++ polls bigquery projectId jobId k
             ++ [jobs_get_execute bigquery projectId jobId 2])
          (inl e).
Proof.
  intros Hjob Hk Hs.
  apply (poll_job_loop E bigquery projectId jobId job); [exact Hjob|].
  apply (poll_loop_skip E bigquery projectId jobId k).
  { intros i Hi. rewrite count_get_print. auto. }
  eapply runs_to_eq;
    [eapply runs_loop_raise, poll_round_failure | | reflexivity].
  - rewrite count_get_polls, count_get_print. exact Hs.
  - now rewrite <- !app_assoc.
Qed.

(** One poll in progress, then a failure of the service. *)
Lemma poll_job_retrieval_failure_witness :
  runs_to (scripted (fun _ => inr VNone)
             (fun i => if (i <? 1)%nat then inr (response "RUNNING" [])
                       else inl (Raised (VStr "HttpError 500")))
             (fun _ => inr job_H) (fun _ => inr VNone))
          (poll_job VNone job_H) []
          ([] ++ [print "Waiting for job to finish..."]
              ++ polls VNone (VStr "p") (VStr "H") 1
              ++ [jobs_get_execute VNone (VStr "p") (VStr "H") 2])
          (inl (Raised (VStr "HttpError 500"))).
Proof.
  refine (poll_job_retrieval_failure _ [] VNone job_H (VStr "p") (VStr "H") 1
            (Raised (VStr "HttpError 500")) _ _ _);
    [ reflexivity
    | intros [|i] Hi; [| lia]; exists (response "RUNNING" []); split; reflexivity
    | reflexivity ].
Defined.

(** X10. When a status has an ['errors'] field, after [k] polls that found
    the job in progress, the poller prints its error line and raises a
    [RuntimeError] with the JSON text of the field, whatever the state. *)
Theorem poll_job_errors_at_any_poll E h bigquery job projectId jobId k response status errors :
  handle_of job = inr (projectId, jobId) ->
  (forall i, (i < k)%nat ->
     exists r, statuses E (count is_jobs_get h + i) = inr r /\ in_progress r = true) ->
  statuses E (count is_jobs_get h + k) = inr response ->
  Py.getitem response "status" = inr status ->
  Py.getitem status "errors" = inr errors ->
  runs_to E (poll_job bigquery job) h
          (h ++ [print "Waiting for job to finish..."]
             ++ polls bigquery projectId jobId k
             ++ [jobs_get_execute bigquery projectId jobId 2;
                 print "Error loading table:"])
          (inl (RuntimeError (JsonText errors))).
Proof.
  intros Hjob Hk Hs Hst Herr.
  apply (poll_job_loop E bigquery projectId jobId job); [exact Hjob|].
  apply (poll_loop_skip E bigquery projectId jobId k).
  { intros i Hi. rewrite count_get_print. auto. }
  eapply runs_to_eq;
    [eapply runs_loop_raise, poll_round_errors;
       [| exact Hst | exact (contains_getitem _ _ _ Herr)] | |].
  - rewrite count_get_polls, count_get_print. exact Hs.
  - now rewrite <- !app_assoc.
  - now rewrite Herr.
Qed.

(** An error reported on the third poll of a running job. *)
Lemma poll_job_errors_at_any_poll_witness :
  runs_to (stub (fun _ => 0%nat)
             (fun i => if (i <? 2)%nat then response "RUNNING" []
                       else response "RUNNING" [("errors", VList [VStr "bad row"])]))
          (poll_job VNone job_H) []
          ([] ++ [print "Waiting for job to finish..."]
              ++ polls VNone (VStr "p") (VStr "H") 2
              ++ [jobs_get_execute VNone (VStr "p") (VStr "H") 2;
                  print "Error loading table:"])
          (inl (RuntimeError (JsonText (VList [VStr "bad row"])))).
Proof.
  refine (poll_job_errors_at_any_poll _ [] VNone job_H (VStr "p") (VStr "H") 2
            (response "RUNNING" [("errors", VList [VStr "bad row"])])
            (VDict [("state", VStr "RUNNING"); ("errors", VList [VStr "bad row"])])
            (VList [VStr "bad row"]) _ _ _ _ _);
    [ reflexivity
    | intros i Hi; exists (response "RUNNING" []); split; [| reflexivity];
      destruct i as [|[|i]]; [reflexivity | reflexivity | lia]
    | reflexivity | reflexivity | reflexivity ].
Defined.

(** X11. A response without ['status'], or whose status cannot be searched
    for ['errors'], or has neither ['errors'] nor ['state'], makes the
    poller raise the error of that lookup right after the retrieval. *)
Theorem poll_job_malformed_response E h bigquery job projectId jobId k response e :
  handle_of job = inr (projectId, jobId) ->
  (forall i, (i < k)%nat ->
     exists r, statuses E (count is_jobs_get h + i) = inr r /\ in_progress r = true) ->
  statuses E (count is_jobs_get h + k) = inr response ->
  (Py.getitem response "status" = inl e \/
   exists status,
     Py.getitem response "status" = inr status /\
     (Py.contains "errors" status = inl e \/
      Py.contains "errors" status = inr false /\ Py.getitem status "state" = inl e)) ->
  runs_to E (poll_job bigquery job) h
          (h ++ [print "Waiting for job to finish..."]
             ++ polls bigquery projectId jobId k
             ++ [jobs_get_execute bigquery projectId jobId 2])
          (inl e).
Proof.
  intros Hjob Hk Hs Hbad.
  apply (poll_job_loop E bigquery projectId jobId job); [exact Hjob|].
  apply (poll_loop_skip E bigquery projectId jobId k).
  { intros i Hi. rewrite count_get_print. auto. }
  eapply runs_to_eq;
    [eapply runs_loop_raise, poll_round_lookup_failure | | reflexivity].
  - rewrite count_get_polls, count_get_print. exact Hs.
  - destruct Hbad as [-> | (status & -> & [-> | [-> Hstate]])];
      [reflexivity | reflexivity | exact Hstate].
  - now rewrite <- !app_assoc.
Qed.

(** A status without a state. *)
Lemma poll_job_malformed_response_witness :
  runs_to (stub (fun _ => 0%nat) (fun _ => VDict [("status", VDict [])]))
          (poll_job VNone job_H) []
          ([] ++ [print "Waiting for job to finish..."]
              ++ polls VNone (VStr "p") (VStr "H") 0
              ++ [jobs_get_execute VNone (VStr "p") (VStr "H") 2])
          (inl (KeyError "state")).
Proof.
  refine (poll_job_malformed_response _ [] VNone job_H (VStr "p") (VStr "H") 0
            (VDict [("status", VDict [])]) (KeyError "state") _ _ _ _);
    [ reflexivity | intros i Hi; lia | reflexivity
    | right; exists (VDict []); split; [reflexivity | right; split; reflexivity] ].
Defined.

(** X12. While every status retrieval finds the job in progress the poller
    does not end: it has no bound on its polls. *)
Theorem poll_job_never_gives_up E bigquery job projectId jobId :
  handle_of job = inr (projectId, jobId) ->
  (forall i, exists response,
       statuses E i = inr response /\ in_progress response = true) ->
  forall h h' r, ~ runs_to E (poll_job bigquery job) h h' r.
Proof.
  intros Hjob Hall h h' r Hrun.
  apply poll_job_inv in Hrun. rewrite Hjob in Hrun.
  exact (poll_loop_never_ends E bigquery projectId jobId _ _ _ Hall Hrun).
Qed.

(** A job that runs for ever. *)
Lemma poll_job_never_gives_up_witness :
  ~ (exists h' r,
        runs_to (stub (fun _ => 0%nat) (fun _ => response "RUNNING" []))
                (poll_job VNone job_H) [] h' r).
Proof.
  intros (h' & r & Hrun).
  apply (poll_job_never_gives_up
           (stub (fun _ => 0%nat) (fun _ => response "RUNNING" []))
           VNone job_H (VStr "p") (VStr "H")
           eq_refl
           (fun i => ex_intro _ (response "RUNNING" []) (conj eq_refl eq_refl))
           [] h' r Hrun).
Defined.

(** X13. In every run of the poller that ends, the calls after the
    announcement are status retrievals of the one job named by the
    resource, each with [num_retries=2], sleeps of one second, and lines
    of output: nothing is submitted and nothing is listed. *)
Theorem poll_job_only_polls E h h' r bigquery job projectId jobId :
  handle_of job = inr (projectId, jobId) ->
  runs_to E (poll_job bigquery job) h h' r ->
  exists calls,
    h' = h ++ print "Waiting for job to finish..." :: calls /\
    Forall (poll_call bigquery projectId jobId) calls.
Proof.
  intros Hjob Hrun.
  apply poll_job_inv in Hrun. rewrite Hjob in Hrun.
  apply poll_loop_calls in Hrun as (calls & -> & Hcalls).
  exists calls. split; [now rewrite <- app_assoc | exact Hcalls].
Qed.

(** One poll in progress, then done. *)
Lemma poll_job_only_polls_witness :
  exists calls,
    [print "Waiting for job to finish...";
     jobs_get_execute VNone (VStr "p") (VStr "H") 2; time_sleep 1;
     jobs_get_execute VNone (VStr "p") (VStr "H") 2; print "Job complete."]
    = [] ++ print "Waiting for job to finish..." :: calls /\
    Forall (poll_call VNone (VStr "p") (VStr "H")) calls.
Proof.
  refine (poll_job_only_polls
            (stub (fun _ => 0%nat)
               (fun i => if (i <? 1)%nat then response "RUNNING" [] else response "DONE" []))
            [] _ (inr tt) VNone job_H (VStr "p") (VStr "H") _ _);
    [ reflexivity | apply (runs_burn _ 50); vm_compute; reflexivity ].
Defined.

(* ===================================================================== *)
(** ** Further properties of [run] and of the command line *)
(* ===================================================================== *)

Section RunShape.

Variable E : env.

Lemma run_after_check h h1 h' r credentials
    project_id batch_count dataset_id table_name schema_file data_path
    source_format write_disposition num_retries poll_interval :
  setup E get_application_default = inr credentials ->
  runs_to E (__check_contents data_path project_id batch_count)
          (h ++ [get_application_default]) h1 (inr tt) ->
  runs_to E
    (bigquery <- ext (discovery_build "bigquery" "v2" credentials) ;;
     schema <- ext (json_load_file schema_file) ;;
     job <- load_table bigquery project_id dataset_id table_name schema data_path
                       source_format num_retries write_disposition ;;
     poll_job bigquery job) h1 h' r ->
  runs_to E (run project_id batch_count dataset_id table_name schema_file data_path
                 source_format write_disposition num_retries poll_interval) h h' r.
Proof.
  intros Hcred Hcheck Hrest. unfold run.
  eapply runs_bind; [apply runs_ext_eq; exact Hcred | cbn beta].
  eapply runs_bind; [exact Hcheck | cbn beta]. exact Hrest.
Qed.

End RunShape.

Ltac order_done :=
  split; [cbn [app]; rewrite ?app_nil_r, <- ?app_assoc; reflexivity|];
  repeat (split; [first [assumption | reflexivity | cbn; lia]|]);
  first [assumption | reflexivity | cbn; lia].

(** X14. When the credentials are found, the readiness check returns, the
    service is built, the schema is read, the submission answers with a job
    resource and the job is found in progress [k] times and then done, [run]
    returns: after the check it builds the service, reads the schema, draws
    one UUID, submits one body made of its arguments and that UUID, and
    polls the job that the answer names [k + 1] times. *)
Theorem run_success E h h1 credentials bigquery schema job projectId jobId k response
    project_id batch_count dataset_id table_name schema_file data_path
    source_format write_disposition num_retries poll_interval :
  setup E get_application_default = inr credentials ->
  runs_to E (__check_contents data_path project_id batch_count)
          (h ++ [get_application_default]) h1 (inr tt) ->
  setup E (discovery_build "bigquery" "v2" credentials) = inr bigquery ->
  setup E (json_load_file schema_file) = inr schema ->
  insertions E (count is_jobs_insert h) = inr job ->
  handle_of job = inr (projectId, jobId) ->
  (forall i, (i < k)%nat ->
     exists r, statuses E (count is_jobs_get h + i) = inr r /\ in_progress r = true) ->
  statuses E (count is_jobs_get h + k) = inr response ->
  done_success response = true ->
  runs_to E (run project_id batch_count dataset_id table_name schema_file data_path
                 source_format write_disposition num_retries poll_interval)
          h
          (h1 ++ [discovery_build "bigquery" "v2" credentials;
                  json_load_file schema_file;
                  uuid4;
                  jobs_insert bigquery project_id
                    (job_data project_id dataset_id table_name schema data_path
                              source_format write_disposition
                              (VStr (uuids E (count is_uuid4 h))))
                    num_retries]
              ++ [print "Waiting for job to finish..."]
              ++ polls bigquery projectId jobId k
              ++ [jobs_get_execute bigquery projectId jobId 2; print "Job complete."])
          (inr tt).
Proof.
  intros Hcred Hcheck Hbuild Hschema Hinsert Hjob Hk Hs Hdone.
  destruct (check_returns_counts _ _ _ _ _ _ _ Hcheck) as (Hu & Hi & Hg).
  eapply run_after_check; [exact Hcred | exact Hcheck |].
  eapply runs_bind; [apply runs_ext_eq; exact Hbuild | cbn beta].
  eapply runs_bind; [apply runs_ext_eq; exact Hschema | cbn beta].
  eapply runs_bind.
  - eapply runs_to_eq; [apply load_table_runs | reflexivity |].
    rewrite !count_app, Hi. cbn. rewrite !Nat.add_0_r. exact Hinsert.
  - cbn beta.
    assert (Hcount : forall l,
               count is_jobs_get
                 (((h1 ++ [discovery_build "bigquery" "v2" credentials])
                     ++ [json_load_file schema_file]) ++ [uuid4; l])
               = (count is_jobs_get h + count is_jobs_get [l])%nat).
    { intros l. rewrite !count_app, Hg. cbn. lia. }
    apply (poll_job_loop E bigquery projectId jobId job); [exact Hjob|].
    assert (Hcount' : forall l,
               count is_jobs_get
                 ((((h1 ++ [discovery_build "bigquery" "v2" credentials])
                      ++ [json_load_file schema_file]) ++ [uuid4; l])
                    ++ [print "Waiting for job to finish..."])
               = (count is_jobs_get h + count is_jobs_get [l])%nat).
    { intros l. rewrite count_get_print. apply Hcount. }
    eapply runs_to_eq;
      [eapply (poll_loop_returns E bigquery projectId jobId k _ response);
         [| | exact Hdone] | | reflexivity].
    + intros i Hi'. rewrite Hcount'. cbn. rewrite !Nat.add_0_r. auto.
    + rewrite Hcount'. cbn. rewrite !Nat.add_0_r. exact Hs.
    + rewrite <- !app_assoc. cbn [app]. rewrite !count_app, Hu. cbn.
      rewrite !Nat.add_0_r. reflexivity.
Qed.

(** One object expected and listed, a job done on the third poll. *)
Lemma run_success_witness :
  runs_to (stub (fun _ => 1%nat)
             (fun i => if (i <? 2)%nat then response "RUNNING" [] else response "DONE" []))
          (run "proj" (VInt 1) "d" "t" "schema.json" "gs://bucket/etl/part.json"
               "CSV" (VStr "WRITE_EMPTY") 5 1)
          []
          (ready_calls
             ++ [discovery_build "bigquery" "v2" VNone;
                 json_load_file "schema.json";
                 uuid4;
                 jobs_insert VNone "proj"
                   (job_data "proj" "d" "t" VNone "gs://bucket/etl/part.json"
                             "CSV" (VStr "WRITE_EMPTY") (VStr "")) 5]
             ++ [print "Waiting for job to finish..."]
             ++ polls VNone (VStr "p") (VStr "H") 2
             ++ [jobs_get_execute VNone (VStr "p") (VStr "H") 2; print "Job complete."])
          (inr tt).
Proof.
  refine (run_success _ [] ready_calls VNone VNone VNone job_H (VStr "p") (VStr "H") 2
            (response "DONE" [])
            "proj" (VInt 1) "d" "t" "schema.json" "gs://bucket/etl/part.json"
            "CSV" (VStr "WRITE_EMPTY") 5 1 _ _ _ _ _ _ _ _ _);
    [ reflexivity | apply (runs_burn _ 50); vm_compute; reflexivity
    | reflexivity | reflexivity | reflexivity | reflexivity
    | intros i Hi; exists (response "RUNNING" []); split; [| reflexivity];
      destruct i as [|[|i]]; [reflexivity | reflexivity | lia]
    | reflexivity | reflexivity ].
Defined.

(** X15. When the schema file cannot be read, [run] raises that error after
    the readiness check and the building of the service: no UUID is drawn
    and nothing is submitted. *)
Theorem run_schema_failure E h h1 e credentials bigquery
    project_id batch_count dataset_id table_name schema_file data_path
    source_format write_disposition num_retries poll_interval :
  setup E get_application_default = inr credentials ->
  runs_to E (__check_contents data_path project_id batch_count)
          (h ++ [get_application_default]) h1 (inr tt) ->
  setup E (discovery_build "bigquery" "v2" credentials) = inr bigquery ->
  setup E (json_load_file schema_file) = inl e ->
  exists h',
    runs_to E (run project_id batch_count dataset_id table_name schema_file data_path
                   source_format write_disposition num_retries poll_interval)
            h h' (inl e) /\
    h' = h1 ++ [discovery_build "bigquery" "v2" credentials;
                json_load_file schema_file] /\
    count is_uuid4 h' = count is_uuid4 h /\
    count is_jobs_insert h' = count is_jobs_insert h.
Proof.
  intros Hcred Hcheck Hbuild Hschema. eexists. split; [| split; [reflexivity|]].
  - eapply run_after_check; [exact Hcred | exact Hcheck |].
    eapply runs_bind; [apply runs_ext_eq; exact Hbuild | cbn beta].
    eapply runs_bind_raise.
    eapply runs_to_eq; [apply runs_ext_eq; exact Hschema | now rewrite <- app_assoc
                       | reflexivity].
  - destruct (check_returns_counts _ _ _ _ _ _ _ Hcheck) as (Hu & Hi & _).
    rewrite !count_app, Hu, Hi. cbn. lia.
Qed.

(** A schema file that does not open. *)
Lemma run_schema_failure_witness :
  exists h',
    runs_to (scripted (fun _ => inr (VList [VNone])) (fun _ => inr (response "DONE" []))
               (fun _ => inr job_H)
               (fun c => match c with
                         | json_load_file _ => inl (Raised (VStr "IOError"))
                         | _ => inr VNone
                         end))
            (run "proj" (VInt 1) "d" "t" "schema.json" "gs://bucket/etl/part.json"
                 "CSV" (VStr "WRITE_EMPTY") 5 1)
            [] h' (inl (Raised (VStr "IOError"))) /\
    h' = ready_calls ++ [discovery_build "bigquery" "v2" VNone;
                         json_load_file "schema.json"] /\
    count is_uuid4 h' = count is_uuid4 [] /\
    count is_jobs_insert h' = count is_jobs_insert [].
Proof.
  refine (run_schema_failure _ [] ready_calls (Raised (VStr "IOError")) VNone VNone
            "proj" (VInt 1) "d" "t" "schema.json" "gs://bucket/etl/part.json"
            "CSV" (VStr "WRITE_EMPTY") 5 1 _ _ _ _);
    [ reflexivity | apply (runs_burn _ 50); vm_compute; reflexivity
    | reflexivity | reflexivity ].
Defined.

(** X16. When the submission raises, [run] raises the same exception right
    after that one call: it does not submit again and retrieves no
    status. *)
Theorem run_submission_failure E h h1 e credentials bigquery schema
    project_id batch_count dataset_id table_name schema_file data_path
    source_format write_disposition num_retries poll_interval :
  setup E get_application_default = inr credentials ->
  runs_to E (__check_contents data_path project_id batch_count)
          (h ++ [get_application_default]) h1 (inr tt) ->
  setup E (discovery_build "bigquery" "v2" credentials) = inr bigquery ->
  setup E (json_load_file schema_file) = inr schema ->
  insertions E (count is_jobs_insert h) = inl e ->
  exists h',
    runs_to E (run project_id batch_count dataset_id table_name schema_file data_path
                   source_format write_disposition num_retries poll_interval)
            h h' (inl e) /\
    h' = h1 ++ [discovery_build "bigquery" "v2" credentials;
                json_load_file schema_file;
                uuid4;
                jobs_insert bigquery project_id
                  (job_data project_id dataset_id table_name schema data_path
                            source_format write_disposition
                            (VStr (uuids E (count is_uuid4 h))))
                  num_retries] /\
    count is_jobs_get h' = count is_jobs_get h.
Proof.
  intros Hcred Hcheck Hbuild Hschema Hinsert.
  destruct (check_returns_counts _ _ _ _ _ _ _ Hcheck) as (Hu & Hi & Hg).
  eexists. split; [| split; [reflexivity|]].
  - eapply run_after_check; [exact Hcred | exact Hcheck |].
    eapply runs_bind; [apply runs_ext_eq; exact Hbuild | cbn beta].
    eapply runs_bind; [apply runs_ext_eq; exact Hschema | cbn beta].
    eapply runs_bind_raise.
    eapply runs_to_eq; [apply load_table_runs | |].
    + rewrite <- !app_assoc. cbn [app]. rewrite !count_app, Hu. cbn.
      rewrite !Nat.add_0_r. reflexivity.
    + rewrite !count_app, Hi. cbn. rewrite !Nat.add_0_r. exact Hinsert.
  - rewrite !count_app, Hg. cbn. lia.
Qed.

(** A submission that the service refuses. *)
Lemma run_submission_failure_witness :
  exists h',
    runs_to (scripted (fun _ => inr (VList [VNone])) (fun _ => inr (response "DONE" []))
               (fun _ => inl (Raised (VStr "HttpError 403")))
               (fun _ => inr VNone))
            (run "proj" (VInt 1) "d" "t" "schema.json" "gs://bucket/etl/part.json"
                 "CSV" (VStr "WRITE_EMPTY") 5 1)
            [] h' (inl (Raised (VStr "HttpError 403"))) /\
    h' = ready_calls ++ [discovery_build "bigquery" "v2" VNone;
                         json_load_file "schema.json";
                         uuid4;
                         jobs_insert VNone "proj"
                           (job_data "proj" "d" "t" VNone "gs://bucket/etl/part.json"
                                     "CSV" (VStr "WRITE_EMPTY") (VStr "")) 5] /\
    count is_jobs_get h' = count is_jobs_get [].
Proof.
  refine (run_submission_failure _ [] ready_calls (Raised (VStr "HttpError 403"))
            VNone VNone VNone
            "proj" (VInt 1) "d" "t" "schema.json" "gs://bucket/etl/part.json"
            "CSV" (VStr "WRITE_EMPTY") 5 1 _ _ _ _ _);
    [ reflexivity | apply (runs_burn _ 50); vm_compute; reflexivity
    | reflexivity | reflexivity | reflexivity ].
Defined.

(** X17. The calls of every run of [run] that ends fall in three parts in
    this order: a first part without submission and without status
    retrieval, a second part without listing and without status retrieval
    that submits at most once, and a last part without listing and without
    submission. *)
Theorem run_order E h h' r
    project_id batch_count dataset_id table_name schema_file data_path
    source_format write_disposition num_retries poll_interval :
  runs_to E (run project_id batch_count dataset_id table_name schema_file data_path
                 source_format write_disposition num_retries poll_interval) h h' r ->
  exists ready submit poll,
    h' = h ++ ready ++ submit ++ poll /\
    count is_jobs_insert ready = 0%nat /\
    count is_jobs_get ready = 0%nat /\
    count is_list_blobs submit = 0%nat /\
    (count is_jobs_insert submit <= 1)%nat /\
    count is_jobs_get submit = 0%nat /\
    count is_list_blobs poll = 0%nat /\
    count is_jobs_insert poll = 0%nat.
Proof.
  unfold run. intros H.
  first_step H. cbn [answer] in H.
  destruct (setup E get_application_default) as [e | credentials].
  { destruct H as [-> _]. exists [get_application_default], [], [].
    order_done. }
  apply runs_bind_inv in H as (h1 & x & Hcheck & H).
  destruct (check_contents_total E data_path project_id batch_count
              (h ++ [get_application_default]))
    as (h1' & r1 & pre & bucket & prefix & m & Hrun1 & Hh & _ & Hpre & _).
  destruct (runs_det _ _ _ _ _ _ _ Hcheck Hrun1) as [-> _]. subst h1'.
  assert (Hready : count is_jobs_insert
                     ([get_application_default] ++ pre ++ attempts bucket prefix 0 m)
                   = 0%nat /\
                   count is_jobs_get
                     ([get_application_default] ++ pre ++ attempts bucket prefix 0 m)
                   = 0%nat).
  { rewrite !count_app, !count_attempts by reflexivity.
    destruct Hpre as [-> | (client & name & ->)]; split; reflexivity. }
  destruct Hready as [Hr1 Hr2].
  set (ready := [get_application_default] ++ pre ++ attempts bucket prefix 0 m) in *.
  assert (Hh1 : (h ++ [get_application_default]) ++ pre ++ attempts bucket prefix 0 m
                = h ++ ready) by (unfold ready; now rewrite <- !app_assoc).
  rewrite Hh1 in *. clear Hh1 Hcheck Hrun1.
  destruct x as [e | []].
  { destruct H as [-> _]. exists ready, [], [].
    order_done. }
  first_step H.
  destruct (answer E (h ++ ready) (discovery_build "bigquery" "v2" credentials))
    as [e | bigquery].
  { destruct H as [-> _].
    exists ready, [discovery_build "bigquery" "v2" credentials], [].
    order_done. }
  first_step H.
  destruct (answer E ((h ++ ready) ++ [discovery_build "bigquery" "v2" credentials])
              (json_load_file schema_file)) as [e | schema].
  { destruct H as [-> _].
    exists ready, [discovery_build "bigquery" "v2" credentials;
                   json_load_file schema_file], [].
    order_done. }
  apply runs_bind_inv in H as (h2 & x & Hload & H).
  destruct (runs_det _ _ _ _ _ _ _ Hload (load_table_runs _ _ _ _ _ _ _ _ _ _ _))
    as [-> ->].
  match goal with
  | H : match ?a with inl _ => _ | inr _ => _ end |- _ => destruct a as [e | job]
  end.
  { destruct H as [-> _].
    eexists ready, [discovery_build "bigquery" "v2" credentials;
                    json_load_file schema_file; uuid4; jobs_insert _ _ _ _], [].
    order_done. }
  apply poll_job_inv in H.
  destruct (handle_of job) as [e | [projectId jobId]].
  { destruct H as [-> _].
    eexists ready, [discovery_build "bigquery" "v2" credentials;
                    json_load_file schema_file; uuid4; jobs_insert _ _ _ _],
      [print "Waiting for job to finish..."].
    order_done. }
  apply poll_loop_calls in H as (calls & -> & Hcalls).
  destruct (poll_calls_counts _ _ _ _ Hcalls) as [Hc1 Hc2].
  eexists ready, [discovery_build "bigquery" "v2" credentials;
                  json_load_file schema_file; uuid4; jobs_insert _ _ _ _],
    (print "Waiting for job to finish..." :: calls).
  assert (count is_list_blobs (print "Waiting for job to finish..." :: calls) = 0%nat)
    by (change (print "Waiting for job to finish..." :: calls)
          with ([print "Waiting for job to finish..."] ++ calls);
        rewrite count_app, Hc1; reflexivity).
  assert (count is_jobs_insert (print "Waiting for job to finish..." :: calls) = 0%nat)
    by (change (print "Waiting for job to finish..." :: calls)
          with ([print "Waiting for job to finish..."] ++ calls);
        rewrite count_app, Hc2; reflexivity).
  order_done.
Qed.

(** A load that succeeds on the first listing and the first poll. *)
Lemma run_order_witness :
  exists ready submit poll,
    ready_calls
      ++ [discovery_build "bigquery" "v2" VNone;
          json_load_file "schema.json";
          uuid4;
          jobs_insert VNone "proj"
            (job_data "proj" "d" "t" VNone "gs://bucket/etl/part.json"
                      "CSV" (VStr "WRITE_EMPTY") (VStr "")) 5;
          print "Waiting for job to finish...";
          jobs_get_execute VNone (VStr "p") (VStr "H") 2; print "Job complete."]
    = [] ++ ready ++ submit ++ poll /\
    count is_jobs_insert ready = 0%nat /\
    count is_jobs_get ready = 0%nat /\
    count is_list_blobs submit = 0%nat /\
    (count is_jobs_insert submit <= 1)%nat /\
    count is_jobs_get submit = 0%nat /\
    count is_list_blobs poll = 0%nat /\
    count is_jobs_insert poll = 0%nat.
Proof.
  refine (run_order (stub (fun _ => 1%nat) (fun _ => response "DONE" [])) [] _ (inr tt)
            "proj" (VInt 1) "d" "t" "schema.json" "gs://bucket/etl/part.json"
            "CSV" (VStr "WRITE_EMPTY") 5 1 _).
  apply (runs_burn _ 50). vm_compute. reflexivity.
Defined.

(** X18. Whatever the command line and the collaborators, the [__main__]
    block ends in an exception and neither submits a job nor retrieves a
    status: its nine arguments are bound to the first nine of the ten
    parameters of [run], so the dataset name stands for the expected
    count. *)
Theorem main_never_submits E h args :
  exists h' e,
    runs_to E (main args) h h' (inl e) /\
    count is_jobs_insert h' = count is_jobs_insert h /\
    count is_jobs_get h' = count is_jobs_get h.
Proof.
  unfold main, run.
  destruct (setup E get_application_default) as [e | credentials] eqn:Hcred.
  - exists (h ++ [get_application_default]), e. split.
    + eapply runs_bind_raise. apply runs_ext_eq. exact Hcred.
    + rewrite !count_app. cbn. lia.
  - destruct (check_contents_str_raises E (source_format args) (project_id args)
                (dataset_id args) (h ++ [get_application_default]))
      as (h' & e & Hcheck).
    exists h', e. split.
    + eapply runs_bind; [apply runs_ext_eq; exact Hcred | cbn beta].
      eapply runs_bind_raise. exact Hcheck.
    + destruct (check_returns_counts _ _ _ _ _ _ _ Hcheck) as (_ & Hi & Hg). auto.
Qed.

(** X19. When the [--source_format] of the command line has fewer than two
    ['/'] (as both formats have), the [__main__] block raises [IndexError]
    once the credentials are found and the storage client is made: the
    format stands where [run] expects the location. *)
Theorem main_format_as_location E h args credentials client :
  (slashes (source_format args) < 2)%nat ->
  setup E get_application_default = inr credentials ->
  setup E (storage_Client (project_id args)) = inr client ->
  runs_to E (main args) h
          (h ++ [get_application_default; storage_Client (project_id args)])
          (inl IndexError).
Proof.
  intros Hs Hcred Hclient. unfold main, run.
  eapply runs_bind; [apply runs_ext_eq; exact Hcred | cbn beta].
  eapply runs_bind_raise. unfold __check_contents.
  eapply runs_bind;
    [eapply runs_to_eq; [apply runs_ext_eq; exact Hclient | now rewrite <- app_assoc
                        | reflexivity] | cbn beta].
  eapply runs_bind_raise. apply runs_lift_eq. apply index_short. exact Hs.
Qed.

(** The other format of the help text. *)
Lemma main_format_as_location_witness :
  runs_to (stub (fun _ => 1%nat) (fun _ => response "DONE" []))
          (main {| project_id := "proj"; dataset_id := "d"; table_name := "t";
                   schema_file := "schema.json";
                   data_path := "gs://bucket/etl/part.json";
                   poll_interval := 1; num_retries := 5;
                   source_format := "NEWLINE_DELIMITED_JSON";
                   write_disposition := "WRITE_EMPTY" |})
          []
          ([] ++ [get_application_default; storage_Client "proj"])
          (inl IndexError).
Proof.
  refine (main_format_as_location (stub (fun _ => 1%nat) (fun _ => response "DONE" [])) []
            {| project_id := "proj"; dataset_id := "d"; table_name := "t";
               schema_file := "schema.json";
               data_path := "gs://bucket/etl/part.json";
               poll_interval := 1; num_retries := 5;
               source_format := "NEWLINE_DELIMITED_JSON";
               write_disposition := "WRITE_EMPTY" |} VNone VNone _ _ _);
    [ cbn; lia | reflexivity | reflexivity ].
Defined.

(* ===================================================================== *)
(** ** ISBCGCUpdateDatafileUploaded.py: lines, lookups and updates *)
(* ===================================================================== *)

(** Two effect lists that differ in how they are appended. *)
Ltac same_trace :=
  f_equal; cbn [app]; rewrite <- ?app_assoc; cbn [app]; rewrite <- ?app_assoc;
  reflexivity.

Section UploadFacts.
Import Upload.
Local Open Scope upload_scope.

Lemma rindex_slash_free s :
  slashes s = 0%nat -> rindex "/" s = inl (ValueError "substring not found").
Proof.
  induction s as [|a s IH]; cbn; intros H; [reflexivity|].
  destruct (Ascii.eqb a "/"); [discriminate|]. now rewrite IH.
Qed.

Lemma rindex_last dir name :
  slashes name = 0%nat ->
  rindex "/" (dir ++ String "/" name) = inr (String.length dir).
Proof.
  intros H. induction dir as [|a dir IH]; cbn.
  - now rewrite rindex_slash_free.
  - cbn in IH. now rewrite IH.
Qed.

Lemma slice_from_app dir name :
  slice_from (String.length dir + 1) (dir ++ String "/" name) = name.
Proof. induction dir as [|a dir IH]; cbn; [reflexivity | exact IH]. Qed.

Lemma file_name_app dir name :
  slashes name = 0%nat -> file_name (dir ++ "/" ++ name) = inr name.
Proof.
  intros H. unfold file_name. cbn [String.append].
  now rewrite rindex_last, slice_from_app.
Qed.

(** *** Computations *)



Lemma bind_inr {A B} (m : U A) (k : A -> U B) t t1 a :
  m t = (t1, inr a) -> bind m k t = k a t1.
Proof. intros H. unfold bind. now rewrite H. Qed.

Lemma bind_inl {A B} (m : U A) (k : A -> U B) t t1 e :
  m t = (t1, inl e) -> bind m k t = (t1, inl e).
Proof. intros H. unfold bind. now rewrite H. Qed.

Lemma selects_app t1 t2 : selects (t1 ++ t2) = selects t1 ++ selects t2.
Proof. apply flat_map_app. Qed.

Lemma updates_app t1 t2 : updates (t1 ++ t2) = updates t1 ++ updates t2.
Proof. apply flat_map_app. Qed.

Lemma checking_no_update config log new :
  Forall (checking config log) new -> updates new = [].
Proof.
  induction 1 as [|e new He _ IH]; [reflexivity|].
  destruct He as [[msg ->]|[name ->]]; exact IH.
Qed.

(** One round of the loop: what it adds is a possible progress line and, for
    a path with a name, one lookup of the name. *)
Lemma check_path_shape W config log line s t :
  exists new r,
    check_path W config log line s t = (t ++ new, r) /\
    Forall (checking config log) new /\
    (length (selects new) <= 1)%nat /\
    (forall e, file_name (strip line) = inl e -> new = [] /\ r = inl e) /\
    (forall name, file_name (strip line) = inr name ->
       exists pre,
       new = pre ++ [db_select config select_stmt log [name] false] /\
       selects pre = [] /\
       match rows W (t ++ pre) select_stmt [name] with
       | inl e => r = inl e
       | inr cursor =>
           r = inr (if (0 <? length cursor)%nat then
                      {| found_path_names := found_path_names s ++ [[strip line; name]];
                         notfound_path_names := notfound_path_names s;
                         count := count s + 1 |}
                    else if negb (endswith name "xml") then
                      {| found_path_names := found_path_names s;
                         notfound_path_names := notfound_path_names s ++ [[strip line; name]];
                         count := count s + 1 |}
                    else
                      {| found_path_names := found_path_names s;
                         notfound_path_names := notfound_path_names s;
                         count := count s + 1 |})
       end).
Proof.
  unfold check_path, file_name.
  destruct (rindex "/" (strip line)) as [e|i] eqn:Hi.
  - exists [], (inl e). rewrite app_nil_r. cbn. unfold bind, lift.
    split; [reflexivity|]. split; [constructor|]. split; [cbn; lia|].
    split; [|discriminate]. intros e' He'; inversion He'; subst; auto.
  - set (name := slice_from (i + 1) (strip line)).
    assert (Hsel : forall t0 : list effect,
      exists r,
        bind (perform (db_select config select_stmt log [name] false)
                      (fun t => rows W t select_stmt [name]))
          (fun cursor =>
            if (0 <? length cursor)%nat then
              ret {| found_path_names := found_path_names s ++ [[strip line; name]];
                     notfound_path_names := notfound_path_names s;
                     count := count s + 1 |}
            else if negb (endswith name "xml") then
              ret {| found_path_names := found_path_names s;
                     notfound_path_names := notfound_path_names s ++ [[strip line; name]];
                     count := count s + 1 |}
            else
              ret {| found_path_names := found_path_names s;
                     notfound_path_names := notfound_path_names s;
                     count := count s + 1 |}) t0
        = (t0 ++ [db_select config select_stmt log [name] false], r) /\
        match rows W t0 select_stmt [name] with
        | inl e => r = inl e
        | inr cursor =>
           r = inr (if (0 <? length cursor)%nat then
                      {| found_path_names := found_path_names s ++ [[strip line; name]];
                         notfound_path_names := notfound_path_names s;
                         count := count s + 1 |}
                    else if negb (endswith name "xml") then
                      {| found_path_names := found_path_names s;
                         notfound_path_names := notfound_path_names s ++ [[strip line; name]];
                         count := count s + 1 |}
                    else
                      {| found_path_names := found_path_names s;
                         notfound_path_names := notfound_path_names s;
                         count := count s + 1 |})
        end).
    { intros t0. unfold bind, perform.
      destruct (rows W t0 select_stmt [name]) as [e|cursor].
      - now exists (inl e).
      - eexists. split; [|reflexivity].
        destruct (0 <? length cursor)%nat; [reflexivity|].
        destruct (negb (endswith name "xml")); reflexivity. }
    unfold bind at 1. unfold lift at 1. cbn iota.
    destruct (0 =? count s mod 8192) eqn:Hc.
    + unfold bind at 1. unfold emit at 1. unfold perform at 1. cbn iota.
      destruct (Hsel (t ++ [log_info log
                (tab ++ "processing " ++ Py.decimal (count s) ++ " record: "
                   ++ strip line ++ ":" ++ name)%string])) as [r [Hr Hm]].
      eexists [_; _], r. fold name. rewrite Hr, <- app_assoc. cbn [app].
      split; [reflexivity|]. split.
      { constructor; [left; eauto|]. constructor; [right; eauto|]. constructor. }
      split; [cbn; lia|]. split; [discriminate|].
      intros n Hn; inversion Hn; subst n. eexists [_].
      split; [reflexivity|]. split; [reflexivity|]. exact Hm.
    + unfold bind at 1. unfold ret at 1. cbn iota.
      destruct (Hsel t) as [r [Hr Hm]].
      eexists [_], r. fold name. rewrite Hr.
      split; [reflexivity|]. split.
      { constructor; [right; eauto|]. constructor. }
      split; [cbn; lia|]. split; [discriminate|].
      intros n Hn; inversion Hn; subst n. exists [].
      split; [reflexivity|]. split; [reflexivity|]. now rewrite app_nil_r.
Qed.


(** The loop only adds log lines and lookups, at most one lookup a line. *)
Lemma loop_shape W config log lines :
  forall s t, exists new r,
    for_each lines (check_path W config log) s t = (t ++ new, r) /\
    Forall (checking config log) new /\
    (length (selects new) <= length lines)%nat.
Proof.
  induction lines as [|line lines IH]; intros s t.
  - exists [], (inr s). rewrite app_nil_r. repeat split; [constructor | cbn; lia].
  - destruct (check_path_shape W config log line s t)
      as (new1 & r1 & H1 & Hc1 & Hl1 & _).
    cbn [for_each]. destruct r1 as [e|s1].
    + exists new1, (inl e). rewrite (bind_inl _ _ _ _ _ H1).
      repeat split; [assumption | cbn; lia].
    + destruct (IH s1 (t ++ new1)) as (new2 & r2 & H2 & Hc2 & Hl2).
      exists (new1 ++ new2), r2. rewrite (bind_inr _ _ _ _ _ H1), H2, app_assoc.
      repeat split; [now apply Forall_app|].
      rewrite selects_app, length_app. cbn; lia.
Qed.

(** The loop over lines that all have a name, while the lookups answer as a
    table: one lookup a line, the known and the unknown names kept apart. *)
Lemma loop_table W config log table lines :
  forall names s t,
    Forall2 (fun line name => file_name (strip line) = inr name) lines names ->
    (forall t' params,
        (length (selects t') < length (selects t) + length lines)%nat ->
        rows W t' select_stmt params = inr (table params)) ->
    exists new,
      for_each lines (check_path W config log) s t =
        (t ++ new,
         inr {| found_path_names := found_path_names s ++ flat_map (known table) lines;
                notfound_path_names :=
                  notfound_path_names s ++ flat_map (unknown table) lines;
                count := count s + Z.of_nat (length lines) |}) /\
      Forall (checking config log) new /\
      selects new = List.map (fun name => [name]) names.
Proof.
  induction lines as [|line lines IH]; intros names s t Hn Ht.
  - inversion Hn; subst.
    exists []. rewrite !app_nil_r, Z.add_0_r. cbn. destruct s. repeat split. constructor.
  - inversion Hn as [|? name ? names' Hline Hrest]; subst. rename names' into names.
    destruct (check_path_shape W config log line s t)
      as (new1 & r1 & H1 & Hc1 & _ & _ & Hname).
    destruct (Hname name Hline) as (pre & -> & Hpre & Hr).
    rewrite Ht in Hr by (rewrite selects_app, Hpre, app_nil_r; cbn; lia).
    subst r1. cbn [for_each]. rewrite (bind_inr _ _ _ _ _ H1). clear Hname H1.
    cbn [flat_map]. unfold known at 1, unknown at 1. rewrite Hline.
    assert (Ht' : forall t' params,
               (length (selects t') <
                length (selects (t ++ pre ++ [db_select config select_stmt log [name] false]))
                + length lines)%nat ->
               rows W t' select_stmt params = inr (table params)).
    { intros t' params Hlt. apply Ht. revert Hlt.
      rewrite !selects_app, Hpre, !length_app. cbn. lia. }
    destruct (0 <? length (table [name]))%nat;
      [|destruct (endswith name "xml"); cbn [negb]];
      (match goal with |- context [for_each lines _ ?s1 ?t1] =>
         destruct (IH names s1 t1 Hrest Ht') as (new2 & H2' & Hc2 & Hs2) end;
       exists ((pre ++ [db_select config select_stmt log [name] false]) ++ new2);
       rewrite H2', app_assoc;
       split; [cbn [found_path_names notfound_path_names count length];
               rewrite Nat2Z.inj_succ, <- ?app_assoc, ?app_nil_l, ?app_nil_r;
               do 3 f_equal; lia|];
       split; [apply Forall_app; split; assumption|];
       rewrite !selects_app, Hpre, Hs2; reflexivity).
Qed.


Lemma for_each_app {A S} (l1 l2 : list A) (body : A -> S -> U S) s t :
  for_each (l1 ++ l2) body s t = bind (for_each l1 body s) (for_each l2 body) t.
Proof.
  revert s t. induction l1 as [|x l1 IH]; intros s t; cbn [app for_each].
  - reflexivity.
  - unfold bind. destruct (body x s t) as [t1 [e|s1]]; [reflexivity|].
    rewrite IH. reflexivity.
Qed.

(** The function around its loop. *)
Lemma update_unfold W config path_file log t t1 r :
  for_each (file_lines path_file) (check_path W config log)
    {| found_path_names := []; notfound_path_names := []; count := 0 |}
    (t ++ [log_info log (tab ++ "processing path/name combinations from "
                             ++ file_str path_file
                             ++ " for existence in the database")%string]) = (t1, r) ->
  updateDatafileUploaded W config path_file log t =
    match r with
    | inl e => (t1 ++ [log_exception log (tab ++ "problem updating")%string], inl e)
    | inr s =>
        let t2 := t1 ++ [log_info log (summary (count s) (notfound_path_names s))] in
        let write := db_update config update_stmt log (found_path_names s) (Some false) in
        match updated W t2 update_stmt (found_path_names s) with
        | inl e => (t2 ++ [write; log_exception log (tab ++ "problem updating")%string], inl e)
        | inr _ => (t2 ++ [write], inr tt)
        end
    end.
Proof.
  intros H. unfold updateDatafileUploaded, try_except.
  unfold bind at 1. unfold emit at 1, perform at 1. cbn iota.
  unfold bind at 1. rewrite H. destruct r as [e|s]; [reflexivity|].
  unfold bind, emit, perform, raise. cbn zeta.
  destruct (updated W _ update_stmt (found_path_names s)) as [e|[]];
    rewrite <- ?app_assoc; reflexivity.
Qed.


(** The loop that meets a line without a name after lines with names. *)
Lemma loop_stops W config log table good names bad rest s t e :
  Forall2 (fun line name => file_name (strip line) = inr name) good names ->
  file_name (strip bad) = inl e ->
  (forall t' params,
      (length (selects t') < length (selects t) + length good)%nat ->
      rows W t' select_stmt params = inr (table params)) ->
  exists new,
    for_each (good ++ bad :: rest) (check_path W config log) s t = (t ++ new, inl e) /\
    Forall (checking config log) new /\
    selects new = List.map (fun name => [name]) names.
Proof.
  intros Hg Hb Ht.
  destruct (loop_table W config log table good names s t Hg Ht) as (new & H & Hc & Hs).
  exists new. rewrite for_each_app, (bind_inr _ _ _ _ _ H). cbn [for_each].
  destruct (check_path_shape W config log bad
              {| found_path_names := found_path_names s ++ flat_map (known table) good;
                 notfound_path_names := notfound_path_names s ++ flat_map (unknown table) good;
                 count := count s + Z.of_nat (length good) |} (t ++ new))
    as (new1 & r1 & H1 & _ & _ & Hfail & _).
  destruct (Hfail e Hb) as [-> ->]. rewrite app_nil_r in H1.
  rewrite (bind_inl _ _ _ _ _ H1). auto.
Qed.

(** The loop whose lookup fails at a line after lines that were looked up. *)
Lemma loop_lookup_fails W config log table good names bad name rest s t e :
  Forall2 (fun line name => file_name (strip line) = inr name) good names ->
  file_name (strip bad) = inr name ->
  (forall t' params,
      (length (selects t') < length (selects t) + length good)%nat ->
      rows W t' select_stmt params = inr (table params)) ->
  (forall t' params,
      (length (selects t') = length (selects t) + length good)%nat ->
      rows W t' select_stmt params = inl e) ->
  exists new,
    for_each (good ++ bad :: rest) (check_path W config log) s t =
      (t ++ new ++ [db_select config select_stmt log [name] false], inl e) /\
    Forall (checking config log) new /\
    selects new = List.map (fun name => [name]) names.
Proof.
  intros Hg Hb Ht He.
  destruct (loop_table W config log table good names s t Hg Ht) as (new & H & Hc & Hs).
  rewrite for_each_app, (bind_inr _ _ _ _ _ H). cbn [for_each].
  destruct (check_path_shape W config log bad
              {| found_path_names := found_path_names s ++ flat_map (known table) good;
                 notfound_path_names := notfound_path_names s ++ flat_map (unknown table) good;
                 count := count s + Z.of_nat (length good) |} (t ++ new))
    as (new1 & r1 & H1 & Hc1 & _ & _ & Hname).
  destruct (Hname name Hb) as (pre & -> & Hpre & Hr).
  rewrite He in Hr.
  2:{ rewrite !selects_app, Hpre, Hs, app_nil_r, length_app, length_map.
      now rewrite (Forall2_length Hg). }
  subst r1. rewrite (bind_inl _ _ _ _ _ H1).
  exists (new ++ pre). rewrite <- !app_assoc. split; [reflexivity|].
  apply Forall_app in Hc1 as [Hc1 _].
  split; [apply Forall_app; split; assumption|].
  now rewrite selects_app, Hpre, app_nil_r.
Qed.

(** X21. A file whose lines all name a file, with lookups that answer as a
    table and an update that succeeds: one lookup for each line, in the order
    of the file; then the closing log line with the number of lines and the
    unknown names that do not end in xml; then the one update, with the pairs
    of path and name of the known names in the order of the file. *)
Theorem update_uploaded_success W config path_file log table names t :
  Forall2 (fun line name => file_name (strip line) = inr name)
          (file_lines path_file) names ->
  (forall t' params, rows W t' select_stmt params = inr (table params)) ->
  (forall t', updated W t' update_stmt
                (flat_map (known table) (file_lines path_file)) = inr tt) ->
  exists new,
    updateDatafileUploaded W config path_file log t =
      (t ++ [log_info log (tab ++ "processing path/name combinations from "
                               ++ file_str path_file
                               ++ " for existence in the database")%string]
         ++ new
         ++ [log_info log
               (summary (Z.of_nat (length (file_lines path_file)))
                        (flat_map (unknown table) (file_lines path_file)));
             db_update config update_stmt log
               (flat_map (known table) (file_lines path_file)) (Some false)],
       inr tt) /\
    Forall (checking config log) new /\
    selects new = List.map (fun name => [name]) names.
Proof.
  intros Hn Hrows Hupd.
  destruct (loop_table W config log table (file_lines path_file) names
              {| found_path_names := []; notfound_path_names := []; count := 0 |}
              (t ++ [log_info log (tab ++ "processing path/name combinations from "
                                       ++ file_str path_file
                                       ++ " for existence in the database")%string])
              Hn (fun t' params _ => Hrows t' params))
    as (new & H & Hc & Hs).
  exists new. rewrite (update_unfold _ _ _ _ _ _ _ H).
  cbn [found_path_names notfound_path_names count app]. rewrite Hupd, Z.add_0_l.
  rewrite <- !app_assoc. auto.
Qed.

(** Three paths: one known, one unknown that ends in xml, one unknown. *)
Lemma update_uploaded_success_witness :
  exists new,
    updateDatafileUploaded (serving (holding ["a.txt"]) VNone (fun _ => uploaded))
                           VNone uploaded (VStr "log") [] =
      ([] ++ [log_info (VStr "log")
                (tab ++ "processing path/name combinations from "
                     ++ file_str uploaded ++ " for existence in the database")%string]
          ++ new
          ++ [log_info (VStr "log")
                (summary (Z.of_nat (length (file_lines uploaded)))
                         (flat_map (unknown (holding ["a.txt"])) (file_lines uploaded)));
              db_update VNone update_stmt (VStr "log")
                (flat_map (known (holding ["a.txt"])) (file_lines uploaded)) (Some false)],
       inr tt) /\
    Forall (checking VNone (VStr "log")) new /\
    selects new = List.map (fun name => [name]) ["a.txt"; "b.xml"; "c.txt"].
Proof.
  apply (update_uploaded_success (serving (holding ["a.txt"]) VNone (fun _ => uploaded))
           VNone uploaded (VStr "log") (holding ["a.txt"]) ["a.txt"; "b.xml"; "c.txt"] []);
    [ repeat constructor | reflexivity | reflexivity ].
Defined.


(** X22. A line that has no ['/'] once stripped (a blank line is one) stops
    the function: the [ValueError] of [rindex] is logged and raised again,
    the lines after it are not looked up and no update is made. *)
Theorem update_uploaded_line_without_slash W config path_file log table
    good names bad rest t :
  file_lines path_file = good ++ bad :: rest ->
  Forall2 (fun line name => file_name (strip line) = inr name) good names ->
  slashes (strip bad) = 0%nat ->
  (forall t' params, rows W t' select_stmt params = inr (table params)) ->
  exists new,
    updateDatafileUploaded W config path_file log t =
      (t ++ new ++ [log_exception log (tab ++ "problem updating")%string],
       inl (ValueError "substring not found")) /\
    updates new = [] /\
    selects new = List.map (fun name => [name]) names.
Proof.
  intros Hl Hg Hb Hrows.
  destruct (loop_stops W config log table good names bad rest
              {| found_path_names := []; notfound_path_names := []; count := 0 |}
              (t ++ [log_info log (tab ++ "processing path/name combinations from "
                                       ++ file_str path_file
                                       ++ " for existence in the database")%string])
              (ValueError "substring not found") Hg)
    as (new & H & Hc & Hs).
  { unfold file_name. now rewrite rindex_slash_free. }
  { intros; apply Hrows. }
  rewrite <- Hl in H. rewrite (update_unfold _ _ _ _ _ _ _ H).
  set (start := log_info log _) in *.
  exists (start :: new). split; [same_trace|].
  split; [exact (checking_no_update _ _ _ Hc) | exact Hs].
Qed.

(** A blank line after one path. *)
Lemma update_uploaded_line_without_slash_witness :
  exists new,
    updateDatafileUploaded (serving (holding ["a.txt"]) VNone (fun _ => gapped))
                           VNone gapped (VStr "log") [] =
      ([] ++ new ++ [log_exception (VStr "log") (tab ++ "problem updating")%string],
       inl (ValueError "substring not found")) /\
    updates new = [] /\
    selects new = List.map (fun name => [name]) ["a.txt"].
Proof.
  apply (update_uploaded_line_without_slash
           (serving (holding ["a.txt"]) VNone (fun _ => gapped))
           VNone gapped (VStr "log") (holding ["a.txt"])
           [("gs://bucket/dir/a.txt" ++ newline)%string] ["a.txt"] newline
           [("gs://bucket/c.txt" ++ newline)%string] []);
    [ reflexivity | repeat constructor | reflexivity | reflexivity ].
Defined.


(** X23. A lookup that raises stops the function: the exception is logged
    and raised again, the lines after it are not looked up and no update is
    made. *)
Theorem update_uploaded_lookup_failure W config path_file log table
    good names bad name rest t e :
  file_lines path_file = good ++ bad :: rest ->
  Forall2 (fun line name => file_name (strip line) = inr name) good names ->
  file_name (strip bad) = inr name ->
  (forall t' params,
      (length (selects t') < length (selects t) + length good)%nat ->
      rows W t' select_stmt params = inr (table params)) ->
  (forall t' params,
      (length (selects t') = length (selects t) + length good)%nat ->
      rows W t' select_stmt params = inl e) ->
  exists new,
    updateDatafileUploaded W config path_file log t =
      (t ++ new ++ [log_exception log (tab ++ "problem updating")%string], inl e) /\
    updates new = [] /\
    selects new = List.map (fun name => [name]) (names ++ [name]).
Proof.
  intros Hl Hg Hb Hrows He.
  destruct (loop_lookup_fails W config log table good names bad name rest
              {| found_path_names := []; notfound_path_names := []; count := 0 |}
              (t ++ [log_info log (tab ++ "processing path/name combinations from "
                                       ++ file_str path_file
                                       ++ " for existence in the database")%string])
              e Hg Hb)
    as (new & H & Hc & Hs).
  { intros t' params. rewrite selects_app, app_nil_r. apply Hrows. }
  { intros t' params. rewrite selects_app, app_nil_r. apply He. }
  rewrite <- Hl in H. rewrite (update_unfold _ _ _ _ _ _ _ H).
  set (start := log_info log _) in *.
  exists (start :: new ++ [db_select config select_stmt log [name] false]).
  split; [same_trace|].
  split.
  - change (updates (new ++ [db_select config select_stmt log [name] false]) = []).
    rewrite updates_app, (checking_no_update _ _ _ Hc). reflexivity.
  - change (selects (new ++ [db_select config select_stmt log [name] false])
            = List.map (fun name => [name]) (names ++ [name])).
    rewrite selects_app, Hs, map_app. reflexivity.
Qed.

(** The second lookup raises. *)
Lemma update_uploaded_lookup_failure_witness :
  exists new,
    updateDatafileUploaded
      (dropping 1 (serving (holding ["a.txt"]) VNone (fun _ => uploaded)))
      VNone uploaded (VStr "log") [] =
      ([] ++ new ++ [log_exception (VStr "log") (tab ++ "problem updating")%string],
       inl (Raised VNone)) /\
    updates new = [] /\
    selects new = List.map (fun name => [name]) (["a.txt"] ++ ["b.xml"]).
Proof.
  apply (update_uploaded_lookup_failure
           (dropping 1 (serving (holding ["a.txt"]) VNone (fun _ => uploaded)))
           VNone uploaded (VStr "log") (holding ["a.txt"])
           [("gs://bucket/dir/a.txt" ++ newline)%string] ["a.txt"]
           ("gs://bucket/dir/b.xml" ++ newline)%string "b.xml"
           [("gs://bucket/c.txt" ++ newline)%string] [] (Raised VNone));
    [ reflexivity | repeat constructor | reflexivity
    | intros t' params H; cbn in H |- *;
      destruct (Nat.eqb_spec (length (selects t')) 1); [lia | reflexivity]
    | intros t' params H; cbn in H |- *; rewrite H; reflexivity ].
Defined.


(** X24. Whatever the file and the collaborators: the function looks up at
    most one name a line and writes nothing while it does; it ends either
    with its one update, or with the log of an exception that it raises
    again, and then it made no update unless the exception is the update's
    own. *)
Theorem update_uploaded_shape W config path_file log t :
  exists new tail r,
    updateDatafileUploaded W config path_file log t = (t ++ new ++ tail, r) /\
    Forall (checking config log) new /\
    (length (selects new) <= length (file_lines path_file))%nat /\
    match r with
    | inr _ =>
        exists found,
          tail = [db_update config update_stmt log found (Some false)]
    | inl e =>
        tail = [log_exception log (tab ++ "problem updating")%string] \/
        exists found,
          updated W (t ++ new) update_stmt found = inl e /\
          tail = [db_update config update_stmt log found (Some false);
                  log_exception log (tab ++ "problem updating")%string]
    end.
Proof.
  destruct (loop_shape W config log (file_lines path_file)
              {| found_path_names := []; notfound_path_names := []; count := 0 |}
              (t ++ [log_info log (tab ++ "processing path/name combinations from "
                                       ++ file_str path_file
                                       ++ " for existence in the database")%string]))
    as (new & r & H & Hc & Hl).
  rewrite (update_unfold _ _ _ _ _ _ _ H).
  assert (Hfirst : forall msg, checking config log (log_info log msg))
    by (intros msg; left; eauto).
  set (start := log_info log _) in *.
  destruct r as [e|s].
  - exists (start :: new), [log_exception log (tab ++ "problem updating")%string], (inl e).
    split; [same_trace|].
    split; [constructor; [apply Hfirst | exact Hc]|]. split; [exact Hl|]. now left.
  - cbn zeta.
    destruct (updated W _ update_stmt (found_path_names s)) as [e|[]] eqn:Hu.
    + exists (start :: new ++ [log_info log (summary (count s) (notfound_path_names s))]),
        [db_update config update_stmt log (found_path_names s) (Some false);
         log_exception log (tab ++ "problem updating")%string], (inl e).
      split; [same_trace|].
      split; [constructor; [apply Hfirst | apply Forall_app; split; [exact Hc | constructor; [apply Hfirst | constructor]]]|].
      split.
      { change (length (selects (new ++ [log_info log
                  (summary (count s) (notfound_path_names s))]))
                <= length (file_lines path_file))%nat.
        now rewrite selects_app, app_nil_r. }
      right. exists (found_path_names s). split; [|reflexivity].
      rewrite <- Hu. f_equal. now rewrite <- !app_assoc.
    + exists (start :: new ++ [log_info log (summary (count s) (notfound_path_names s))]),
        [db_update config update_stmt log (found_path_names s) (Some false)], (inr tt).
      split; [same_trace|].
      split; [constructor; [apply Hfirst | apply Forall_app; split; [exact Hc | constructor; [apply Hfirst | constructor]]]|].
      split.
      { change (length (selects (new ++ [log_info log
                  (summary (count s) (notfound_path_names s))]))
                <= length (file_lines path_file))%nat.
        now rewrite selects_app, app_nil_r. }
      eauto.
Qed.


(** *** Lines *)

Lemma lstrip_length s : (String.length (lstrip s) <= String.length s)%nat.
Proof.
  induction s as [|c s IH]; cbn; [lia|]. destruct (is_space c); cbn; lia.
Qed.

Lemma lstrip_blank lead s : blank lead = true -> lstrip (lead ++ s) = lstrip s.
Proof.
  induction lead as [|c lead IH]; cbn; [reflexivity|].
  intros H. apply andb_prop in H as [-> H]. now apply IH.
Qed.

Lemma lstrip_fixed s trail : s <> "" -> lstrip s = s -> lstrip (s ++ trail) = (s ++ trail)%string.
Proof.
  destruct s as [|c s]; [congruence|]. intros _. cbn.
  destruct (is_space c); [|reflexivity].
  intros H. pose proof (lstrip_length s) as Hl. rewrite H in Hl. cbn in Hl. lia.
Qed.

Lemma rstrip_blank trail : blank trail = true -> rstrip trail = "".
Proof.
  induction trail as [|c trail IH]; cbn; [reflexivity|].
  intros H. apply andb_prop in H as [-> H]. now rewrite IH.
Qed.

Lemma rstrip_app_blank s trail : blank trail = true -> rstrip (s ++ trail) = rstrip s.
Proof.
  intros H. induction s as [|c s IH]; cbn.
  - now apply rstrip_blank.
  - now rewrite IH.
Qed.

Lemma strip_line lead path trail :
  blank lead = true -> blank trail = true -> path <> "" ->
  lstrip path = path -> rstrip path = path ->
  strip (lead ++ path ++ trail) = path.
Proof.
  intros Hlead Htrail Hne Hl Hr. unfold strip.
  now rewrite lstrip_blank, lstrip_fixed, rstrip_app_blank.
Qed.

(** X20. A line is looked up under the name that follows the last ['/'] of
    its path, the white space around the path left out. *)
Theorem check_path_looks_up_name W config log lead dir name trail s t :
  blank lead = true -> blank trail = true ->
  lstrip (dir ++ "/" ++ name) = (dir ++ "/" ++ name)%string ->
  rstrip (dir ++ "/" ++ name) = (dir ++ "/" ++ name)%string ->
  slashes name = 0%nat ->
  exists new r,
    check_path W config log (lead ++ (dir ++ "/" ++ name) ++ trail) s t = (t ++ new, r) /\
    selects new = [[name]] /\
    (forall s', r = inr s' ->
       s' = {| found_path_names := found_path_names s ++ [[(dir ++ "/" ++ name)%string; name]];
               notfound_path_names := notfound_path_names s;
               count := count s + 1 |} \/
       s' = {| found_path_names := found_path_names s;
               notfound_path_names :=
                 notfound_path_names s ++ [[(dir ++ "/" ++ name)%string; name]];
               count := count s + 1 |} \/
       s' = {| found_path_names := found_path_names s;
               notfound_path_names := notfound_path_names s;
               count := count s + 1 |}).
Proof.
  intros Hlead Htrail Hl Hr Hname.
  destruct (check_path_shape W config log (lead ++ (dir ++ "/" ++ name) ++ trail) s t)
    as (new & r & H & _ & _ & _ & Hn).
  assert (Hs : strip (lead ++ (dir ++ "/" ++ name) ++ trail) = (dir ++ "/" ++ name)%string).
  { apply strip_line; auto. now destruct dir. }
  rewrite Hs in Hn.
  destruct (Hn name (file_name_app dir name Hname)) as (pre & -> & Hpre & Hrows).
  eexists _, r. split; [exact H|]. split.
  - now rewrite selects_app, Hpre.
  - intros s' ->.
    destruct (rows W (t ++ pre) select_stmt [name]) as [e|cursor]; [discriminate|].
    inversion Hrows as [Hs']. clear Hrows Hs'.
    destruct (0 <? length cursor)%nat; [now left|].
    destruct (endswith name "xml"); cbn [negb]; auto.
Qed.

(** A line of a file, its newline at the end; the name is not in the table. *)
Lemma check_path_looks_up_name_witness :
  exists new r,
    check_path (serving (holding []) VNone (fun _ => uploaded)) VNone (VStr "log")
               ("gs://bucket/dir/a.txt" ++ newline)%string
               {| found_path_names := []; notfound_path_names := []; count := 5 |} []
      = ([] ++ new, r) /\
    selects new = [["a.txt"]] /\
    (forall s', r = inr s' ->
       s' = {| found_path_names := [] ++ [["gs://bucket/dir/a.txt"; "a.txt"]];
               notfound_path_names := [];
               count := 5 + 1 |} \/
       s' = {| found_path_names := [];
               notfound_path_names := [] ++ [["gs://bucket/dir/a.txt"; "a.txt"]];
               count := 5 + 1 |} \/
       s' = {| found_path_names := [];
               notfound_path_names := [];
               count := 5 + 1 |}).
Proof.
  apply (check_path_looks_up_name (serving (holding []) VNone (fun _ => uploaded))
           VNone (VStr "log") "" "gs://bucket/dir" "a.txt" newline
           {| found_path_names := []; notfound_path_names := []; count := 5 |} []);
    reflexivity.
Defined.


(** *** The closing line *)

Lemma append_assoc (a b c : string) : ((a ++ b) ++ c = a ++ b ++ c)%string.
Proof. induction a as [|x a IH]; cbn; [reflexivity | now rewrite IH]. Qed.

Lemma join_snoc sep l x :
  l <> [] -> Py.join sep (l ++ [x]) = (Py.join sep l ++ sep ++ x)%string.
Proof.
  induction l as [|a l IH]; [congruence|]. intros _.
  destruct l as [|b l].
  - reflexivity.
  - change (Py.join sep ((a :: b :: l) ++ [x]))
      with (a ++ sep ++ Py.join sep ((b :: l) ++ [x]))%string.
    rewrite IH by discriminate.
    change (Py.join sep (a :: b :: l)) with (a ++ sep ++ Py.join sep (b :: l))%string.
    now rewrite !append_assoc.
Qed.

(** X25. With 500 names or more to report, the closing line lists the first
    500 and then, for the marker ['...'] that is joined like a pair, the text
    [.:.:.] *)
Theorem summary_truncated count notfound_path_names :
  (500 <= length notfound_path_names)%nat ->
  summary count notfound_path_names =
    (tab ++ "processed a total of " ++ Py.decimal count
         ++ " path/name combinations.  "
         ++ Py.decimal (Z.of_nat (length notfound_path_names))
         ++ " files were not found:" ++ newline ++ tab ++ tab
         ++ Py.join (newline ++ tab ++ tab)
                    (List.map (Py.join ":") (firstn 500 notfound_path_names))
         ++ newline ++ tab ++ tab ++ ".:.:." ++ newline)%string.
Proof.
  intros H. unfold summary.
  destruct (Nat.eqb_spec 0 (length notfound_path_names)) as [H0|_]; [lia|].
  destruct (Nat.ltb_spec (length notfound_path_names) 500) as [Hlt|_]; [lia|].
  rewrite map_app. cbn [List.map]. rewrite join_snoc.
  - change (Py.join ":" (chars "...")) with ".:.:.".
    now rewrite !append_assoc.
  - destruct notfound_path_names; cbn in H; [lia | discriminate].
Qed.

(** Five hundred pairs to report. *)
Lemma summary_truncated_witness :
  summary 500 (repeat ["gs://bucket/c.txt"; "c.txt"] 500) =
    (tab ++ "processed a total of " ++ Py.decimal 500
         ++ " path/name combinations.  "
         ++ Py.decimal (Z.of_nat (length (repeat ["gs://bucket/c.txt"; "c.txt"] 500)))
         ++ " files were not found:" ++ newline ++ tab ++ tab
         ++ Py.join (newline ++ tab ++ tab)
                    (List.map (Py.join ":")
                       (firstn 500 (repeat ["gs://bucket/c.txt"; "c.txt"] 500)))
         ++ newline ++ tab ++ tab ++ ".:.:." ++ newline)%string.
Proof.
  apply (summary_truncated 500 (repeat ["gs://bucket/c.txt"; "c.txt"] 500)).
  rewrite repeat_length. lia.
Defined.



(** *** The nulls *)

Lemma null_updates_stop W config log stmts :
  forall t k e,
    (k < length stmts)%nat ->
    (forall i, (i < k)%nat ->
       updated W (t ++ List.map (null_update config log) (firstn i stmts))
               (nth i stmts "") [] = inr tt) ->
    updated W (t ++ List.map (null_update config log) (firstn k stmts))
            (nth k stmts "") [] = inl e ->
    for_each stmts
      (fun update_null_stmt _ =>
         perform (db_update config update_null_stmt log [] None)
                 (fun t => updated W t update_null_stmt []))
      tt t
    = (t ++ List.map (null_update config log) (firstn (S k) stmts), inl e).
Proof.
  induction stmts as [|a stmts IH]; intros t k e Hk Hok Hfail; cbn in Hk; [lia|].
  cbn [for_each]. unfold bind, perform at 1.
  destruct k as [|k].
  - cbn in Hfail. rewrite app_nil_r in Hfail. rewrite Hfail.
    destruct stmts; reflexivity.
  - pose proof (Hok 0%nat ltac:(lia)) as H0. cbn in H0. rewrite app_nil_r in H0.
    rewrite H0. rewrite (IH _ k e).
    + f_equal. change (firstn (S (S k)) (a :: stmts)) with (a :: firstn (S k) stmts).
      cbn [List.map]. now rewrite <- app_assoc.
    + lia.
    + intros i Hi. pose proof (Hok (S i) ltac:(lia)) as H.
      cbn in H. now rewrite <- app_assoc.
    + cbn in Hfail. now rewrite <- app_assoc.
Qed.

Lemma null_updates_all W config log stmts :
  (forall t statement params, updated W t statement params = inr tt) ->
  forall t,
    for_each stmts
      (fun update_null_stmt _ =>
         perform (db_update config update_null_stmt log [] None)
                 (fun t => updated W t update_null_stmt []))
      tt t
    = (t ++ List.map (null_update config log) stmts, inr tt).
Proof.
  intros Hu. induction stmts as [|a stmts IH]; intros t; cbn [for_each List.map].
  - now rewrite app_nil_r.
  - unfold bind, perform at 1. rewrite Hu, IH. now rewrite <- app_assoc.
Qed.

(** X26. [update_nulls] stops at the first statement that fails: the
    statements before it and the failing one were issued, each without
    parameters, the ones after it are not, and the exception leaves the
    function without a log line. *)
Theorem update_nulls_stops_at_failure W config log t k e :
  (k < 11)%nat ->
  (forall i, (i < k)%nat ->
     updated W (t ++ List.map (null_update config log) (firstn i update_null_stmts))
             (nth i update_null_stmts "") [] = inr tt) ->
  updated W (t ++ List.map (null_update config log) (firstn k update_null_stmts))
          (nth k update_null_stmts "") [] = inl e ->
  update_nulls W config log t =
    (t ++ List.map (null_update config log) (firstn (S k) update_null_stmts), inl e).
Proof. intros Hk. apply null_updates_stop. exact Hk. Qed.

(** The third statement fails. *)
Lemma update_nulls_stops_at_failure_witness :
  update_nulls (refusing 2 (serving (holding []) VNone (fun _ => uploaded)))
               VNone (VStr "log") [] =
    ([] ++ List.map (null_update VNone (VStr "log")) (firstn 3 update_null_stmts),
     inl (Raised VNone)).
Proof.
  apply (update_nulls_stops_at_failure
           (refusing 2 (serving (holding []) VNone (fun _ => uploaded)))
           VNone (VStr "log") [] 2 (Raised VNone));
    [ lia
    | intros i Hi; destruct i as [|[|i]]; [reflexivity | reflexivity | lia]
    | reflexivity ].
Defined.


(** *** All files *)

Lemma opens_app t1 t2 : opens (t1 ++ t2) = opens t1 ++ opens t2.
Proof. apply flat_map_app. Qed.

Lemma closes_app t1 t2 : closes (t1 ++ t2) = closes t1 ++ closes t2.
Proof. apply flat_map_app. Qed.

Lemma checking_no_file config log new :
  Forall (checking config log) new -> opens new = [] /\ closes new = [].
Proof.
  induction 1 as [|e new He _ IH]; [split; reflexivity|].
  destruct He as [[msg ->]|[name ->]]; exact IH.
Qed.

Lemma null_updates_no_file config log stmts :
  opens (List.map (null_update config log) stmts) = [] /\
  closes (List.map (null_update config log) stmts) = [].
Proof. induction stmts as [|a stmts IH]; [split; reflexivity | exact IH]. Qed.

Lemma null_updates_updates config log stmts :
  updates (List.map (null_update config log) stmts) = List.map (fun s => (s, [])) stmts.
Proof.
  induction stmts as [|a stmts IH]; [reflexivity|]. cbn [List.map]. cbn. now f_equal.
Qed.

Lemma named_lines lines :
  Forall (fun line => exists name, file_name (strip line) = inr name) lines ->
  exists names, Forall2 (fun line name => file_name (strip line) = inr name) lines names.
Proof.
  induction 1 as [|line lines [name Hn] _ [names IH]].
  - exists []. constructor.
  - exists (name :: names). now constructor.
Qed.

(** A file that is opened, updated without failure, and closed. *)
Lemma with_open_table W config log table path_file paths t :
  opened W t path_file = inr paths ->
  Forall (fun line => exists name, file_name (strip line) = inr name) (file_lines paths) ->
  (forall t' params, rows W t' select_stmt params = inr (table params)) ->
  (forall t' statement params, updated W t' statement params = inr tt) ->
  exists new,
    with_open W path_file (fun paths => updateDatafileUploaded W config paths log) t =
      (t ++ new, inr tt) /\
    opens new = [path_file] /\ closes new = [path_file] /\
    updates new = [(update_stmt, flat_map (known table) (file_lines paths))].
Proof.
  intros Ho Hl Hrows Hu.
  destruct (named_lines _ Hl) as [names Hn].
  set (start := log_info log (tab ++ "processing path/name combinations from "
                                  ++ file_str paths
                                  ++ " for existence in the database")%string).
  destruct (loop_table W config log table (file_lines paths) names
              {| found_path_names := []; notfound_path_names := []; count := 0 |}
              ((t ++ [open_file path_file]) ++ [start])
              Hn (fun t' params _ => Hrows t' params))
    as (new & H & Hc & Hs).
  unfold with_open, bind, perform at 1. rewrite Ho.
  rewrite (update_unfold _ _ _ _ _ _ _ H). cbn zeta.
  cbn [found_path_names notfound_path_names count app]. rewrite Hu.
  exists (open_file path_file :: start :: new ++
          [log_info log (summary (0 + Z.of_nat (length (file_lines paths)))
                                 (flat_map (unknown table) (file_lines paths)));
           db_update config update_stmt log
             (flat_map (known table) (file_lines paths)) (Some false);
           close_file path_file]).
  destruct (checking_no_file _ _ _ Hc) as [Hop Hcl].
  split; [same_trace|].
  pose proof (checking_no_update _ _ _ Hc) as Hup.
  unfold opens, closes, updates in *.
  split; [|split]; cbn [flat_map app]; rewrite flat_map_app;
    [rewrite Hop | rewrite Hcl | rewrite Hup]; reflexivity.
Qed.

(** A run of files that are opened, updated without failure, and closed. *)
Lemma files_loop W config log table files path_files :
  (forall t' path_file, In path_file path_files -> opened W t' path_file = inr (files path_file)) ->
  (forall path_file, In path_file path_files ->
     Forall (fun line => exists name, file_name (strip line) = inr name)
            (file_lines (files path_file))) ->
  (forall t' params, rows W t' select_stmt params = inr (table params)) ->
  (forall t' statement params, updated W t' statement params = inr tt) ->
  forall t, exists new,
    for_each path_files
      (fun path_file _ =>
         with_open W path_file (fun paths => updateDatafileUploaded W config paths log))
      tt t = (t ++ new, inr tt) /\
    opens new = path_files /\ closes new = path_files /\
    updates new =
      List.map (fun path_file =>
                  (update_stmt, flat_map (known table) (file_lines (files path_file))))
               path_files.
Proof.
  intros Ho Hl Hrows Hu.
  induction path_files as [|p path_files IH]; intros t.
  - exists []. rewrite app_nil_r. repeat split.
  - destruct (with_open_table W config log table p (files p) t) as (new1 & H1 & Ho1 & Hc1 & Hu1);
      auto using in_eq.
    destruct IH with (t := t ++ new1) as (new2 & H2 & Ho2 & Hc2 & Hu2);
      auto using in_cons.
    exists (new1 ++ new2). cbn [for_each]. rewrite (bind_inr _ _ _ _ _ H1). destruct tt.
    rewrite H2, app_assoc, opens_app, closes_app, updates_app, Ho1, Hc1, Hu1, Ho2, Hc2, Hu2.
    repeat split.
Qed.

(** [main] around what it tries, for a configuration with a text as tag
    and a log that can be made. *)
Lemma main_unfold W configfilename config tag log_name t :
  config_in W configfilename = inr config ->
  Py.getitem config "log_dir_tag" = inr (VStr tag) ->
  (forall log_dir, log_made W log_dir "top_processing" = inr log_name) ->
  exists pre,
    opens pre = [] /\ closes pre = [] /\ updates pre = [] /\
    main W configfilename t =
      match update_all W config (VStr log_name) (t ++ pre) with
      | (t1, inl e) =>
          (t1 ++ [log_exception (VStr log_name) "problem updating DatafileUploaded"],
           inl e)
      | (t1, inr _) =>
          (t1 ++ [log_info (VStr log_name) "finish update DatafileUploaded";
                  datetime_now;
                  stdout (now W (t1 ++ [log_info (VStr log_name)
                                          "finish update DatafileUploaded"])
                            ++ " finish update DatafileUploaded")%string],
           inr tt)
      end.
Proof.
  intros Hc Htag Hlog.
  exists [datetime_now;
          stdout (now W t ++ " begin update DatafileUploaded")%string;
          json_load_file configfilename;
          date_today;
          create_log
            (((replace "-" "_"
                 (today W (t ++ [datetime_now;
                                 stdout (now W t ++ " begin update DatafileUploaded")%string;
                                 json_load_file configfilename])) ++ "_")
                ++ tag) ++ "_update_uploaded" ++ "/")%string
            "top_processing";
          log_info (VStr log_name) "begin update DatafileUploaded"].
  split; [reflexivity|]. split; [reflexivity|]. split; [reflexivity|].
  unfold main, emit, bind, perform, lift, try_except, raise, add_str. cbn iota beta.
  rewrite Hc. cbn iota beta. rewrite Htag. cbn iota beta zeta. rewrite Hlog.
  cbn iota beta zeta. rewrite <- !app_assoc. cbn [app].
  destruct (update_all W config (VStr log_name) _) as [t1 [e|[]]];
    rewrite <- ?app_assoc; reflexivity.
Qed.

(** X27. A configuration without the key [log_dir_tag] ends [main] before
    a log exists: the [KeyError] is raised without a log line, and nothing
    was opened, looked up or updated. *)
Theorem main_missing_log_dir_tag W configfilename d t :
  config_in W configfilename = inr (VDict d) ->
  Py.lookup "log_dir_tag" d = None ->
  main W configfilename t =
    (t ++ [datetime_now;
           stdout (now W t ++ " begin update DatafileUploaded")%string;
           json_load_file configfilename;
           date_today],
     inl (KeyError "log_dir_tag")).
Proof.
  intros Hc Hd.
  unfold main, emit, bind, perform, lift. cbn iota beta.
  rewrite Hc. cbn iota beta. unfold Py.getitem. rewrite Hd.
  rewrite <- !app_assoc. reflexivity.
Qed.

(** A configuration with the buckets only. *)
Lemma main_missing_log_dir_tag_witness :
  main (serving (holding []) (VDict [("buckets", VDict [])]) (fun _ => uploaded))
       "config.json" [] =
    ([] ++ [datetime_now;
            stdout (now (serving (holding []) (VDict [("buckets", VDict [])])
                                 (fun _ => uploaded)) []
                      ++ " begin update DatafileUploaded")%string;
            json_load_file "config.json";
            date_today],
     inl (KeyError "log_dir_tag")).
Proof.
  apply (main_missing_log_dir_tag
           (serving (holding []) (VDict [("buckets", VDict [])]) (fun _ => uploaded))
           "config.json" [("buckets", VDict [])] []);
    reflexivity.
Defined.


(** X28. With a configuration that lists files, collaborators that do not
    fail and lines that all name a file: [main] opens, updates and closes
    each file in the order of the list, one update a file, then makes the
    eleven updates of the nulls, and ends with the finishing log line and
    printed line. *)
Theorem main_success W configfilename config tag log_name buckets path_files
    table files t :
  config_in W configfilename = inr config ->
  Py.getitem config "log_dir_tag" = inr (VStr tag) ->
  (forall log_dir, log_made W log_dir "top_processing" = inr log_name) ->
  Py.getitem config "buckets" = inr buckets ->
  Py.getitem buckets "update_uploaded" = inr (VList path_files) ->
  (forall t' path_file, In path_file path_files ->
     opened W t' path_file = inr (files path_file)) ->
  (forall path_file, In path_file path_files ->
     Forall (fun line => exists name, file_name (strip line) = inr name)
            (file_lines (files path_file))) ->
  (forall t' params, rows W t' select_stmt params = inr (table params)) ->
  (forall t' statement params, updated W t' statement params = inr tt) ->
  exists new stamp,
    main W configfilename t =
      (t ++ new ++ [log_info (VStr log_name) "finish update DatafileUploaded";
                    datetime_now;
                    stdout (stamp ++ " finish update DatafileUploaded")%string],
       inr tt) /\
    opens new = path_files /\
    closes new = path_files /\
    updates new =
      List.map (fun path_file =>
                  (update_stmt, flat_map (known table) (file_lines (files path_file))))
               path_files
      ++ List.map (fun statement => (statement, [])) update_null_stmts.
Proof.
  intros Hc Htag Hlog Hb Hp Ho Hl Hrows Hu.
  destruct (main_unfold W configfilename config tag log_name t Hc Htag Hlog)
    as (pre & Hpo & Hpc & Hpu & ->).
  destruct (files_loop W config (VStr log_name) table files path_files Ho Hl Hrows Hu
              (t ++ pre)) as (new & H & Hno & Hnc & Hnu).
  assert (Hall : update_all W config (VStr log_name) (t ++ pre) =
                 ((t ++ pre ++ new)
                    ++ List.map (null_update config (VStr log_name)) update_null_stmts,
                  inr tt)).
  { unfold update_all. unfold bind at 1, lift at 1. rewrite Hb.
    unfold bind at 1, lift at 1. rewrite Hp.
    unfold bind at 1, lift at 1. cbn [items].
    rewrite (bind_inr _ _ _ _ _ H). unfold update_nulls.
    rewrite (null_updates_all _ _ _ _ Hu). now rewrite <- !app_assoc. }
  rewrite Hall.
  exists (pre ++ new ++ List.map (null_update config (VStr log_name)) update_null_stmts).
  eexists. split; [same_trace|].
  destruct (null_updates_no_file config (VStr log_name) update_null_stmts) as [Hzo Hzc].
  rewrite !opens_app, !closes_app, !updates_app, Hpo, Hpc, Hpu, Hno, Hnc, Hnu, Hzo, Hzc,
    null_updates_updates, !app_nil_r.
  repeat split.
Qed.

(** A configuration that lists one file. *)
Lemma main_success_witness :
  exists new stamp,
    main (serving (holding ["a.txt"])
                  (VDict [("log_dir_tag", VStr "tcga");
                          ("buckets",
                           VDict [("update_uploaded", VList [VStr "uploaded.txt"])])])
                  (fun _ => uploaded))
         "config.json" [] =
      ([] ++ new ++ [log_info (VStr "top_processing") "finish update DatafileUploaded";
                     datetime_now;
                     stdout (stamp ++ " finish update DatafileUploaded")%string],
       inr tt) /\
    opens new = [VStr "uploaded.txt"] /\
    closes new = [VStr "uploaded.txt"] /\
    updates new =
      List.map (fun path_file =>
                  (update_stmt,
                   flat_map (known (holding ["a.txt"]))
                            (file_lines ((fun _ => uploaded) path_file))))
               [VStr "uploaded.txt"]
      ++ List.map (fun statement => (statement, [])) update_null_stmts.
Proof.
  apply (main_success
           (serving (holding ["a.txt"])
                    (VDict [("log_dir_tag", VStr "tcga");
                            ("buckets",
                             VDict [("update_uploaded", VList [VStr "uploaded.txt"])])])
                    (fun _ => uploaded))
           "config.json"
           (VDict [("log_dir_tag", VStr "tcga");
                   ("buckets",
                    VDict [("update_uploaded", VList [VStr "uploaded.txt"])])])
           "tcga" "top_processing"
           (VDict [("update_uploaded", VList [VStr "uploaded.txt"])])
           [VStr "uploaded.txt"] (holding ["a.txt"]) (fun _ => uploaded) []);
    [ reflexivity | reflexivity | reflexivity | reflexivity | reflexivity
    | reflexivity
    | intros path_file _; repeat constructor; eexists; reflexivity
    | reflexivity | reflexivity ].
Defined.


(** X29. A listed file that cannot be opened ends [main]: the files before
    it were opened, updated and closed, the exception is logged and raised
    again; the files after it are not opened, the nulls are not updated and
    no finishing line is logged or printed. *)
Theorem main_unreadable_file W configfilename config tag log_name buckets
    done path_file rest table files e t :
  config_in W configfilename = inr config ->
  Py.getitem config "log_dir_tag" = inr (VStr tag) ->
  (forall log_dir, log_made W log_dir "top_processing" = inr log_name) ->
  Py.getitem config "buckets" = inr buckets ->
  Py.getitem buckets "update_uploaded" = inr (VList (done ++ path_file :: rest)) ->
  (forall t' p, In p done -> opened W t' p = inr (files p)) ->
  (forall t', opened W t' path_file = inl e) ->
  (forall p, In p done ->
     Forall (fun line => exists name, file_name (strip line) = inr name)
            (file_lines (files p))) ->
  (forall t' params, rows W t' select_stmt params = inr (table params)) ->
  (forall t' statement params, updated W t' statement params = inr tt) ->
  exists new,
    main W configfilename t =
      (t ++ new ++ [open_file path_file;
                    log_exception (VStr log_name) "problem updating DatafileUploaded"],
       inl e) /\
    opens new = done /\
    closes new = done /\
    updates new =
      List.map (fun p => (update_stmt, flat_map (known table) (file_lines (files p))))
               done.
Proof.
  intros Hc Htag Hlog Hb Hp Ho Hbad Hl Hrows Hu.
  destruct (main_unfold W configfilename config tag log_name t Hc Htag Hlog)
    as (pre & Hpo & Hpc & Hpu & ->).
  destruct (files_loop W config (VStr log_name) table files done Ho Hl Hrows Hu
              (t ++ pre)) as (new & H & Hno & Hnc & Hnu).
  assert (Hall : update_all W config (VStr log_name) (t ++ pre) =
                 ((t ++ pre ++ new) ++ [open_file path_file], inl e)).
  { unfold update_all. unfold bind at 1, lift at 1. rewrite Hb.
    unfold bind at 1, lift at 1. rewrite Hp.
    unfold bind at 1, lift at 1. cbn [items].
    unfold bind at 1. rewrite for_each_app, (bind_inr _ _ _ _ _ H). cbn [for_each].
    unfold with_open, bind, perform. rewrite Hbad. now rewrite <- !app_assoc. }
  rewrite Hall.
  exists (pre ++ new). split; [same_trace|].
  rewrite !opens_app, !closes_app, !updates_app, Hpo, Hpc, Hpu, Hno, Hnc, Hnu.
  repeat split.
Qed.

(** The second of three listed files cannot be opened. *)
Lemma main_unreadable_file_witness :
  exists new,
    main (missing "gone.txt"
            (serving (holding ["a.txt"])
                     (VDict [("log_dir_tag", VStr "tcga");
                             ("buckets",
                              VDict [("update_uploaded",
                                      VList [VStr "uploaded.txt"; VStr "gone.txt";
                                             VStr "later.txt"])])])
                     (fun _ => uploaded)))
         "config.json" [] =
      ([] ++ new ++ [open_file (VStr "gone.txt");
                     log_exception (VStr "top_processing")
                                   "problem updating DatafileUploaded"],
       inl (Raised VNone)) /\
    opens new = [VStr "uploaded.txt"] /\
    closes new = [VStr "uploaded.txt"] /\
    updates new =
      List.map (fun p => (update_stmt,
                          flat_map (known (holding ["a.txt"]))
                                   (file_lines ((fun _ => uploaded) p))))
               [VStr "uploaded.txt"].
Proof.
  apply (main_unreadable_file
           (missing "gone.txt"
              (serving (holding ["a.txt"])
                       (VDict [("log_dir_tag", VStr "tcga");
                               ("buckets",
                                VDict [("update_uploaded",
                                        VList [VStr "uploaded.txt"; VStr "gone.txt";
                                               VStr "later.txt"])])])
                       (fun _ => uploaded)))
           "config.json"
           (VDict [("log_dir_tag", VStr "tcga");
                   ("buckets",
                    VDict [("update_uploaded",
                            VList [VStr "uploaded.txt"; VStr "gone.txt";
                                   VStr "later.txt"])])])
           "tcga" "top_processing"
           (VDict [("update_uploaded",
                    VList [VStr "uploaded.txt"; VStr "gone.txt"; VStr "later.txt"])])
           [VStr "uploaded.txt"] (VStr "gone.txt") [VStr "later.txt"]
           (holding ["a.txt"]) (fun _ => uploaded) (Raised VNone) []);
    [ reflexivity | reflexivity | reflexivity | reflexivity | reflexivity
    | intros t' p [<-|[]]; reflexivity
    | reflexivity
    | intros p _; repeat constructor; eexists; reflexivity
    | reflexivity | reflexivity ].
Defined.



(** *** Files opened and closed *)

Lemma update_quiet W config path_file log t :
  exists new r,
    updateDatafileUploaded W config path_file log t = (t ++ new, r) /\
    opens new = [] /\ closes new = [].
Proof.
  destruct (loop_shape W config log (file_lines path_file)
              {| found_path_names := []; notfound_path_names := []; count := 0 |}
              (t ++ [log_info log (tab ++ "processing path/name combinations from "
                                       ++ file_str path_file
                                       ++ " for existence in the database")%string]))
    as (new & r & H & Hc & _).
  rewrite (update_unfold _ _ _ _ _ _ _ H).
  destruct (checking_no_file _ _ _ Hc) as [Ho Hcl].
  set (start := log_info log _) in *.
  destruct r as [e|s]; cbn zeta.
  - exists (start :: new ++ [log_exception log (tab ++ "problem updating")%string]), (inl e).
    split; [same_trace|].
    unfold opens, closes in *. cbn [flat_map app]. rewrite !flat_map_app, Ho, Hcl.
    split; reflexivity.
  - destruct (updated W _ update_stmt (found_path_names s)) as [e|[]].
    + exists (start :: new ++
              [log_info log (summary (count s) (notfound_path_names s));
               db_update config update_stmt log (found_path_names s) (Some false);
               log_exception log (tab ++ "problem updating")%string]), (inl e).
      split; [same_trace|].
      unfold opens, closes in *. cbn [flat_map app]. rewrite !flat_map_app, Ho, Hcl.
      split; reflexivity.
    + exists (start :: new ++
              [log_info log (summary (count s) (notfound_path_names s));
               db_update config update_stmt log (found_path_names s) (Some false)]), (inr tt).
      split; [same_trace|].
      unfold opens, closes in *. cbn [flat_map app]. rewrite !flat_map_app, Ho, Hcl.
      split; reflexivity.
Qed.

Lemma with_open_shape W config log path_file t :
  exists new r,
    with_open W path_file (fun paths => updateDatafileUploaded W config paths log) t =
      (t ++ new, r) /\
    opens new = [path_file] /\
    (closes new = [path_file] \/ closes new = [] /\ exists e, r = inl e).
Proof.
  unfold with_open, bind, perform at 1.
  destruct (opened W t path_file) as [e|paths].
  - exists [open_file path_file], (inl e). split; [reflexivity|]. split; [reflexivity|].
    right. eauto.
  - destruct (update_quiet W config paths log (t ++ [open_file path_file]))
      as (new & r & -> & Ho & Hc).
    exists (open_file path_file :: new ++ [close_file path_file]), r.
    split; [same_trace|].
    unfold opens, closes in *. cbn [flat_map app]. rewrite !flat_map_app, Ho, Hc.
    split; [reflexivity | left; reflexivity].
Qed.

Lemma files_loop_shape W config log path_files :
  forall t, exists new r,
    for_each path_files
      (fun path_file _ =>
         with_open W path_file (fun paths => updateDatafileUploaded W config paths log))
      tt t = (t ++ new, r) /\
    (closes new = opens new \/
     exists path_file e, opens new = closes new ++ [path_file] /\ r = inl e).
Proof.
  induction path_files as [|p path_files IH]; intros t.
  - exists [], (inr tt). rewrite app_nil_r. split; [reflexivity | now left].
  - destruct (with_open_shape W config log p t) as (new1 & r1 & H1 & Ho1 & Hc1).
    cbn [for_each]. destruct r1 as [e|[]].
    + exists new1, (inl e). rewrite (bind_inl _ _ _ _ _ H1). split; [reflexivity|].
      rewrite Ho1. destruct Hc1 as [->|[-> _]]; [now left|]. right. now exists p, e.
    + destruct Hc1 as [Hc1|[_ [e He]]]; [|discriminate].
      destruct (IH (t ++ new1)) as (new2 & r2 & H2 & Hb).
      exists (new1 ++ new2), r2. rewrite (bind_inr _ _ _ _ _ H1), H2, app_assoc.
      split; [reflexivity|]. rewrite opens_app, closes_app, Ho1, Hc1.
      destruct Hb as [->|(q & e & -> & ->)]; [now left|]. right. now exists q, e.
Qed.

Lemma null_updates_shape W config log stmts :
  forall t, exists new r,
    for_each stmts
      (fun update_null_stmt _ =>
         perform (db_update config update_null_stmt log [] None)
                 (fun t => updated W t update_null_stmt []))
      tt t = (t ++ new, r) /\
    opens new = [] /\ closes new = [].
Proof.
  induction stmts as [|a stmts IH]; intros t; cbn [for_each].
  - exists [], (inr tt). rewrite app_nil_r. repeat split.
  - unfold bind, perform at 1. destruct (updated W t a []) as [e|[]].
    + exists [db_update config a log [] None], (inl e). repeat split.
    + destruct (IH (t ++ [db_update config a log [] None])) as (new & r & -> & Ho & Hc).
      exists (db_update config a log [] None :: new), r.
      split; [same_trace|]. split; assumption.
Qed.

Lemma update_all_shape W config log t :
  exists new r,
    update_all W config log t = (t ++ new, r) /\
    (closes new = opens new \/
     exists path_file e, opens new = closes new ++ [path_file] /\ r = inl e).
Proof.
  unfold update_all.
  unfold bind at 1, lift at 1.
  destruct (Py.getitem config "buckets") as [e|buckets];
    [exists [], (inl e); rewrite app_nil_r; split; [reflexivity | now left]|].
  unfold bind at 1, lift at 1.
  destruct (Py.getitem buckets "update_uploaded") as [e|path_files];
    [exists [], (inl e); rewrite app_nil_r; split; [reflexivity | now left]|].
  unfold bind at 1, lift at 1.
  destruct (items path_files) as [e|l];
    [exists [], (inl e); rewrite app_nil_r; split; [reflexivity | now left]|].
  destruct (files_loop_shape W config log l t) as (new1 & r1 & H1 & Hb).
  destruct r1 as [e|[]].
  - exists new1, (inl e). rewrite (bind_inl _ _ _ _ _ H1). auto.
  - rewrite (bind_inr _ _ _ _ _ H1). unfold update_nulls.
    destruct (null_updates_shape W config log update_null_stmts (t ++ new1))
      as (new2 & r2 & -> & Ho & Hc).
    exists (new1 ++ new2), r2. rewrite app_assoc. split; [reflexivity|].
    rewrite opens_app, closes_app, Ho, Hc, !app_nil_r.
    destruct Hb as [->|(q & e & _ & He)]; [now left | discriminate].
Qed.

(** X30. Whatever the configuration and the collaborators, [main] closes
    every file it opened, also when the update of the file raises: the files
    closed are the files opened, in their order, apart from a last file that
    could not be opened, and then [main] raises. *)
Theorem main_closes_files W configfilename t :
  exists new r,
    main W configfilename t = (t ++ new, r) /\
    (closes new = opens new \/
     exists path_file e, opens new = closes new ++ [path_file] /\ r = inl e).
Proof.
  unfold main, emit.
  unfold bind at 1, perform at 1. unfold bind at 1, perform at 1.
  unfold bind at 1, perform at 1.
  destruct (config_in W configfilename) as [e|config];
    [eexists [_; _; _], (inl e); split; [same_trace | now left]|].
  unfold bind at 1, perform at 1. unfold bind at 1, lift at 1.
  destruct (Py.getitem config "log_dir_tag") as [e|tag];
    [eexists [_; _; _; _], (inl e); split; [same_trace | now left]|].
  unfold bind at 1, lift at 1.
  destruct (add_str _ tag) as [e|dir];
    [eexists [_; _; _; _], (inl e); split; [same_trace | now left]|].
  cbn zeta. unfold bind at 1, perform at 1.
  destruct (log_made W _ "top_processing") as [e|log_name];
    [eexists [_; _; _; _; _], (inl e); split; [same_trace | now left]|].
  unfold bind at 1, perform at 1. unfold bind at 1, try_except.
  match goal with |- context [update_all W config (VStr log_name) ?t0] =>
    destruct (update_all_shape W config (VStr log_name) t0) as (new & r & -> & Hb) end.
  destruct r as [e|[]].
  - unfold bind, perform, raise.
    eexists (_ :: _ :: _ :: _ :: _ :: _ :: new ++ [_]), (inl e).
    split; [same_trace|].
    unfold opens, closes in *. cbn [flat_map app]. rewrite !flat_map_app. cbn [flat_map].
    rewrite !app_nil_r. destruct Hb as [->|(q & e' & -> & He)]; [now left|].
    right. now exists q, e.
  - unfold bind, perform.
    eexists (_ :: _ :: _ :: _ :: _ :: _ :: new ++ [_; _; _]), (inr tt).
    split; [same_trace|].
    unfold opens, closes in *. cbn [flat_map app]. rewrite !flat_map_app. cbn [flat_map].
    rewrite !app_nil_r. destruct Hb as [->|(q & e' & _ & He)]; [now left | discriminate].
Qed.

End UploadFacts.
